(** * partpost: particle-track NetCDF to vector geometry conversion

    A shallow embedding of [src/partpost/proc.py] ([export_gdf],
    [ncTrk2line], [ncTrk2pt]) and [src/partpost/cli.py] ([process_task],
    [main]), followed by the properties of the downscaler, the validity
    masker, the two geometry builders, the exporter and the batch runner.

    Conventions of the embedding:
    - float64 values are IEEE-754 binary64 numbers ([spec_float] with
      precision 53 and maximal exponent 1024);
    - datetime64[ns] values are nanosecond counts in [Z], with the NaT
      marker written out;
    - strings are sequences of 8-bit characters, [lower] and [upper] act
      on the ASCII letters, and paths follow the POSIX flavour of
      [os.path];
    - console output, directory creation, file writes and dataset handles
      are events appended to a trace threaded through a small state and
      exception monad. *)

From Stdlib Require Import String Ascii ZArith List Bool Lia Sorted SpecFloat.
Import ListNotations.

Open Scope Z_scope.

(** ** Outcomes: Python exceptions *)

Inductive exn : Set :=
| FileNotFoundError
| KeyError
| ZeroDivisionError
| ValueError
| OverflowError
| TypeError
| AttributeError
| OSError
| BackendError.

Inductive res (A : Type) : Type :=
| Ret (a : A)
| Raise (e : exn).
Arguments Ret {A} a.
Arguments Raise {A} e.

(** ** float64 *)

Module F64.

Definition prec : Z := 53.
Definition emax : Z := 1024.

Definition nan : spec_float := S754_nan.
Definition of_Z (z : Z) : spec_float := binary_normalize prec emax z 0 false.

Definition add : spec_float -> spec_float -> spec_float := SFadd prec emax.
Definition sub : spec_float -> spec_float -> spec_float := SFsub prec emax.
Definition mul : spec_float -> spec_float -> spec_float := SFmul prec emax.
Definition div : spec_float -> spec_float -> spec_float := SFdiv prec emax.
Definition eqb : spec_float -> spec_float -> bool := SFeqb.
Definition ltb : spec_float -> spec_float -> bool := SFltb.
Definition leb : spec_float -> spec_float -> bool := SFleb.

Definition isnan (f : spec_float) : bool :=
  match f with S754_nan => true | _ => false end.

Definition isfinite (f : spec_float) : bool :=
  match f with
  | S754_zero _ | S754_finite _ _ _ => true
  | S754_infinity _ | S754_nan => false
  end.

Definition is_zero (f : spec_float) : bool :=
  match f with S754_zero _ => true | _ => false end.

Definition is_inf (f : spec_float) : bool :=
  match f with S754_infinity _ => true | _ => false end.

End F64.

(** float64 values *)
#[warnings="-notation-for-abbreviation"]
Notation float := spec_float.

(** ** Python numbers as they come out of the JSON configuration *)

Inductive pynum : Set :=
| PyInt (z : Z)
| PyFloat (f : float).

(** [downscale_hours * 3600] *)
Definition times_3600 (h : pynum) : pynum :=
  match h with
  | PyInt z => PyInt (z * 3600)
  | PyFloat f => PyFloat (F64.mul f (F64.of_Z 3600))
  end.

(** conversion of the left operand of a true division by a float *)
Definition as_double (a : pynum) : res float :=
  match a with
  | PyFloat f => Ret f
  | PyInt z =>
      let f := F64.of_Z z in
      if F64.is_inf f then Raise OverflowError else Ret f
  end.

(** [a / b] with [b] a Python float *)
Definition py_truediv (a : pynum) (b : float) : res float :=
  match as_double a with
  | Raise e => Raise e
  | Ret fa => if F64.is_zero b then Raise ZeroDivisionError
              else Ret (F64.div fa b)
  end.

(** [m / 2^k] rounded to the nearest integer, ties to even *)
Definition half_even_shift (m k : Z) : Z :=
  let d := 2 ^ k in
  let q := m / d in
  let r := m mod d in
  if (d <? 2 * r) || ((2 * r =? d) && Z.odd q) then q + 1 else q.

(** [round(x)] of a Python float, one argument *)
Definition py_round (f : float) : res Z :=
  match f with
  | S754_nan => Raise ValueError
  | S754_infinity _ => Raise OverflowError
  | S754_zero _ => Ret 0
  | S754_finite s m e =>
      let a := if 0 <=? e then Zpos m * 2 ^ e
               else half_even_shift (Zpos m) (- e) in
      Ret (if s then - a else a)
  end.

(** ** numpy helpers *)

Fixpoint insert_sorted (x : float) (l : list float) : list float :=
  match l with
  | [] => [x]
  | y :: t => if F64.leb x y then x :: l else y :: insert_sorted x t
  end.

Definition np_sort (l : list float) : list float :=
  fold_right insert_sorted [] l.

(** [np.median] of a one-dimensional float64 array *)
Definition np_median (l : list float) : float :=
  if existsb F64.isnan l then F64.nan
  else
    let s := np_sort l in
    let n := length l in
    match n with
    | O => F64.nan
    | _ =>
        if Nat.odd n then nth (Nat.div n 2) s F64.nan
        else F64.div (F64.add (nth (Nat.div n 2 - 1) s F64.nan)
                              (nth (Nat.div n 2) s F64.nan))
                     (F64.of_Z 2)
    end.

(** [a[::step]] for [step >= 1]: every [step]-th element from index 0.
    [stride_from skip gap l] drops [skip] elements, keeps one, and then
    keeps one element after every [gap] dropped ones. *)
Fixpoint stride_from {A : Type} (skip gap : nat) (l : list A) : list A :=
  match l with
  | [] => []
  | x :: t =>
      match skip with
      | O => x :: stride_from gap gap t
      | S k => stride_from k gap t
      end
  end.

Definition slice_step {A : Type} (step : Z) (l : list A) : list A :=
  stride_from 0 (Z.to_nat step - 1) l.

(** [ceil(n / k)] on integers *)
Definition ceil_div (n k : Z) : Z := (n + k - 1) / k.

(** ** datetime64[ns] *)

Definition NaT : Z := - 2 ^ 63.

Definition wrap64 (z : Z) : Z := (z + 2 ^ 63) mod 2 ^ 64 - 2 ^ 63.

(** one element of [np.diff] on a datetime64 array *)
Definition dt64_sub (b a : Z) : Z :=
  if (a =? NaT) || (b =? NaT) then NaT else wrap64 (b - a).

(** a timedelta64[ns] divided by [np.timedelta64(1, "s")] *)
Definition td_seconds (d : Z) : float :=
  if d =? NaT then F64.nan else F64.div (F64.of_Z d) (F64.of_Z 1000000000).

Fixpoint np_diff {A B : Type} (f : A -> A -> B) (l : list A) : list B :=
  match l with
  | a :: ((b :: _) as t) => f b a :: np_diff f t
  | _ => []
  end.

(** [.round("s")] of pandas: nearest whole second, ties to even, for the
    instants whose rounding is still an int64 *)
Definition round_s (t : Z) : Z :=
  if t =? NaT then NaT
  else
    let u := 1000000000 in
    let q := t / u in
    let r := t mod u in
    if (u / 2 <? r) || ((r =? u / 2) && Z.odd q) then (q + 1) * u else q * u.

(** ** Paths and strings ([os.path] in its POSIX flavour, [str.lower]) *)

Open Scope string_scope.
Open Scope Z_scope.

(** [s.rfind(c)]: index of the last occurrence of [c], or [-1] *)
Fixpoint rfind_from (c : ascii) (s : string) (i : Z) : Z :=
  match s with
  | EmptyString => -1
  | String a t =>
      let j := rfind_from c t (i + 1) in
      if 0 <=? j then j else if Ascii.eqb a c then i else -1
  end.

Definition rfind (c : ascii) (s : string) : Z := rfind_from c s 0.

(** [s[:i]] and [s[i:]] for [0 <= i] *)
Definition str_take (i : Z) (s : string) : string :=
  substring 0 (Z.to_nat i) s.
Definition str_drop (i : Z) (s : string) : string :=
  substring (Z.to_nat i) (String.length s - Z.to_nat i) s.

Definition sep : ascii := "/"%char.
Definition extsep : ascii := "."%char.

(** [os.path.basename] *)
Definition basename (p : string) : string := str_drop (rfind sep p + 1) p.

Fixpoint all_char (c : ascii) (s : string) : bool :=
  match s with
  | EmptyString => true
  | String a t => Ascii.eqb a c && all_char c t
  end.

(** [s.rstrip(c)] *)
Fixpoint rstrip (c : ascii) (s : string) : string :=
  match s with
  | EmptyString => EmptyString
  | String a t => if all_char c s then EmptyString else String a (rstrip c t)
  end.

(** [os.path.dirname] *)
Definition dirname (p : string) : string :=
  let head := str_take (rfind sep p + 1) p in
  if negb (String.eqb head EmptyString) && negb (all_char sep head)
  then rstrip sep head else head.

(** the loop of [genericpath._splitext] that skips leading dots:
    is there a character other than the dot in [p[i:dot]]? *)
Definition char_at (i : Z) (s : string) : option ascii :=
  String.get (Z.to_nat i) s.

Fixpoint has_non_dot (p : string) (i : Z) (n : nat) : bool :=
  match n with
  | O => false
  | S k =>
      match char_at i p with
      | Some c => if Ascii.eqb c extsep then has_non_dot p (i + 1) k else true
      | None => true
      end
  end.

(** [os.path.splitext(p)[1]] *)
Definition splitext_ext (p : string) : string :=
  let sepIndex := rfind sep p in
  let dotIndex := rfind extsep p in
  if (sepIndex <? dotIndex)
     && has_non_dot p (sepIndex + 1) (Z.to_nat (dotIndex - (sepIndex + 1)))
  then str_drop dotIndex p
  else EmptyString.

Definition lower_char (c : ascii) : ascii :=
  let n := nat_of_ascii c in
  if (Nat.leb 65 n && Nat.leb n 90)%bool then ascii_of_nat (n + 32) else c.

Definition upper_char (c : ascii) : ascii :=
  let n := nat_of_ascii c in
  if (Nat.leb 97 n && Nat.leb n 122)%bool then ascii_of_nat (n - 32) else c.

Fixpoint str_map (f : ascii -> ascii) (s : string) : string :=
  match s with
  | EmptyString => EmptyString
  | String a t => String (f a) (str_map f t)
  end.

(** [str.lower] and [str.upper] on the ASCII range, where they map the
    26 letters and nothing else.  Outside it Python follows Unicode (the
    Kelvin sign lowers to [k], a sharp s uppers to [SS]); a statement that
    depends on the case of a text holds for [ascii_only] texts. *)
Definition lower : string -> string := str_map lower_char.
Definition upper : string -> string := str_map upper_char.

Fixpoint ascii_only (s : string) : bool :=
  match s with
  | EmptyString => true
  | String c t => (Nat.ltb (nat_of_ascii c) 128 && ascii_only t)%bool
  end.

(** ** Data model *)

(** A coordinate variable: a float array shaped [time, particle] with its
    attribute dictionary.  [ncols] is the size of the particle dimension,
    which the array keeps when it has no row. *)
Record CoordVar : Set := {
  values : list (list float);
  ncols : nat;
  attrs : list (string * float)
}.

(** An element of a time axis that was not decoded to datetime64 and has
    a [.timestamp()] method ([datetime.datetime], [pd.Timestamp]): what the
    method returns and the instant [pd.to_datetime] gives the element.
    Axes of elements without the method are not in the model: a cftime
    axis, or the integer index [ds["time"]] stands for when the arrays
    have a time dimension and the dataset no time variable, end the
    routines in [AttributeError] on line 103 or 203. *)
Record pytime : Set := {
  timestamp : float;
  as_ns : Z
}.

Inductive time_array : Set :=
| Datetime64 (ns : list Z)
| ObjectTimes (ts : list pytime).

(** What [ds[name]] finds under the three names the routines use: the
    variable, or nothing, for a name the dataset does not know
    ([KeyError]). *)
Record Dataset : Set := {
  particles_x_coordinate : option CoordVar;
  particles_y_coordinate : option CoordVar;
  time : option time_array
}.

Inductive geometry : Set :=
| Point (x y : float)
| LineString (coords : list (float * float)).

(** A column of a data frame, by dtype.  [TimeStrCol] is a datetime
    column after [.astype(str)]. *)
Inductive column : Set :=
| IntCol (l : list Z)
| DatetimeCol (l : list Z)
| TimeStrCol (l : list Z)
| FloatCol (l : list float)
| GeomCol (l : list geometry).

Definition DataFrame : Set := list (string * column).

Record GeoDataFrame : Set := {
  frame : DataFrame;
  crs : string
}.

(** [gpd.GeoDataFrame(data, geometry=g, crs=c)]: the geometries become the
    column named "geometry", after the columns of [data]. *)
Definition mkGeoDataFrame (data : DataFrame) (g : list geometry) (c : string)
  : GeoDataFrame :=
  {| frame := (data ++ [("geometry", GeomCol g)])%list; crs := c |}.

Definition is_datetime64_any_dtype (c : column) : bool :=
  match c with DatetimeCol _ => true | _ => false end.

Definition is_geometry (c : column) : bool :=
  match c with GeomCol _ => true | _ => false end.

(** the loop [for col in df.columns: if is_datetime64_any_dtype(df[col]):
    df[col] = df[col].astype(str)] *)
Definition stringify_datetimes (df : DataFrame) : DataFrame :=
  map (fun '(name, c) =>
         match c with
         | DatetimeCol l => (name, TimeStrCol l)
         | _ => (name, c)
         end) df.

(** A parsed JSON document ([json.load]): numbers are Python ints or
    floats, objects are dictionaries. *)
#[warnings="-register-all"]
Inductive json : Set :=
| JNull
| JBool (b : bool)
| JNum (n : pynum)
| JStr (s : string)
| JArr (l : list json)
| JObj (kv : list (string * json)).

(** [d.get(k)] on a dictionary kept as an association list *)
Fixpoint dict_get {V : Type} (d : list (string * V)) (k : string) : option V :=
  match d with
  | [] => None
  | (k', v) :: t => if String.eqb k' k then Some v else dict_get t k
  end.

(** ** Effects *)

Inductive msg : Set :=
| MsgSaving (path : string)
| MsgCsvSaved
| MsgExcelSaved
| MsgUnknownExt (ext : string)
| MsgSavedDriver (driver : string)
| MsgLoaded (name : string)
| MsgTimestep (median_dt : float) (step : Z) (hours : pynum)
| MsgDownscaled (n_time n_particles : nat)
| MsgCreatedTracks (n : nat)
| MsgNoTracks
| MsgPreparingPoints (n : nat)
| MsgNoPoints
| MsgTaskMissing
| MsgStartTask (mode name : string)
| MsgUnknownMode (mode : string)
| MsgTaskError (e : exn)
| MsgTraceback (e : exn)
| MsgConfigNotFound (path : string)
| MsgInvalidJson
| MsgFoundTasks (n : nat)
| MsgAllDone.

(** What a writing backend is called on.  [to_csv] and [to_excel]
    serialise every column of the frame they are called on (pandas writes
    all columns unless [columns=] is given; [index=False] only drops the
    row index); [to_file] hands the whole geo frame to the named driver,
    or to the driver geopandas infers when none is given. *)
Inductive written : Set :=
| CsvTable (df : DataFrame)
| ExcelTable (df : DataFrame)
| VectorLayer (driver : option string) (gdf : GeoDataFrame).

(** What the program does to the outside world, one event per call that
    returned.  [WriteFile path w] is a completed call of [to_csv],
    [to_excel] or [to_file] with [path] as its argument: which files the
    backend creates for it is the backend's own business (the Shapefile
    driver writes several side files next to the one it is given, a
    driver-less [to_file] may create a directory), and is not recorded.
    [Makedirs dir] is a completed [os.makedirs(dir, exist_ok=True)],
    missing parents included. *)
Inductive event : Set :=
| Print (m : msg)
| OpenDataset (path : string)
| CloseDataset (path : string)
| Makedirs (dir : string)
| WriteFile (path : string) (w : written).

(** The part of the outside world the program reads: which paths are
    regular files, what [xr.open_dataset] finds there (or raises), which
    directory creations and file writes the backends refuse, which
    configuration paths exist and what [json.load] makes of them ([None]
    for a [JSONDecodeError]). *)
Record env : Type := {
  isfile : string -> bool;
  stored_dataset : string -> res Dataset;
  makedirs_error : string -> option exn;
  write_error : string -> written -> option exn;
  path_exists : string -> bool;
  json_load : string -> option json
}.

(** Computations: a trace of events in chronological order is threaded
    through, and a computation ends with a value or with an exception. *)
Definition M (A : Type) : Type := list event -> res A * list event.

Definition ret {A : Type} (a : A) : M A := fun tr => (Ret a, tr).
Definition raise {A : Type} (e : exn) : M A := fun tr => (Raise e, tr).
Definition lift {A : Type} (r : res A) : M A := fun tr => (r, tr).

Definition bind {A B : Type} (m : M A) (k : A -> M B) : M B :=
  fun tr =>
    match m tr with
    | (Ret a, tr') => k a tr'
    | (Raise e, tr') => (Raise e, tr')
    end.

Definition emit (e : event) : M unit := fun tr => (Ret tt, (tr ++ [e])%list).
Definition print (m : msg) : M unit := emit (Print m).

(** [try: m  except Exception as e: h e] *)
Definition try_except {A : Type} (m : M A) (h : exn -> M A) : M A :=
  fun tr =>
    match m tr with
    | (Ret a, tr') => (Ret a, tr')
    | (Raise e, tr') => h e tr'
    end.

Notation "x <- m ;; k" := (bind m (fun x => k))
  (at level 61, m at next level, right associativity).
Notation "m ;; k" := (bind m (fun _ => k))
  (at level 61, right associativity).

(** ** The exporter ([export_gdf]) *)

Definition DRIVER_MAP : list (string * string) :=
  [ (".shp", "ESRI Shapefile");
    (".gpkg", "GPKG");
    (".json", "GeoJSON");
    (".geojson", "GeoJSON");
    (".geojsonl", "GeoJSONSeq");
    (".sqlite", "SQLite");
    (".gml", "GML");
    (".kml", "KML") ].

Definition makedirs (E : env) (dir : string) : M unit :=
  match makedirs_error E dir with
  | Some e => raise e
  | None => emit (Makedirs dir)
  end.

Definition write (E : env) (path : string) (w : written) : M unit :=
  match write_error E path w with
  | Some e => raise e
  | None => emit (WriteFile path w)
  end.

(** [df.to_csv(path, index=False)] *)
Definition to_csv (E : env) (df : DataFrame) (path : string) : M unit :=
  write E path (CsvTable df).

(** [df.to_excel(path, index=False)].  pandas looks the writer engine up
    under the extension of [path] as it is written, before it opens any
    file; the lookup is case-sensitive, and of the extensions that reach
    this call ([.xlsx] in some letter case) only [.xlsx] itself has an
    engine: the others end in [ValueError] ("No engine for filetype"). *)
Definition to_excel (E : env) (df : DataFrame) (path : string) : M unit :=
  if String.eqb (splitext_ext path) ".xlsx" then write E path (ExcelTable df)
  else raise ValueError.

(** [gdf.to_file(path)] and [gdf.to_file(path, driver=driver)] *)
Definition to_file (E : env) (gdf : GeoDataFrame) (path : string)
  (driver : option string) : M unit :=
  write E path (VectorLayer driver gdf).

Definition export_gdf (E : env) (gdf : GeoDataFrame) (output_path : string)
  : M unit :=
  let ext := lower (splitext_ext output_path) in
  let output_dir := dirname output_path in
  (if negb (String.eqb output_dir EmptyString) then makedirs E output_dir
   else ret tt) ;;
  print (MsgSaving output_path) ;;
  if String.eqb ext ".csv" then
    to_csv E (frame gdf) output_path ;;
    print MsgCsvSaved
  else if String.eqb ext ".xlsx" then
    let df_copy := stringify_datetimes (frame gdf) in
    to_excel E df_copy output_path ;;
    print MsgExcelSaved
  else
    match dict_get DRIVER_MAP ext with
    | None =>
        print (MsgUnknownExt ext) ;;
        to_file E gdf output_path None
    | Some driver =>
        (if String.eqb driver "ESRI Shapefile" then
           let gdf_export :=
             {| frame := stringify_datetimes (frame gdf); crs := crs gdf |} in
           to_file E gdf_export output_path (Some driver)
         else
           to_file E gdf output_path (Some driver)) ;;
        print (MsgSavedDriver driver)
    end.

(** ** Shared expressions of the two conversion routines *)

Definition res_bind {A B : Type} (r : res A) (k : A -> res B) : res B :=
  match r with
  | Ret a => k a
  | Raise e => Raise e
  end.

(** [ds[name]] *)
Definition getitem {A : Type} (v : option A) : M A :=
  match v with
  | Some a => ret a
  | None => raise KeyError
  end.

(** [xr.open_dataset(nc_file, decode_times=True)]: the dataset comes back
    holding an open handle on the file. *)
Definition xr_open_dataset (E : env) (nc_file : string) : M Dataset :=
  match stored_dataset E nc_file with
  | Ret ds => emit (OpenDataset nc_file) ;; ret ds
  | Raise e => raise e
  end.

(** [lon.attrs.get("_FillValue", -999.0)] *)
Definition attrs_get (a : list (string * float)) (k : string) (dflt : float)
  : float :=
  match dict_get a k with
  | Some v => v
  | None => dflt
  end.

(** the consecutive differences of the time axis, in seconds: the
    datetime64 branch and the per-element [.timestamp()] branch *)
Definition native_dt_seconds (time_values : time_array) : list float :=
  match time_values with
  | Datetime64 ns => map td_seconds (np_diff dt64_sub ns)
  | ObjectTimes ts => np_diff F64.sub (map timestamp ts)
  end.

(** [max(1, int(round(downscale_seconds / median_dt)))] *)
Definition compute_step (downscale_seconds : pynum) (median_dt : float)
  : res Z :=
  res_bind (py_truediv downscale_seconds median_dt) (fun q =>
  res_bind (py_round q) (fun r =>
  Ret (Z.max 1 r))).

Definition time_len (tv : time_array) : nat :=
  match tv with
  | Datetime64 ns => length ns
  | ObjectTimes ts => length ts
  end.

(** [time_values[::step]] *)
Definition time_slice (step : Z) (tv : time_array) : time_array :=
  match tv with
  | Datetime64 ns => Datetime64 (slice_step step ns)
  | ObjectTimes ts => ObjectTimes (slice_step step ts)
  end.

(** [pd.to_datetime(a)] as nanosecond instants *)
Definition to_datetime (tv : time_array) : list Z :=
  match tv with
  | Datetime64 ns => ns
  | ObjectTimes ts => map as_ns ts
  end.

(** [a[a == fill_val] = np.nan] *)
Definition mask_fill (fill_val : float) (a : list (list float))
  : list (list float) :=
  map (map (fun v => if F64.eqb v fill_val then F64.nan else v)) a.

(** [a[:, pid]] *)
Definition column_of (pid : nat) (a : list (list float)) : list float :=
  map (fun row => nth pid row F64.nan) a.

(** [a[i, j]] *)
Definition cell (a : list (list float)) (i j : nat) : float :=
  nth j (nth i a []) F64.nan.

(** [a[mask]] with a boolean mask of the length of [a] (numpy and pandas
    raise [IndexError] on a mask of another length) *)
Fixpoint bool_index {A : Type} (a : list A) (mask : list bool) : list A :=
  match a, mask with
  | x :: t, b :: m => if b then x :: bool_index t m else bool_index t m
  | _, _ => []
  end.

Fixpoint zip_with {A B C : Type} (f : A -> B -> C) (a : list A) (b : list B)
  : list C :=
  match a, b with
  | x :: s, y :: t => f x y :: zip_with f s t
  | _, _ => []
  end.

(** ** Line mode ([ncTrk2line]) *)

(** the four lists the loop over the particles fills *)
Record line_acc : Set := {
  lines : list geometry;
  valid_pids : list nat;
  times_start : list Z;
  times_end : list Z
}.

Definition line_acc0 : line_acc :=
  {| lines := []; valid_pids := []; times_start := []; times_end := [] |}.

(** [np.isfinite(coords).all(axis=1)] on the two stacked columns *)
Definition finite_rows (coords : list (float * float)) : list bool :=
  map (fun c => F64.isfinite (fst c) && F64.isfinite (snd c)) coords.

(** one turn of [for pid in range(n_particles)], on arrays of one shape
    and a time axis of their length, which a well-shaped dataset gives;
    on others [np.column_stack] raises [ValueError] and the boolean index
    of [time_sub] raises [IndexError] *)
Definition line_body (lon_sub lat_sub : list (list float)) (time_sub : list Z)
  (acc : line_acc) (pid : nat) : line_acc :=
  let x := column_of pid lon_sub in
  let y := column_of pid lat_sub in
  if forallb F64.isnan x || forallb F64.isnan y then acc
  else
    let coords := combine x y in
    let mask := finite_rows coords in
    let coords := bool_index coords mask in
    if (1 <? length coords)%nat then
      {| lines := (lines acc ++ [LineString coords])%list;
         valid_pids := (valid_pids acc ++ [pid])%list;
         times_start :=
           (times_start acc ++ [round_s (hd NaT (bool_index time_sub mask))])%list;
         times_end :=
           (times_end acc ++ [round_s (last (bool_index time_sub mask) NaT)])%list |}
    else acc.

Definition build_lines (lon_sub lat_sub : list (list float))
  (time_sub : list Z) (n_particles : nat) : line_acc :=
  fold_left (line_body lon_sub lat_sub time_sub) (seq 0 n_particles) line_acc0.

Definition lines_gdf (acc : line_acc) : GeoDataFrame :=
  mkGeoDataFrame
    [ ("par_id", IntCol (map Z.of_nat (valid_pids acc)));
      ("time_start", DatetimeCol (times_start acc));
      ("time_end", DatetimeCol (times_end acc)) ]
    (lines acc)
    "EPSG:4326".

Definition ncTrk2line (E : env) (nc_file output_path : string)
  (downscale_hours : pynum) : M (option GeoDataFrame) :=
  let downscale_seconds := times_3600 downscale_hours in
  if negb (isfile E nc_file) then raise FileNotFoundError
  else
    ds <- xr_open_dataset E nc_file ;;
    print (MsgLoaded (basename nc_file)) ;;
    lon <- getitem (particles_x_coordinate ds) ;;
    lat <- getitem (particles_y_coordinate ds) ;;
    time <- getitem (time ds) ;;
    let fill_val := attrs_get (attrs lon) "_FillValue" (F64.of_Z (-999)) in
    let time_values := time in
    let dt_seconds := native_dt_seconds time_values in
    let median_dt := np_median dt_seconds in
    step <- lift (compute_step downscale_seconds median_dt) ;;
    print (MsgTimestep median_dt step downscale_hours) ;;
    let lon_sub := slice_step step (values lon) in
    let lat_sub := slice_step step (values lat) in
    let time_sub := map round_s (to_datetime (time_slice step time_values)) in
    let n_time := length lon_sub in
    let n_particles := ncols lon in
    print (MsgDownscaled n_time n_particles) ;;
    let lon_sub := mask_fill fill_val lon_sub in
    let lat_sub := mask_fill fill_val lat_sub in
    let acc := build_lines lon_sub lat_sub time_sub n_particles in
    print (MsgCreatedTracks (length (lines acc))) ;;
    match lines acc with
    | [] =>
        print MsgNoTracks ;;
        ret None
    | _ :: _ =>
        let gdf := lines_gdf acc in
        export_gdf E gdf output_path ;;
        ret (Some gdf)
    end.

(** ** Point mode ([ncTrk2pt]) *)

(** the column indices of the true entries of one row, from column [j] *)
Fixpoint true_columns (row : list bool) (j : nat) : list nat :=
  match row with
  | [] => []
  | b :: t => if b then j :: true_columns t (S j) else true_columns t (S j)
  end.

(** [np.where(mask)] of a two-dimensional mask, as index pairs in the
    order numpy returns them, rows counted from [i] *)
Fixpoint where_from (mask : list (list bool)) (i : nat) : list (nat * nat) :=
  match mask with
  | [] => []
  | row :: t => (map (pair i) (true_columns row 0) ++ where_from t (S i))%list
  end.

Definition np_where (mask : list (list bool)) : list nat * list nat :=
  let w := where_from mask 0 in (map fst w, map snd w).

(** [np.isfinite(lon_sub) & np.isfinite(lat_sub)] *)
Definition valid_mask_of (lon_sub lat_sub : list (list float))
  : list (list bool) :=
  zip_with (zip_with (fun a b => F64.isfinite a && F64.isfinite b))
           lon_sub lat_sub.

(** the table that lines 225-229 build *)
Record point_table : Set := {
  pt_x : list float;
  pt_y : list float;
  pt_pids : list Z;
  pt_t_vals : list Z
}.

(** lines 222 to 229, on arrays of one shape and a time axis of their
    length; on others numpy broadcasts the two masks or raises
    [IndexError] *)
Definition build_points (lon_sub lat_sub : list (list float))
  (time_sub : list Z) : point_table :=
  let valid_mask := valid_mask_of lon_sub lat_sub in
  let '(rows, cols) := np_where valid_mask in
  {| pt_x := zip_with (cell lon_sub) rows cols;
     pt_y := zip_with (cell lat_sub) rows cols;
     pt_pids := map Z.of_nat cols;
     pt_t_vals := map (fun i => nth i time_sub NaT) rows |}.

Definition points_gdf (t : point_table) : GeoDataFrame :=
  let df : DataFrame :=
    [ ("par_id", IntCol (pt_pids t));
      ("time", DatetimeCol (pt_t_vals t));
      ("lon", FloatCol (pt_x t));
      ("lat", FloatCol (pt_y t)) ] in
  mkGeoDataFrame
    (filter (fun c => String.eqb (fst c) "par_id" || String.eqb (fst c) "time")
            df)
    (zip_with Point (pt_x t) (pt_y t))
    "EPSG:4326".

Definition ncTrk2pt (E : env) (nc_file output_path : string)
  (downscale_hours : pynum) : M (option GeoDataFrame) :=
  let downscale_seconds := times_3600 downscale_hours in
  if negb (isfile E nc_file) then raise FileNotFoundError
  else
    ds <- xr_open_dataset E nc_file ;;
    print (MsgLoaded (basename nc_file)) ;;
    lon <- getitem (particles_x_coordinate ds) ;;
    lat <- getitem (particles_y_coordinate ds) ;;
    time <- getitem (time ds) ;;
    let fill_val := attrs_get (attrs lon) "_FillValue" (F64.of_Z (-999)) in
    let time_values := time in
    let time_diffs := native_dt_seconds time_values in
    let median_dt := np_median time_diffs in
    step <- lift (compute_step downscale_seconds median_dt) ;;
    print (MsgTimestep median_dt step downscale_hours) ;;
    let lon_sub := slice_step step (values lon) in
    let lat_sub := slice_step step (values lat) in
    let time_sub := map round_s (to_datetime (time_slice step time_values)) in
    let n_time := length lon_sub in
    let n_particles := ncols lon in
    print (MsgDownscaled n_time n_particles) ;;
    let lon_sub := mask_fill fill_val lon_sub in
    let lat_sub := mask_fill fill_val lat_sub in
    let t := build_points lon_sub lat_sub time_sub in
    print (MsgPreparingPoints (length (pt_x t))) ;;
    if (length (pt_x t) =? 0)%nat then
      print MsgNoPoints ;;
      ret None
    else
      let gdf := points_gdf t in
      export_gdf E gdf output_path ;;
      ret (Some gdf).

(** ** The batch runner ([cli.py]) *)

(** truth value of a JSON value in a Python condition *)
Definition truthy (j : json) : bool :=
  match j with
  | JNull => false
  | JBool b => b
  | JNum (PyInt z) => negb (z =? 0)
  | JNum (PyFloat f) => negb (F64.is_zero f)
  | JStr s => negb (String.eqb s EmptyString)
  | JArr l => match l with [] => false | _ => true end
  | JObj kv => match kv with [] => false | _ => true end
  end.

(** [task.get(key, default)]: only a dictionary has the method *)
Definition task_get (task : json) (key : string) (default : json) : M json :=
  match task with
  | JObj kv =>
      match dict_get kv key with
      | Some v => ret v
      | None => ret default
      end
  | _ => raise AttributeError
  end.

(** [v.lower()]: only a string has the method *)
Definition json_lower (v : json) : M string :=
  match v with
  | JStr s => ret (lower s)
  | _ => raise AttributeError
  end.

(** [os.path.basename(v)] *)
Definition json_basename (v : json) : M string :=
  match v with
  | JStr s => ret (basename s)
  | _ => raise TypeError
  end.

Fixpoint for_each {A : Type} (f : A -> M unit) (l : list A) : M unit :=
  match l with
  | [] => ret tt
  | x :: t => f x ;; for_each f t
  end.

(** How the interpreter ends: [main] returns, [sys.exit(code)] is called,
    or an exception reaches the top level (exit status 1). *)
Inductive termination : Set :=
| Returned
| SysExit (code : Z)
| Uncaught (e : exn).

Definition exit_code (t : termination) : Z :=
  match t with
  | Returned => 0
  | SysExit code => code
  | Uncaught _ => 1
  end.

Section Batch.

(** The two conversion entry points as [process_task] calls them, on
    the values found in the task dictionary. *)
Variable line_conv pt_conv : json -> json -> json -> M unit.

Definition process_task (task : json) : M unit :=
  nc_file <- task_get task "input_nc" JNull ;;
  output_path <- task_get task "output_path" JNull ;;
  mode_raw <- task_get task "mode" (JStr "point") ;;
  mode <- json_lower mode_raw ;;
  downscale_hour <-
    task_get task "downscale_hour" (JNum (PyFloat (F64.of_Z 1))) ;;
  if negb (truthy nc_file) || negb (truthy output_path) then
    print MsgTaskMissing
  else
    name <- json_basename output_path ;;
    print (MsgStartTask (upper mode) name) ;;
    try_except
      (if String.eqb mode "line" then
         line_conv nc_file output_path downscale_hour
       else if String.eqb mode "point" then
         pt_conv nc_file output_path downscale_hour
       else
         print (MsgUnknownMode mode))
      (fun e =>
         print (MsgTaskError e) ;;
         print (MsgTraceback e)).

(** the task list [main] derives from the parsed configuration *)
Definition tasks_of (config : json) : list json :=
  match config with
  | JArr l => l
  | JObj kv =>
      match dict_get kv "tasks" with
      | Some (JArr l) => l
      | _ => [config]
      end
  | _ => []
  end.

Definition main (E : env) (config_path : string)
  : list event -> termination * list event :=
  fun tr =>
    if negb (path_exists E config_path) then
      (SysExit 1, (tr ++ [Print (MsgConfigNotFound config_path)])%list)
    else
      match json_load E config_path with
      | None => (SysExit 1, (tr ++ [Print MsgInvalidJson])%list)
      | Some config =>
          let tasks := tasks_of config in
          match (print (MsgFoundTasks (length tasks)) ;;
                 for_each process_task tasks ;;
                 print MsgAllDone) tr with
          | (Ret _, tr') => (Returned, tr')
          | (Raise e, tr') => (Uncaught e, tr')
          end
      end.

End Batch.

(** A conversion routine applied to the values of a task dictionary: two
    texts and a number, a JSON boolean being a Python int.  Arguments of
    other types are summed up as a [TypeError]: that is what a [null]
    interval gives on line 83 and what a [null] or a list for a path gives
    in [os.path.isfile], but an integer path is looked up as a file
    descriptor and a text interval fails only at the division, after the
    dataset has been opened; no statement below rests on those cases. *)
Definition on_json (f : string -> string -> pynum -> M (option GeoDataFrame))
  (nc_file output_path downscale_hour : json) : M unit :=
  match nc_file, output_path, downscale_hour with
  | JStr a, JStr b, JNum n => f a b n ;; ret tt
  | JStr a, JStr b, JBool c => f a b (PyInt (if c then 1 else 0)) ;; ret tt
  | _, _, _ => raise TypeError
  end.

Definition partpost_main (E : env) (config_path : string)
  : list event -> termination * list event :=
  main (on_json (ncTrk2line E)) (on_json (ncTrk2pt E)) E config_path.


(** * Vocabulary of the properties *)

(** ** Traces and loading *)

(** A computation [frames] when it treats the trace it starts from as a
    prefix: it appends to it the events it would emit from an empty one,
    and ends the same way. *)
Definition frames {A : Type} (m : M A) : Prop :=
  forall tr, m tr = (fst (m []), (tr ++ snd (m []))%list).

(** The input file is there and holds the three variables. *)
Record loads (E : env) (nc_file : string) (lon lat : CoordVar)
  (tv : time_array) : Prop := {
  loads_isfile : isfile E nc_file = true;
  loads_dataset :
    stored_dataset E nc_file
    = Ret {| particles_x_coordinate := Some lon;
             particles_y_coordinate := Some lat;
             time := Some tv |}
}.

(** Names for the values the routines hold after downscaling and masking. *)
Definition fill_val_of (lon : CoordVar) : float :=
  attrs_get (attrs lon) "_FillValue" (F64.of_Z (-999)).

Definition median_dt_of (tv : time_array) : float :=
  np_median (native_dt_seconds tv).

Definition lon_sub_of (lon : CoordVar) (step : Z) : list (list float) :=
  mask_fill (fill_val_of lon) (slice_step step (values lon)).

Definition lat_sub_of (lon lat : CoordVar) (step : Z) : list (list float) :=
  mask_fill (fill_val_of lon) (slice_step step (values lat)).

Definition time_sub_of (tv : time_array) (step : Z) : list Z :=
  map round_s (to_datetime (time_slice step tv)).

Definition line_tracks (lon lat : CoordVar) (tv : time_array) (step : Z)
  : line_acc :=
  build_lines (lon_sub_of lon step) (lat_sub_of lon lat step)
              (time_sub_of tv step) (ncols lon).

Definition point_rows (lon lat : CoordVar) (tv : time_array) (step : Z)
  : point_table :=
  build_points (lon_sub_of lon step) (lat_sub_of lon lat step)
               (time_sub_of tv step).

(** the events both routines emit up to the end of the downscaling *)
Definition downscale_events (nc_file : string) (hours : pynum)
  (lon : CoordVar) (tv : time_array) (step : Z) : list event :=
  [ OpenDataset nc_file;
    Print (MsgLoaded (basename nc_file));
    Print (MsgTimestep (median_dt_of tv) step hours);
    Print (MsgDownscaled (length (slice_step step (values lon))) (ncols lon)) ].

(** the world [E] with the dataset [ds] behind every path *)
Definition with_dataset (E : env) (ds : Dataset) : env :=
  {| isfile := isfile E;
     stored_dataset := fun _ => Ret ds;
     makedirs_error := makedirs_error E;
     write_error := write_error E;
     path_exists := path_exists E;
     json_load := json_load E |}.

Definition dataset_of (lon lat : CoordVar) (tv : time_array) : Dataset :=
  {| particles_x_coordinate := Some lon;
     particles_y_coordinate := Some lat;
     time := Some tv |}.

(** the same array under other attributes, and the same attributes over
    another array *)
Definition set_attrs (v : CoordVar) (a : list (string * float)) : CoordVar :=
  {| values := values v; ncols := ncols v; attrs := a |}.


(** ** Shapes and validity *)

(** [a] has [n] rows of [m] elements each *)
Definition shaped (n m : nat) (a : list (list float)) : Prop :=
  length a = n /\ Forall (fun row => length row = m) a.

(** The variables of one dataset agree on the sizes of the dimensions they
    share: both coordinate arrays are [time] by [particle], and the time
    axis has the length of the time dimension. *)
Definition well_shaped (lon lat : CoordVar) (tv : time_array) : Prop :=
  shaped (time_len tv) (ncols lon) (values lon) /\
  shaped (time_len tv) (ncols lon) (values lat).

(** both masked coordinates of cell [(i, j)] are finite *)
Definition jointly_finite (lon_sub lat_sub : list (list float)) (i j : nat)
  : bool :=
  F64.isfinite (cell lon_sub i j) && F64.isfinite (cell lat_sub i j).

(** every cell of the x-coordinate array holds the fill sentinel *)
Definition all_fill (lon : CoordVar) : Prop :=
  forall i j,
    (i < length (values lon))%nat -> (j < ncols lon)%nat ->
    F64.eqb (cell (values lon) i j) (fill_val_of lon) = true.

(** ** Point records *)

(** the valid [(time_index, particle_index)] pairs of an [n_time] by
    [n_particles] grid, time-major *)
Definition valid_pairs (lon_sub lat_sub : list (list float))
  (n_time n_particles : nat) : list (nat * nat) :=
  flat_map
    (fun i => map (pair i)
                  (filter (jointly_finite lon_sub lat_sub i) (seq 0 n_particles)))
    (seq 0 n_time).

(** the three columns of the point table, from the list of index pairs *)
Definition point_pids (idx : list (nat * nat)) : list Z :=
  map (fun p => Z.of_nat (snd p)) idx.

Definition point_times (raw_time_sub : list Z) (idx : list (nat * nat)) : list Z :=
  map (fun p => round_s (nth (fst p) raw_time_sub NaT)) idx.

Definition point_geoms (lon_sub lat_sub : list (list float))
  (idx : list (nat * nat)) : list geometry :=
  map (fun p => Point (cell lon_sub (fst p) (snd p))
                      (cell lat_sub (fst p) (snd p))) idx.

(** time-major order on index pairs *)
Definition row_major_lt (p q : nat * nat) : Prop :=
  (fst p < fst q)%nat \/ (fst p = fst q /\ (snd p < snd q)%nat).

(** ** Tracks *)

(** the time indices at which particle [pid] has both coordinates finite *)
Definition valid_times (lon_sub lat_sub : list (list float)) (n_time pid : nat)
  : list nat :=
  filter (fun i => jointly_finite lon_sub lat_sub i pid) (seq 0 n_time).

(** a particle gets a track when it has at least two valid timesteps *)
Definition has_track (lon_sub lat_sub : list (list float)) (n_time pid : nat)
  : bool :=
  (2 <=? length (valid_times lon_sub lat_sub n_time pid))%nat.

Definition track_line (lon_sub lat_sub : list (list float)) (n_time pid : nat)
  : geometry :=
  LineString (map (fun i => (cell lon_sub i pid, cell lat_sub i pid))
                  (valid_times lon_sub lat_sub n_time pid)).

Definition track_start (lon_sub lat_sub : list (list float)) (raw : list Z)
  (n_time pid : nat) : Z :=
  round_s (nth (hd 0%nat (valid_times lon_sub lat_sub n_time pid)) raw NaT).

Definition track_end (lon_sub lat_sub : list (list float)) (raw : list Z)
  (n_time pid : nat) : Z :=
  round_s (nth (last (valid_times lon_sub lat_sub n_time pid) 0%nat) raw NaT).

(** what one turn of the loop adds to the four lists *)
Definition track_acc (lon_sub lat_sub : list (list float)) (raw : list Z)
  (n_time pid : nat) : line_acc :=
  {| lines := [track_line lon_sub lat_sub n_time pid];
     valid_pids := [pid];
     times_start := [track_start lon_sub lat_sub raw n_time pid];
     times_end := [track_end lon_sub lat_sub raw n_time pid] |}.

Definition acc_app (a b : line_acc) : line_acc :=
  {| lines := (lines a ++ lines b)%list;
     valid_pids := (valid_pids a ++ valid_pids b)%list;
     times_start := (times_start a ++ times_start b)%list;
     times_end := (times_end a ++ times_end b)%list |}.

(** the four lists after the loop over the particles in [l] *)
Definition tracks_over (lon_sub lat_sub : list (list float)) (raw : list Z)
  (n_time : nat) (l : list nat) : line_acc :=
  let emitted := filter (has_track lon_sub lat_sub n_time) l in
  {| lines := map (track_line lon_sub lat_sub n_time) emitted;
     valid_pids := emitted;
     times_start := map (track_start lon_sub lat_sub raw n_time) emitted;
     times_end := map (track_end lon_sub lat_sub raw n_time) emitted |}.

(** ** Written tables *)

Definition has_geometry_column (df : DataFrame) : bool :=
  existsb (fun c => is_geometry (snd c)) df.

(** ** Dataset handles *)

Fixpoint remove_first (p : string) (l : list string) : list string :=
  match l with
  | [] => []
  | q :: t => if String.eqb p q then t else q :: remove_first p t
  end.

(** the handles open after an event, from those open before it *)
Definition track_handle (hs : list string) (e : event) : list string :=
  match e with
  | OpenDataset p => p :: hs
  | CloseDataset p => remove_first p hs
  | _ => hs
  end.

(** the dataset handles opened and not closed by the events of a trace *)
Definition open_handles (tr : list event) : list string :=
  fold_left track_handle tr [].

Definition not_close (e : event) : Prop :=
  match e with
  | CloseDataset _ => False
  | _ => True
  end.

(** a computation that frames and never closes a dataset *)
Definition never_closes {A : Type} (m : M A) : Prop :=
  frames m /\ Forall not_close (snd (m [])).

(** the shape of every run that gets past [xr.open_dataset] *)
Definition leaves_open {A : Type} (m : M A) (nc_file : string) : Prop :=
  forall tr, exists r rest,
    m tr = (r, (tr ++ OpenDataset nc_file :: rest)%list)
    /\ Forall not_close rest.

(** ** Task dictionaries *)

(** A task dictionary whose fields have the JSON types [process_task]
    relies on before it enters its [try] block: ["mode"], when present, is
    a string, and ["output_path"], when present and not falsy, is a
    string. *)
Definition well_typed_task (task : json) : bool :=
  match task with
  | JObj kv =>
      match dict_get kv "mode" with
      | None | Some (JStr _) => true
      | Some _ => false
      end
      &&
      match dict_get kv "output_path" with
      | None | Some (JStr _) => true
      | Some v => negb (truthy v)
      end
  | _ => false
  end.

(** ** Example worlds *)

(** a time axis of [n] instants one hour apart, from the epoch *)
Definition hourly_axis (n : nat) : time_array :=
  Datetime64 (map (fun k => Z.of_nat k * 3600000000000) (seq 0 n)).

(** the float64 next above -999.0 *)
Definition above_minus_999 : float := SFsucc F64.prec F64.emax (F64.of_Z (-999)).

Definition demo_lon : CoordVar :=
  {| values := [ [F64.of_Z 1; F64.of_Z (-999)];
                 [F64.of_Z 2; F64.of_Z (-999)];
                 [F64.of_Z 3; F64.of_Z 5];
                 [F64.of_Z 4; F64.of_Z (-999)] ];
     ncols := 2;
     attrs := [] |}.

Definition demo_lat : CoordVar :=
  {| values := [ [F64.of_Z 1; F64.of_Z (-999)];
                 [F64.of_Z 2; F64.of_Z (-999)];
                 [F64.of_Z (-999); F64.of_Z 5];
                 [F64.of_Z 4; F64.of_Z (-999)] ];
     ncols := 2;
     attrs := [("_FillValue", F64.of_Z 7)] |}.

(** A world with one dataset, [trk.nc]: four hourly steps, two particles;
    particle 0 misses its latitude at step 2, particle 1 is only there at
    step 2.  Every write succeeds. *)
Definition demo_env : env :=
  {| isfile := fun p => String.eqb p "trk.nc";
     stored_dataset := fun _ =>
       Ret {| particles_x_coordinate := Some demo_lon;
              particles_y_coordinate := Some demo_lat;
              time := Some (hourly_axis 4) |};
     makedirs_error := fun _ => None;
     write_error := fun _ _ => None;
     path_exists := fun _ => false;
     json_load := fun _ => None |}.

(** three identical instants *)
Definition stuck_axis : time_array := Datetime64 [0; 0; 0].

Definition stuck_env : env :=
  {| isfile := fun _ => true;
     stored_dataset := fun _ =>
       Ret {| particles_x_coordinate := Some demo_lon;
              particles_y_coordinate := Some demo_lat;
              time := Some stuck_axis |};
     makedirs_error := fun _ => None;
     write_error := fun _ _ => None;
     path_exists := fun _ => false;
     json_load := fun _ => None |}.

(** two particles, four hourly steps, every cell at the default sentinel *)
Definition blank_var : CoordVar :=
  {| values := repeat [F64.of_Z (-999); F64.of_Z (-999)] 4;
     ncols := 2;
     attrs := [] |}.

Definition blank_env : env :=
  {| isfile := fun _ => true;
     stored_dataset := fun _ =>
       Ret {| particles_x_coordinate := Some blank_var;
              particles_y_coordinate := Some blank_var;
              time := Some (hourly_axis 4) |};
     makedirs_error := fun _ => None;
     write_error := fun _ _ => None;
     path_exists := fun _ => false;
     json_load := fun _ => None |}.

(** instants 0 h, 1 h, 4 h and 6 h: the differences 1 h, 3 h, 2 h come
    out of order, and their median is 2 h *)
Definition irregular_axis : time_array :=
  Datetime64 [0; 3600000000000; 14400000000000; 21600000000000].

(** instants 0 h, 1 h, 3 h, 6 h and 7 h: the four differences 1 h, 2 h,
    3 h, 1 h have the median (1 h + 2 h) / 2 *)
Definition uneven_axis : time_array :=
  Datetime64 [0; 3600000000000; 10800000000000; 21600000000000;
              25200000000000].

(** 1e306, a float whose product with 3600 overflows *)
Definition huge_hours : pynum := PyFloat (F64.of_Z (10 ^ 306)).

(** [n / 4] as a float, exact *)
Definition quarters (n : Z) : pynum := PyFloat (F64.div (F64.of_Z n) (F64.of_Z 4)).

(** the demo latitudes without an attribute, as decoding leaves them *)
Definition plain_lat : CoordVar := set_attrs demo_lat [].

(** four instants off the whole second: 0.4 s, 1 h 0.6 s, 2 h 0.5 s and
    3 h 1.5 s after the epoch *)
Definition offbeat_axis : time_array :=
  Datetime64 [400000000; 3600600000000; 7200500000000; 10801500000000].

(** the demo coordinates on that axis *)
Definition offbeat_env : env :=
  with_dataset demo_env (dataset_of demo_lon plain_lat offbeat_axis).

(** the demo coordinates on four hourly instants *)
Definition hourly_env : env :=
  with_dataset demo_env (dataset_of demo_lon plain_lat (hourly_axis 4)).

Definition one_point_gdf : GeoDataFrame :=
  mkGeoDataFrame [("par_id", IntCol [0]); ("time", DatetimeCol [0])]
                 [Point (F64.of_Z 114) (F64.of_Z 22)]
                 "EPSG:4326".

(** a world with the demo dataset and a configuration file [tasks.json] *)
Definition batch_env (config : json) : env :=
  {| isfile := isfile demo_env;
     stored_dataset := stored_dataset demo_env;
     makedirs_error := makedirs_error demo_env;
     write_error := write_error demo_env;
     path_exists := fun p => String.eqb p "tasks.json";
     json_load := fun _ => Some config |}.

Definition point_task : json :=
  JObj [("input_nc", JStr "trk.nc"); ("output_path", JStr "points.gpkg")].

(** two tasks, the first with ["mode": null] *)
Definition null_mode_config : json :=
  JArr [ JObj [ ("input_nc", JStr "trk.nc");
                ("output_path", JStr "lines.gpkg");
                ("mode", JNull) ];
         point_task ].

(** the same with a mode that is a string but not a known one *)
Definition unknown_mode_config : json :=
  JArr [ JObj [ ("input_nc", JStr "trk.nc");
                ("output_path", JStr "lines.gpkg");
                ("mode", JStr "Area") ];
         point_task ].

(** ** Events of an export *)

Definition is_write (e : event) : bool :=
  match e with WriteFile _ _ => true | _ => false end.

Definition is_makedirs (e : event) : bool :=
  match e with Makedirs _ => true | _ => false end.

(** the event is a call of a writing backend or of [os.makedirs] *)
Definition is_output (e : event) : bool := is_write e || is_makedirs e.

Definition has_datetime_column (df : DataFrame) : bool :=
  existsb (fun c => is_datetime64_any_dtype (snd c)) df.

(** the collection as the Shapefile branch hands it to the driver *)
Definition shapefile_copy (gdf : GeoDataFrame) : GeoDataFrame :=
  {| frame := stringify_datetimes (frame gdf); crs := crs gdf |}.

(** the shape the recognised branches of [export_gdf] share: create the
    directory if the path has one, announce, write [w], confirm with [m] *)
Definition export_steps (E : env) (output_path : string) (w : written)
  (m : msg) : M unit :=
  (if negb (String.eqb (dirname output_path) EmptyString)
   then makedirs E (dirname output_path) else ret tt) ;;
  print (MsgSaving output_path) ;;
  write E output_path w ;;
  print m.

(** the events of a successful run of those steps *)
Definition export_events (output_path : string) (w : written) (m : msg)
  : list event :=
  ((if String.eqb (dirname output_path) EmptyString then []
    else [Makedirs (dirname output_path)])
   ++ [Print (MsgSaving output_path); WriteFile output_path w; Print m])%list.

(** ** Well-formed output *)

Definition column_length (c : column) : nat :=
  match c with
  | IntCol l | DatetimeCol l | TimeStrCol l => length l
  | FloatCol l => length l
  | GeomCol l => length l
  end.

(** every column of the frame has [n] rows *)
Definition rectangular (n : nat) (df : DataFrame) : Prop :=
  Forall (fun c => column_length (snd c) = n) df.

Definition geometry_coords (g : geometry) : list (float * float) :=
  match g with
  | Point x y => [(x, y)]
  | LineString coords => coords
  end.

(** a coordinate that is finite and does not compare equal to the sentinel *)
Definition clean (fill_val v : float) : bool :=
  F64.isfinite v && negb (F64.eqb v fill_val).

Definition clean_geometry (fill_val : float) (g : geometry) : Prop :=
  Forall (fun c => clean fill_val (fst c) = true
                   /\ clean fill_val (snd c) = true)
         (geometry_coords g).

(** a whole number of seconds, or the missing instant *)
Definition whole_second (t : Z) : Prop :=
  t = NaT \/ t mod 1000000000 = 0.

(** the coordinates of the point records of particle [pid], in the order
    of the table *)
Definition coords_of_particle (pid : Z) (t : point_table)
  : list (float * float) :=
  map snd (filter (fun r => fst r =? pid)
                  (combine (pt_pids t) (combine (pt_x t) (pt_y t)))).

(** the backend was called on the collection [gdf]: on its table, on the
    copy of the table with the datetime columns as text, or on the
    collection itself, as it is or as the Shapefile branch copies it *)
Definition carries (w : written) (gdf : GeoDataFrame) : Prop :=
  match w with
  | CsvTable df => df = frame gdf
  | ExcelTable df => df = stringify_datetimes (frame gdf)
  | VectorLayer _ g => g = gdf \/ g = shapefile_copy gdf
  end.

(** ** Fields of a task *)

(** [task.get(key, default)] on the items of a dictionary *)
Definition field (kv : list (string * json)) (key : string) (default : json)
  : json :=
  match dict_get kv key with Some v => v | None => default end.

(** the task cannot get through the first four lines of [process_task]:
    it is no dictionary, or its ["mode"] is there and is no string *)
Definition lacks_method (task : json) : Prop :=
  match task with
  | JObj kv =>
      match field kv "mode" (JStr "point") with
      | JStr _ => False
      | _ => True
      end
  | _ => True
  end.

(** the configuration is neither a list nor a dictionary *)
Definition scalar (config : json) : Prop :=
  match config with
  | JArr _ | JObj _ => False
  | _ => True
  end.

(** * Properties *)

(** ** Strided selection *)

Section Stride.

Context {A : Type}.

Lemma stride_from_length (l : list A) :
  forall skip gap,
    length (stride_from skip gap l)
    = Nat.div (length l - skip + gap) (S gap).
Proof.
  induction l as [|x t IH]; intros skip gap; cbn [stride_from length].
  - rewrite Nat.sub_0_l, Nat.add_0_l, Nat.div_small; lia.
  - destruct skip as [|k]; cbn [length].
    + rewrite IH.
      destruct (Nat.le_gt_cases gap (length t)) as [Hle|Hgt].
      * replace (length t - gap + gap)%nat with (length t) by lia.
        replace (S (length t) - 0 + gap)%nat
          with (length t + 1 * S gap)%nat by lia.
        rewrite Nat.div_add by lia. lia.
      * replace (length t - gap + gap)%nat with gap by lia.
        rewrite Nat.div_small by lia.
        apply Nat.div_unique with (r := length t); lia.
    + rewrite IH. reflexivity.
Qed.

Lemma slice_step_length (step : Z) (l : list A) :
  1 <= step ->
  Z.of_nat (length (slice_step step l))
  = ceil_div (Z.of_nat (length l)) step.
Proof.
  intros Hstep. unfold slice_step, ceil_div.
  rewrite stride_from_length, Nat.sub_0_r.
  replace (S (Z.to_nat step - 1)) with (Z.to_nat step) by lia.
  rewrite Nat2Z.inj_div, Nat2Z.inj_add, Nat2Z.inj_sub by lia.
  rewrite Z2Nat.id by lia.
  f_equal. lia.
Qed.

(** the element kept at position [i] is the one at [skip + i * (gap+1)] *)
Lemma stride_from_nth (d : A) (l : list A) :
  forall skip gap i,
    nth i (stride_from skip gap l) d = nth (skip + i * S gap) l d.
Proof.
  induction l as [|x t IH]; intros skip gap i; cbn [stride_from].
  - destruct i, (skip + _)%nat; reflexivity.
  - destruct skip as [|k].
    + destruct i as [|i]; cbn [nth]; [reflexivity|].
      rewrite IH. cbn [Nat.add Nat.mul].
      f_equal.
    + rewrite IH. reflexivity.
Qed.

Lemma slice_step_nth (d : A) (step : Z) (l : list A) (i : nat) :
  1 <= step ->
  nth i (slice_step step l) d = nth (i * Z.to_nat step) l d.
Proof.
  intros Hstep. unfold slice_step. rewrite stride_from_nth.
  f_equal. replace (S (Z.to_nat step - 1)) with (Z.to_nat step) by lia.
  reflexivity.
Qed.

End Stride.

Lemma stride_from_map {A B : Type} (f : A -> B) (l : list A) :
  forall skip gap,
    stride_from skip gap (map f l) = map f (stride_from skip gap l).
Proof.
  induction l as [|x t IH]; intros skip gap; cbn [map stride_from];
    [reflexivity|].
  destruct skip; cbn [map]; now rewrite IH.
Qed.

(** ** The trace only grows *)

Section Frames.

Context {A B : Type}.

Lemma frames_ret (a : A) : frames (ret a).
Proof. intros tr. unfold ret. cbn. now rewrite app_nil_r. Qed.

Lemma frames_raise (e : exn) : frames (@raise A e).
Proof. intros tr. unfold raise. cbn. now rewrite app_nil_r. Qed.

Lemma frames_lift (r : res A) : frames (lift r).
Proof. intros tr. unfold lift. cbn. now rewrite app_nil_r. Qed.

Lemma frames_bind (m : M A) (k : A -> M B) :
  frames m -> (forall a, frames (k a)) -> frames (bind m k).
Proof.
  intros Hm Hk tr. unfold bind.
  rewrite (Hm tr). destruct (m []) as [[a|e] l]; cbn [fst snd].
  - rewrite (Hk a (tr ++ l)%list), (Hk a l). cbn [fst snd].
    now rewrite app_assoc.
  - reflexivity.
Qed.

Lemma frames_try_except (m : M A) (h : exn -> M A) :
  frames m -> (forall e, frames (h e)) -> frames (try_except m h).
Proof.
  intros Hm Hh tr. unfold try_except.
  rewrite (Hm tr). destruct (m []) as [[a|e] l]; cbn [fst snd].
  - reflexivity.
  - rewrite (Hh e (tr ++ l)%list), (Hh e l). cbn [fst snd].
    now rewrite app_assoc.
Qed.

End Frames.

Lemma frames_emit (e : event) : frames (emit e).
Proof. intros tr. reflexivity. Qed.

Lemma frames_print (m : msg) : frames (print m).
Proof. apply frames_emit. Qed.

Lemma frames_getitem {A : Type} (v : option A) : frames (getitem v).
Proof. destruct v; [apply frames_ret | apply frames_raise]. Qed.

Create HintDb frames_db.
#[export] Hint Resolve frames_ret frames_raise frames_lift frames_emit
  frames_print frames_getitem : frames_db.

(** [frames] through the syntax of a computation *)
Ltac frames_step :=
  match goal with
  | |- frames (bind _ _) => apply frames_bind; [|intros]
  | |- frames (try_except _ _) => apply frames_try_except; [|intros]
  | |- frames (if ?b then _ else _) => destruct b
  | |- frames (match ?x with _ => _ end) => destruct x
  | |- frames (let _ := _ in _) => cbv zeta
  | |- frames _ => solve [auto with frames_db]
  end.

Ltac frames_tac := repeat frames_step.

Lemma frames_makedirs (E : env) (dir : string) : frames (makedirs E dir).
Proof. unfold makedirs. frames_tac. Qed.

Lemma frames_write (E : env) (path : string) (w : written) :
  frames (write E path w).
Proof. unfold write. frames_tac. Qed.

#[export] Hint Resolve frames_makedirs frames_write : frames_db.

Lemma frames_export_gdf (E : env) (gdf : GeoDataFrame) (output_path : string) :
  frames (export_gdf E gdf output_path).
Proof. unfold export_gdf, to_csv, to_excel, to_file. frames_tac. Qed.

Lemma frames_xr_open_dataset (E : env) (nc_file : string) :
  frames (xr_open_dataset E nc_file).
Proof. unfold xr_open_dataset. frames_tac. Qed.

#[export] Hint Resolve frames_export_gdf frames_xr_open_dataset : frames_db.

Lemma frames_ncTrk2line (E : env) (nc_file output_path : string)
  (downscale_hours : pynum) :
  frames (ncTrk2line E nc_file output_path downscale_hours).
Proof. unfold ncTrk2line. frames_tac. Qed.

Lemma frames_ncTrk2pt (E : env) (nc_file output_path : string)
  (downscale_hours : pynum) :
  frames (ncTrk2pt E nc_file output_path downscale_hours).
Proof. unfold ncTrk2pt. frames_tac. Qed.

#[export] Hint Resolve frames_ncTrk2line frames_ncTrk2pt : frames_db.

(** ** The conversion routines after a successful load *)

Section Loaded.

Variables (E : env) (nc_file output_path : string) (hours : pynum).
Variables (lon lat : CoordVar) (tv : time_array).
Hypothesis Hload : loads E nc_file lon lat tv.

Lemma ncTrk2line_step_raises (e : exn) (tr : list event) :
  compute_step (times_3600 hours) (median_dt_of tv) = Raise e ->
  ncTrk2line E nc_file output_path hours tr
  = (Raise e,
     (tr ++ [OpenDataset nc_file; Print (MsgLoaded (basename nc_file))])%list).
Proof.
  intros Hstep. destruct Hload as [Hf Hd].
  unfold ncTrk2line. rewrite Hf. cbn [negb].
  unfold xr_open_dataset. rewrite Hd.
  unfold median_dt_of in Hstep.
  cbv [bind emit print ret getitem lift
       particles_x_coordinate particles_y_coordinate time].
  rewrite Hstep. now rewrite <- app_assoc.
Qed.

Lemma ncTrk2line_loaded (step : Z) (tr : list event) :
  compute_step (times_3600 hours) (median_dt_of tv) = Ret step ->
  ncTrk2line E nc_file output_path hours tr
  = let acc := line_tracks lon lat tv step in
    let tr1 := (tr ++ downscale_events nc_file hours lon tv step
                   ++ [Print (MsgCreatedTracks (length (lines acc)))])%list in
    match lines acc with
    | [] => (Ret None, (tr1 ++ [Print MsgNoTracks])%list)
    | _ :: _ =>
        (export_gdf E (lines_gdf acc) output_path ;;
         ret (Some (lines_gdf acc))) tr1
    end.
Proof.
  intros Hstep. destruct Hload as [Hf Hd].
  unfold ncTrk2line. rewrite Hf. cbn [negb].
  unfold xr_open_dataset. rewrite Hd.
  unfold median_dt_of in Hstep.
  cbv [bind emit print ret getitem lift
       particles_x_coordinate particles_y_coordinate time].
  rewrite Hstep.
  fold (fill_val_of lon). fold (lon_sub_of lon step).
  fold (lat_sub_of lon lat step). fold (time_sub_of tv step).
  fold (line_tracks lon lat tv step). fold (median_dt_of tv).
  unfold downscale_events.
  destruct (lines (line_tracks lon lat tv step));
    cbv [bind ret]; repeat rewrite <- app_assoc; reflexivity.
Qed.

Lemma ncTrk2pt_step_raises (e : exn) (tr : list event) :
  compute_step (times_3600 hours) (median_dt_of tv) = Raise e ->
  ncTrk2pt E nc_file output_path hours tr
  = (Raise e,
     (tr ++ [OpenDataset nc_file; Print (MsgLoaded (basename nc_file))])%list).
Proof.
  intros Hstep. destruct Hload as [Hf Hd].
  unfold ncTrk2pt. rewrite Hf. cbn [negb].
  unfold xr_open_dataset. rewrite Hd.
  unfold median_dt_of in Hstep.
  cbv [bind emit print ret getitem lift
       particles_x_coordinate particles_y_coordinate time].
  rewrite Hstep. now rewrite <- app_assoc.
Qed.

Lemma ncTrk2pt_loaded (step : Z) (tr : list event) :
  compute_step (times_3600 hours) (median_dt_of tv) = Ret step ->
  ncTrk2pt E nc_file output_path hours tr
  = let t := point_rows lon lat tv step in
    let tr1 := (tr ++ downscale_events nc_file hours lon tv step
                   ++ [Print (MsgPreparingPoints (length (pt_x t)))])%list in
    if (length (pt_x t) =? 0)%nat
    then (Ret None, (tr1 ++ [Print MsgNoPoints])%list)
    else (export_gdf E (points_gdf t) output_path ;;
          ret (Some (points_gdf t))) tr1.
Proof.
  intros Hstep. destruct Hload as [Hf Hd].
  unfold ncTrk2pt. rewrite Hf. cbn [negb].
  unfold xr_open_dataset. rewrite Hd.
  unfold median_dt_of in Hstep.
  cbv [bind emit print ret getitem lift
       particles_x_coordinate particles_y_coordinate time].
  rewrite Hstep.
  fold (fill_val_of lon). fold (lon_sub_of lon step).
  fold (lat_sub_of lon lat step). fold (time_sub_of tv step).
  fold (point_rows lon lat tv step). fold (median_dt_of tv).
  unfold downscale_events.
  destruct (length (pt_x (point_rows lon lat tv step)) =? 0)%nat;
    cbv [bind ret]; repeat rewrite <- app_assoc; reflexivity.
Qed.

End Loaded.

(** ** Temporal downscaler *)

Lemma py_round_finite (q : float) :
  F64.isfinite q = true -> exists r, py_round q = Ret r.
Proof. destruct q; cbn; intros H; try discriminate; eauto. Qed.

Lemma positive_not_zero (m : float) :
  F64.ltb (F64.of_Z 0) m = true -> F64.is_zero m = false.
Proof. destruct m; cbn; intros H; try discriminate; reflexivity. Qed.

Lemma compute_step_ok (ds : pynum) (s median_dt : float) (r : Z) :
  as_double ds = Ret s ->
  F64.is_zero median_dt = false ->
  py_round (F64.div s median_dt) = Ret r ->
  compute_step ds median_dt = Ret (Z.max 1 r).
Proof.
  intros Hs Hz Hr. unfold compute_step, py_truediv.
  rewrite Hs, Hz. cbn [res_bind]. rewrite Hr. reflexivity.
Qed.

Lemma compute_step_positive (ds : pynum) (median_dt : float) (step : Z) :
  compute_step ds median_dt = Ret step -> 1 <= step.
Proof.
  unfold compute_step.
  destruct (py_truediv ds median_dt) as [q|e]; cbn [res_bind]; [|discriminate].
  destruct (py_round q) as [r|e]; cbn [res_bind]; [|discriminate].
  intros H. injection H as <-. lia.
Qed.

Lemma mask_fill_length (fill_val : float) (a : list (list float)) :
  length (mask_fill fill_val a) = length a.
Proof. unfold mask_fill. apply length_map. Qed.

Lemma time_slice_length (step : Z) (tv : time_array) :
  1 <= step ->
  Z.of_nat (time_len (time_slice step tv))
  = ceil_div (Z.of_nat (time_len tv)) step.
Proof. destruct tv; cbn; apply slice_step_length. Qed.

Lemma time_sub_of_length (tv : time_array) (step : Z) :
  length (time_sub_of tv step) = time_len (time_slice step tv).
Proof.
  unfold time_sub_of. rewrite length_map.
  destruct tv; cbn; [reflexivity | apply length_map].
Qed.

(** With a downscale interval of 1e306 hours on four hourly instants the
    product with 3600 is infinite, [round] refuses the ratio and both
    routines end in [OverflowError]: a time axis of two instants or more
    with a positive median difference does not always get a stride. *)
Lemma huge_interval_has_no_stride :
  (2 <= time_len (hourly_axis 4))%nat /\
  F64.ltb (F64.of_Z 0) (median_dt_of (hourly_axis 4)) = true /\
  compute_step (times_3600 huge_hours) (median_dt_of (hourly_axis 4))
    = Raise OverflowError /\
  fst (ncTrk2line hourly_env "trk.nc" "out.gpkg" huge_hours [])
    = Raise OverflowError /\
  fst (ncTrk2pt hourly_env "trk.nc" "out.gpkg" huge_hours [])
    = Raise OverflowError /\
  ~ (forall (hours : pynum) (tv : time_array),
        (2 <= time_len tv)%nat ->
        F64.ltb (F64.of_Z 0) (median_dt_of tv) = true ->
        exists step,
          compute_step (times_3600 hours) (median_dt_of tv) = Ret step
          /\ 1 <= step).
Proof.
  assert (Hlen : (2 <= time_len (hourly_axis 4))%nat) by (cbn; lia).
  assert (Hpos : F64.ltb (F64.of_Z 0) (median_dt_of (hourly_axis 4)) = true)
    by (vm_compute; reflexivity).
  split; [exact Hlen|].
  split; [exact Hpos|].
  split; [vm_compute; reflexivity|].
  split; [vm_compute; reflexivity|].
  split; [vm_compute; reflexivity|].
  intros H.
  destruct (H huge_hours (hourly_axis 4) Hlen Hpos) as (step & Hstep & _).
  vm_compute in Hstep. discriminate.
Qed.

(** C1 (as the code has it). With a time axis of length N >= 2 whose
    median consecutive difference is positive, and a downscale interval
    whose ratio to it is a finite float, the stride both routines use is
    [max(1, round(downscale_hours*3600 / median))], it is at least 1, and
    the time axis and both coordinate arrays keep exactly
    [ceil(N / stride)] timesteps, the one at position [i] being the
    original one at position [i * stride]; both routines report that
    stride and that count.  For 100 hourly steps and [downscale_hour = 3]
    the stride is 3 and 34 timesteps are kept.  The median is that of the
    sorted differences (the middle one, or the mean of the two middle
    ones), and [round] goes to the nearest integer, ties to the even one:
    differences of 1 h, 3 h, 2 h with a 4 h interval give stride 2, those
    of 1 h, 2 h, 3 h, 1 h have the median 1.5 h, and on an hourly axis
    intervals of 2.5 h, 3.5 h and 0.25 h give strides 2, 4 and 1. *)
Theorem stride_positive_and_ceil_retained :
  forall (E : env) (nc_file output_path : string) (hours : pynum)
         (lon lat : CoordVar) (tv : time_array) (s : float),
    loads E nc_file lon lat tv ->
    (2 <= time_len tv)%nat ->
    length (values lon) = time_len tv ->
    length (values lat) = time_len tv ->
    F64.ltb (F64.of_Z 0) (median_dt_of tv) = true ->
    as_double (times_3600 hours) = Ret s ->
    F64.isfinite (F64.div s (median_dt_of tv)) = true ->
    exists r step,
      py_round (F64.div s (median_dt_of tv)) = Ret r /\
      step = Z.max 1 r /\
      compute_step (times_3600 hours) (median_dt_of tv) = Ret step /\
      1 <= step /\
      Z.of_nat (length (time_sub_of tv step))
        = ceil_div (Z.of_nat (time_len tv)) step /\
      Z.of_nat (length (lon_sub_of lon step))
        = ceil_div (Z.of_nat (time_len tv)) step /\
      Z.of_nat (length (lat_sub_of lon lat step))
        = ceil_div (Z.of_nat (time_len tv)) step /\
      (forall i,
          nth i (to_datetime (time_slice step tv)) NaT
          = nth (i * Z.to_nat step) (to_datetime tv) NaT) /\
      (forall i,
          nth i (slice_step step (values lon)) []
          = nth (i * Z.to_nat step) (values lon) []) /\
      (forall tr, exists res rest,
          ncTrk2line E nc_file output_path hours tr
          = (res, (tr ++ downscale_events nc_file hours lon tv step ++ rest)%list)) /\
      (forall tr, exists res rest,
          ncTrk2pt E nc_file output_path hours tr
          = (res, (tr ++ downscale_events nc_file hours lon tv step ++ rest)%list)) /\
      compute_step (times_3600 (PyInt 3)) (median_dt_of (hourly_axis 100)) = Ret 3 /\
      length (time_sub_of (hourly_axis 100) 3) = 34%nat /\
      median_dt_of irregular_axis = F64.of_Z 7200 /\
      compute_step (times_3600 (PyInt 4)) (median_dt_of irregular_axis) = Ret 2 /\
      median_dt_of uneven_axis = F64.of_Z 5400 /\
      compute_step (times_3600 (PyInt 3)) (median_dt_of uneven_axis) = Ret 2 /\
      compute_step (times_3600 (quarters 10)) (median_dt_of (hourly_axis 4)) = Ret 2 /\
      compute_step (times_3600 (quarters 14)) (median_dt_of (hourly_axis 4)) = Ret 4 /\
      compute_step (times_3600 (quarters 1)) (median_dt_of (hourly_axis 4)) = Ret 1.
Proof.
  intros E nc_file output_path hours lon lat tv s Hload HN Hlon Hlat Hpos Hs Hfin.
  destruct (py_round_finite _ Hfin) as [r Hr].
  pose proof (compute_step_ok _ _ _ _ Hs (positive_not_zero _ Hpos) Hr) as Hstep.
  pose proof (compute_step_positive _ _ _ Hstep) as Hge.
  exists r, (Z.max 1 r).
  repeat match goal with |- _ /\ _ => split end; try assumption.
  - reflexivity.
  - rewrite time_sub_of_length. now apply time_slice_length.
  - unfold lon_sub_of. rewrite mask_fill_length, <- Hlon.
    now apply slice_step_length.
  - unfold lat_sub_of. rewrite mask_fill_length, <- Hlat.
    now apply slice_step_length.
  - intros i. destruct tv as [ns|ts]; cbn [to_datetime time_slice].
    + now apply slice_step_nth.
    + unfold slice_step. rewrite <- stride_from_map.
      now apply (slice_step_nth NaT (Z.max 1 r) (map as_ns ts)).
  - intros i. now apply slice_step_nth.
  - intros tr. rewrite (ncTrk2line_loaded _ _ _ _ _ _ _ Hload _ _ Hstep).
    cbv zeta. destruct (lines _).
    + eexists _, _. rewrite <- !app_assoc. reflexivity.
    + match goal with |- exists _ _, ?m ?t = _ =>
        assert (Hf : frames m) by frames_tac; rewrite (Hf t) end.
      eexists _, _. rewrite <- !app_assoc. reflexivity.
  - intros tr. rewrite (ncTrk2pt_loaded _ _ _ _ _ _ _ Hload _ _ Hstep).
    cbv zeta. destruct (_ =? _)%nat.
    + eexists _, _. rewrite <- !app_assoc. reflexivity.
    + match goal with |- exists _ _, ?m ?t = _ =>
        assert (Hf : frames m) by frames_tac; rewrite (Hf t) end.
      eexists _, _. rewrite <- !app_assoc. reflexivity.
  - vm_compute. reflexivity.
  - vm_compute. reflexivity.
  - vm_compute. reflexivity.
  - vm_compute. reflexivity.
  - vm_compute. reflexivity.
  - vm_compute. reflexivity.
  - vm_compute. reflexivity.
  - vm_compute. reflexivity.
  - vm_compute. reflexivity.
Qed.

Lemma stride_positive_and_ceil_retained_witness :
  exists step,
    compute_step (times_3600 (PyInt 3)) (median_dt_of (hourly_axis 100)) = Ret step /\
    1 <= step /\
    Z.of_nat (length (time_sub_of (hourly_axis 100) step)) = ceil_div 100 step.
Proof.
  pose (lon := {| values := repeat [F64.of_Z 1] 100; ncols := 1; attrs := [] |}).
  pose (E := {| isfile := fun _ => true;
                stored_dataset := fun _ =>
                  Ret {| particles_x_coordinate := Some lon;
                         particles_y_coordinate := Some lon;
                         time := Some (hourly_axis 100) |};
                makedirs_error := fun _ => None;
                write_error := fun _ _ => None;
                path_exists := fun _ => false;
                json_load := fun _ => None |}).
  destruct (stride_positive_and_ceil_retained E "trk.nc" "out.gpkg" (PyInt 3)
              lon lon (hourly_axis 100) (F64.of_Z 10800))
    as (r & step & _ & _ & Hstep & Hge & Hlen & _).
  - constructor; reflexivity.
  - vm_compute. lia.
  - reflexivity.
  - reflexivity.
  - vm_compute. reflexivity.
  - vm_compute. reflexivity.
  - vm_compute. reflexivity.
  - exists step. repeat split; assumption.
Defined.

(** Where the ratio is not a finite float no stride comes out: with an
    interval of 10^306 hours the product with 3600 is infinite and [round]
    raises; on a time axis with a single instant the median is NaN and
    [round] raises as well. *)
Lemma non_finite_ratio_raises :
  compute_step (times_3600 (PyFloat (F64.of_Z (10 ^ 306))))
               (median_dt_of (hourly_axis 100)) = Raise OverflowError /\
  compute_step (times_3600 (PyInt 1)) (median_dt_of (hourly_axis 1))
    = Raise ValueError.
Proof. split; vm_compute; reflexivity. Qed.

(** ** Validity masker *)

Section Zip.

Context {A B C : Type} (f : A -> B -> C).

Lemma zip_with_nil_r (a : list A) : zip_with f a [] = [].
Proof. destruct a; reflexivity. Qed.

Lemma nth_zip_with (da : A) (db : B) (d : C) :
  (forall x, f x db = d) -> (forall y, f da y = d) ->
  forall a b i,
    nth i (zip_with f a b) d = f (nth i a da) (nth i b db).
Proof.
  intros Hr Hl.
  induction a as [|x s IH]; intros b i.
  - cbn [zip_with]. destruct i; cbn [nth]; symmetry; apply Hl.
  - destruct b as [|y t]; cbn [zip_with].
    + destruct i; cbn [nth]; symmetry; apply Hr.
    + destruct i as [|i]; cbn [nth]; [reflexivity | apply IH].
Qed.

Lemma zip_with_length (a : list A) :
  forall b, length (zip_with f a b) = Nat.min (length a) (length b).
Proof.
  induction a as [|x s IH]; intros [|y t]; cbn [zip_with length Nat.min];
    try reflexivity.
  now rewrite IH.
Qed.

End Zip.

Lemma map_combine_zip_with {A B C : Type} (h : A * B -> C) (a : list A) :
  forall b, map h (combine a b) = zip_with (fun x y => h (x, y)) a b.
Proof.
  induction a as [|x s IH]; intros [|y t]; cbn; try reflexivity.
  now rewrite IH.
Qed.

Lemma nth_nil {A : Type} (i : nat) (d : A) : nth i [] d = d.
Proof. destruct i; reflexivity. Qed.

Lemma nth_column_of (pid i : nat) (a : list (list float)) :
  nth i (column_of pid a) F64.nan = cell a i pid.
Proof.
  unfold column_of, cell.
  rewrite <- (nth_nil pid F64.nan) at 1.
  apply (map_nth (fun row => nth pid row F64.nan)).
Qed.

Lemma cell_mask_fill (fill_val : float) (a : list (list float)) (i j : nat) :
  cell (mask_fill fill_val a) i j
  = if F64.eqb (cell a i j) fill_val then F64.nan else cell a i j.
Proof.
  unfold cell, mask_fill.
  set (g := fun v : float => if F64.eqb v fill_val then F64.nan else v).
  change (@nil float) with (map g []) at 1.
  rewrite (map_nth (map g)).
  change F64.nan with (g F64.nan) at 1.
  rewrite (map_nth g). reflexivity.
Qed.

Lemma nth_valid_mask_of (lon_sub lat_sub : list (list float)) (i j : nat) :
  nth j (nth i (valid_mask_of lon_sub lat_sub) []) false
  = F64.isfinite (cell lon_sub i j) && F64.isfinite (cell lat_sub i j).
Proof.
  unfold valid_mask_of, cell.
  rewrite (nth_zip_with _ [] []).
  - apply (nth_zip_with (fun a b => F64.isfinite a && F64.isfinite b)
                        F64.nan F64.nan); intros; cbn.
    + apply andb_false_r.
    + reflexivity.
  - intros x. apply zip_with_nil_r.
  - reflexivity.
Qed.

Lemma nth_finite_rows_columns (lon_sub lat_sub : list (list float))
  (pid i : nat) :
  nth i (finite_rows (combine (column_of pid lon_sub) (column_of pid lat_sub)))
      false
  = F64.isfinite (cell lon_sub i pid) && F64.isfinite (cell lat_sub i pid).
Proof.
  unfold finite_rows. rewrite map_combine_zip_with.
  rewrite (nth_zip_with _ F64.nan F64.nan).
  - cbn [fst snd]. now rewrite !nth_column_of.
  - intros x. cbn. apply andb_false_r.
  - reflexivity.
Qed.

(** C4. Masking replaces exactly the elements that compare equal to the
    fill sentinel (float [==]) by NaN and keeps every other element and the
    shape; the validity mask of point mode, and the per-particle mask of
    line mode, are true exactly where both masked coordinates are finite.
    The comparison is exact: the float64 next to -999.0 is not masked by
    the sentinel -999.0. *)
Theorem mask_fill_exact_and_mask_finite :
  forall (fill_val : float) (lon_sub lat_sub : list (list float)) (i j : nat),
    cell (mask_fill fill_val lon_sub) i j
      = (if F64.eqb (cell lon_sub i j) fill_val then F64.nan
         else cell lon_sub i j) /\
    length (mask_fill fill_val lon_sub) = length lon_sub /\
    length (nth i (mask_fill fill_val lon_sub) []) = length (nth i lon_sub []) /\
    nth j (nth i (valid_mask_of (mask_fill fill_val lon_sub)
                                (mask_fill fill_val lat_sub)) []) false
      = F64.isfinite (cell (mask_fill fill_val lon_sub) i j)
        && F64.isfinite (cell (mask_fill fill_val lat_sub) i j) /\
    nth i (finite_rows
             (combine (column_of j (mask_fill fill_val lon_sub))
                      (column_of j (mask_fill fill_val lat_sub)))) false
      = F64.isfinite (cell (mask_fill fill_val lon_sub) i j)
        && F64.isfinite (cell (mask_fill fill_val lat_sub) i j) /\
    mask_fill (F64.of_Z (-999)) [[F64.of_Z (-999); above_minus_999]]
      = [[F64.nan; above_minus_999]].
Proof.
  intros fill_val lon_sub lat_sub i j.
  split; [apply cell_mask_fill|].
  split; [apply mask_fill_length|].
  split.
  { unfold mask_fill.
    change (@nil float)
      with (map (fun v => if F64.eqb v fill_val then F64.nan else v) []) at 1.
    rewrite (map_nth (map _)). apply length_map. }
  split; [apply nth_valid_mask_of|].
  split; [apply nth_finite_rows_columns|].
  vm_compute. reflexivity.
Qed.

(** ** Shapes *)

Lemma Forall_stride_from {A : Type} (P : A -> Prop) (l : list A) :
  Forall P l -> forall skip gap, Forall P (stride_from skip gap l).
Proof.
  induction 1 as [|x t Hx Ht IH]; intros skip gap; cbn [stride_from].
  - constructor.
  - destruct skip; [constructor|]; auto.
Qed.

Lemma shaped_mask_fill (n m : nat) (fill_val : float) (a : list (list float)) :
  shaped n m a -> shaped n m (mask_fill fill_val a).
Proof.
  intros [Hn Hm]. split.
  - now rewrite mask_fill_length.
  - unfold mask_fill. apply Forall_map.
    eapply Forall_impl; [|exact Hm].
    cbn. intros row Hrow. now rewrite length_map.
Qed.

Lemma shaped_slice_step (n m : nat) (step : Z) (a : list (list float)) :
  shaped n m a -> shaped (length (slice_step step a)) m (slice_step step a).
Proof.
  intros [_ Hm]. split; [reflexivity|].
  now apply Forall_stride_from.
Qed.

Lemma shaped_row_length (n m : nat) (a : list (list float)) (i : nat) :
  shaped n m a -> (i < n)%nat -> length (nth i a []) = m.
Proof.
  intros [Hn Hm] Hi. rewrite Forall_forall in Hm.
  apply Hm, nth_In. lia.
Qed.

(** ** Point mode *)

Lemma true_columns_filter (row : list bool) :
  forall j0,
    true_columns row j0
    = filter (fun j => nth (j - j0) row false) (seq j0 (length row)).
Proof.
  induction row as [|b t IH]; intros j0; cbn [true_columns length seq filter].
  - reflexivity.
  - rewrite Nat.sub_diag. cbn [nth].
    rewrite IH.
    assert (Hext :
      filter (fun j => nth (j - S j0) t false) (seq (S j0) (length t))
      = filter (fun j => nth (j - j0) (b :: t) false) (seq (S j0) (length t))).
    { apply filter_ext_in. intros j Hj. apply in_seq in Hj.
      replace (j - j0)%nat with (S (j - S j0)) by lia. reflexivity. }
    rewrite Hext. destruct b; reflexivity.
Qed.

Lemma flat_map_ext_on {A B : Type} (f g : A -> list B) (l : list A) :
  (forall x, In x l -> f x = g x) -> flat_map f l = flat_map g l.
Proof.
  induction l as [|x t IH]; intros H; cbn [flat_map]; [reflexivity|].
  rewrite (H x (or_introl eq_refl)), IH; [reflexivity|].
  intros y Hy. apply H. now right.
Qed.

Lemma where_from_flat_map (mask : list (list bool)) :
  forall i0,
    where_from mask i0
    = flat_map (fun i => map (pair i) (true_columns (nth (i - i0) mask []) 0))
               (seq i0 (length mask)).
Proof.
  induction mask as [|row t IH]; intros i0; cbn [where_from length seq flat_map].
  - reflexivity.
  - rewrite Nat.sub_diag. cbn [nth]. f_equal.
    rewrite IH. apply flat_map_ext_on. intros i Hi. apply in_seq in Hi.
    replace (i - i0)%nat with (S (i - S i0)) by lia. reflexivity.
Qed.

Lemma valid_mask_of_length (n m : nat) (lon_sub lat_sub : list (list float)) :
  shaped n m lon_sub -> shaped n m lat_sub ->
  length (valid_mask_of lon_sub lat_sub) = n.
Proof.
  intros [Hn _] [Hn' _]. unfold valid_mask_of.
  rewrite zip_with_length. lia.
Qed.

Lemma valid_mask_of_row_length (n m : nat) (lon_sub lat_sub : list (list float))
  (i : nat) :
  shaped n m lon_sub -> shaped n m lat_sub -> (i < n)%nat ->
  length (nth i (valid_mask_of lon_sub lat_sub) []) = m.
Proof.
  intros Hlon Hlat Hi. unfold valid_mask_of.
  rewrite (nth_zip_with _ [] []).
  - rewrite zip_with_length.
    rewrite (shaped_row_length n m lon_sub i Hlon Hi).
    rewrite (shaped_row_length n m lat_sub i Hlat Hi). lia.
  - intros x. apply zip_with_nil_r.
  - reflexivity.
Qed.

Lemma where_valid_pairs (n m : nat) (lon_sub lat_sub : list (list float)) :
  shaped n m lon_sub -> shaped n m lat_sub ->
  where_from (valid_mask_of lon_sub lat_sub) 0 = valid_pairs lon_sub lat_sub n m.
Proof.
  intros Hlon Hlat. rewrite where_from_flat_map.
  rewrite (valid_mask_of_length n m) by assumption.
  unfold valid_pairs. apply flat_map_ext_on. intros i Hi. apply in_seq in Hi.
  rewrite Nat.sub_0_r. f_equal.
  rewrite true_columns_filter.
  rewrite (valid_mask_of_row_length n m) by (assumption || lia).
  apply filter_ext. intros j. rewrite Nat.sub_0_r.
  apply nth_valid_mask_of.
Qed.

Lemma zip_with_maps {A B C D : Type} (f : B -> C -> D) (g : A -> B) (h : A -> C)
  (l : list A) :
  zip_with f (map g l) (map h l) = map (fun x => f (g x) (h x)) l.
Proof. induction l as [|x t IH]; cbn; [reflexivity | now rewrite IH]. Qed.

Lemma round_s_NaT : round_s NaT = NaT.
Proof. reflexivity. Qed.

Lemma round_s_whole (t : Z) : whole_second (round_s t).
Proof.
  unfold whole_second, round_s.
  destruct (t =? NaT); [now left|]. right. cbv zeta.
  destruct (_ || _); apply Z.mod_mul; lia.
Qed.

(** rounding moves an instant by half a second at most *)
Lemma round_s_near (t : Z) :
  t <> NaT -> Z.abs (round_s t - t) <= 500000000.
Proof.
  intros Ht. unfold round_s. apply Z.eqb_neq in Ht. rewrite Ht. cbv zeta.
  pose proof (Z.div_mod t 1000000000 ltac:(lia)) as Hdm.
  pose proof (Z.mod_pos_bound t 1000000000 ltac:(lia)) as Hb.
  change (1000000000 / 2) with 500000000.
  destruct (_ || _) eqn:Hup.
  - apply orb_true_iff in Hup. destruct Hup as [Hup|Hup].
    + apply Z.ltb_lt in Hup. lia.
    + apply andb_true_iff in Hup. destruct Hup as [Hup _].
      apply Z.eqb_eq in Hup. lia.
  - apply orb_false_iff in Hup. destruct Hup as [Hup _].
    apply Z.ltb_ge in Hup. lia.
Qed.

Lemma points_gdf_build_points (n m : nat) (lon_sub lat_sub : list (list float))
  (raw : list Z) :
  shaped n m lon_sub -> shaped n m lat_sub ->
  let idx := valid_pairs lon_sub lat_sub n m in
  let t := build_points lon_sub lat_sub (map round_s raw) in
  length (pt_x t) = length idx /\
  points_gdf t
  = {| frame := [ ("par_id", IntCol (point_pids idx));
                  ("time", DatetimeCol (point_times raw idx));
                  ("geometry", GeomCol (point_geoms lon_sub lat_sub idx)) ];
       crs := "EPSG:4326" |}.
Proof.
  intros Hlon Hlat idx t. subst t.
  unfold build_points, np_where.
  rewrite (where_valid_pairs n m) by assumption. fold idx.
  cbn [pt_x]. unfold points_gdf. cbn [pt_x pt_y pt_pids pt_t_vals].
  rewrite !zip_with_maps. split.
  - now rewrite length_map.
  - unfold mkGeoDataFrame. cbn [filter fst String.eqb Ascii.eqb Bool.eqb orb app].
    unfold point_pids, point_times, point_geoms.
    rewrite !map_map.
    assert (Ht : map (fun x : nat * nat => nth (fst x) (map round_s raw) NaT) idx
                 = map (fun p => round_s (nth (fst p) raw NaT)) idx).
    { apply map_ext. intros p.
      rewrite <- round_s_NaT at 1. apply (map_nth round_s). }
    rewrite Ht. reflexivity.
Qed.

(** *** Order and multiplicity of the enumerated pairs *)

Section SortedLists.

Context {A B : Type} (R : A -> A -> Prop) (R' : B -> B -> Prop).

Lemma StronglySorted_app (l1 l2 : list A) :
  StronglySorted R l1 -> StronglySorted R l2 ->
  (forall x y, In x l1 -> In y l2 -> R x y) ->
  StronglySorted R (l1 ++ l2).
Proof.
  induction 1 as [|x t Ht IH Hx]; intros H2 Hcross; cbn [app]; [assumption|].
  constructor.
  - apply IH; [assumption|]. intros a b Ha Hb. apply Hcross; [now right | assumption].
  - apply Forall_app. split; [assumption|].
    apply Forall_forall. intros y Hy. apply Hcross; [now left | assumption].
Qed.

Lemma StronglySorted_filter (f : A -> bool) (l : list A) :
  StronglySorted R l -> StronglySorted R (filter f l).
Proof.
  induction 1 as [|x t Ht IH Hx]; cbn [filter]; [constructor|].
  destruct (f x); [|assumption].
  constructor; [assumption|].
  apply Forall_forall. intros y Hy. apply filter_In in Hy.
  rewrite Forall_forall in Hx. now apply Hx.
Qed.

Lemma StronglySorted_map (f : A -> B) (l : list A) :
  (forall x y, R x y -> R' (f x) (f y)) ->
  StronglySorted R l -> StronglySorted R' (map f l).
Proof.
  intros Hf. induction 1 as [|x t Ht IH Hx]; cbn [map]; constructor.
  - assumption.
  - apply Forall_map. eapply Forall_impl; [|exact Hx]. intros y. apply Hf.
Qed.

Lemma StronglySorted_NoDup (l : list A) :
  (forall x, ~ R x x) -> StronglySorted R l -> NoDup l.
Proof.
  intros Hirr. induction 1 as [|x t Ht IH Hx]; constructor; [|assumption].
  intros Hin. rewrite Forall_forall in Hx. exact (Hirr x (Hx x Hin)).
Qed.

End SortedLists.

Lemma StronglySorted_seq (len : nat) :
  forall start, StronglySorted lt (seq start len).
Proof.
  induction len as [|len IH]; intros start; cbn [seq]; constructor.
  - apply IH.
  - apply Forall_forall. intros y Hy. apply in_seq in Hy. lia.
Qed.

Section ValidPairs.

Variables (lon_sub lat_sub : list (list float)) (n_time n_particles : nat).

Lemma in_valid_pairs (i j : nat) :
  In (i, j) (valid_pairs lon_sub lat_sub n_time n_particles)
  <-> (i < n_time)%nat /\ (j < n_particles)%nat
      /\ jointly_finite lon_sub lat_sub i j = true.
Proof.
  unfold valid_pairs. rewrite in_flat_map. split.
  - intros (i' & Hi' & Hin). apply in_map_iff in Hin.
    destruct Hin as (j' & Heq & Hj'). injection Heq as -> ->.
    apply filter_In in Hj'. destruct Hj' as [Hj' Hv].
    apply in_seq in Hi', Hj'. repeat split; (lia || assumption).
  - intros (Hi & Hj & Hv). exists i. split; [apply in_seq; lia|].
    apply in_map. apply filter_In. split; [apply in_seq; lia | assumption].
Qed.

Lemma valid_pairs_sorted :
  StronglySorted row_major_lt
    (valid_pairs lon_sub lat_sub n_time n_particles).
Proof.
  unfold valid_pairs.
  assert (H : forall len start,
    StronglySorted row_major_lt
      (flat_map
         (fun i => map (pair i)
                       (filter (jointly_finite lon_sub lat_sub i)
                               (seq 0 n_particles)))
         (seq start len)) /\
    forall p, In p (flat_map
         (fun i => map (pair i)
                       (filter (jointly_finite lon_sub lat_sub i)
                               (seq 0 n_particles)))
         (seq start len)) -> (start <= fst p)%nat).
  { induction len as [|len IH]; intros start; cbn [seq flat_map].
    - split; [constructor | intros p []].
    - destruct (IH (S start)) as [IHs IHb]. split.
      + apply StronglySorted_app.
        * apply (StronglySorted_map lt); [|apply StronglySorted_filter, StronglySorted_seq].
          intros x y Hxy. right. cbn. split; [reflexivity | assumption].
        * assumption.
        * intros x y Hx Hy. apply in_map_iff in Hx.
          destruct Hx as (j & <- & _). left. cbn.
          specialize (IHb y Hy). lia.
      + intros p Hp. apply in_app_or in Hp. destruct Hp as [Hp|Hp].
        * apply in_map_iff in Hp. destruct Hp as (j & <- & _). cbn. lia.
        * specialize (IHb p Hp). lia. }
  apply H.
Qed.

Lemma valid_pairs_NoDup :
  NoDup (valid_pairs lon_sub lat_sub n_time n_particles).
Proof.
  apply (StronglySorted_NoDup row_major_lt); [|apply valid_pairs_sorted].
  intros p [H|[_ H]]; lia.
Qed.

Lemma count_eq_in_filtered_seq (g : nat -> bool) (j len : nat) :
  forall start,
    length (filter (Nat.eqb j) (filter g (seq start len)))
    = if (Nat.leb start j && Nat.ltb j (start + len) && g j)%bool
      then 1%nat else 0%nat.
Proof.
  induction len as [|len IH]; intros start; cbn [seq filter length].
  - destruct (Nat.leb_spec start j), (Nat.ltb_spec j (start + 0)); cbn;
      try reflexivity; lia.
  - destruct (g start) eqn:Hg; cbn [filter].
    + destruct (Nat.eqb_spec j start) as [->|Hne]; cbn [length]; rewrite IH.
      * rewrite Hg.
        destruct (Nat.leb_spec (S start) start); [lia|].
        destruct (Nat.leb_spec start start); [|lia].
        destruct (Nat.ltb_spec start (start + S len)); [|lia].
        reflexivity.
      * destruct (Nat.leb_spec (S start) j), (Nat.leb_spec start j),
          (Nat.ltb_spec j (S start + len)), (Nat.ltb_spec j (start + S len));
          cbn; try reflexivity; lia.
    + rewrite IH.
      destruct (Nat.eqb_spec j start) as [->|Hne].
      * rewrite Hg.
        destruct (Nat.leb_spec (S start) start); [lia|].
        cbn. now rewrite !andb_false_r.
      * destruct (Nat.leb_spec (S start) j), (Nat.leb_spec start j),
          (Nat.ltb_spec j (S start + len)), (Nat.ltb_spec j (start + S len));
          cbn; try reflexivity; lia.
Qed.

(** the records of particle [j] are as many as its valid timesteps *)
Lemma valid_pairs_count (j : nat) :
  (j < n_particles)%nat ->
  length (filter (fun p => Nat.eqb j (snd p))
                 (valid_pairs lon_sub lat_sub n_time n_particles))
  = length (filter (fun i => jointly_finite lon_sub lat_sub i j)
                   (seq 0 n_time)).
Proof.
  intros Hj. unfold valid_pairs.
  induction (seq 0 n_time) as [|i t IH]; cbn [flat_map filter]; [reflexivity|].
  rewrite filter_app, length_app, IH.
  assert (Hblock :
    length (filter (fun p : nat * nat => Nat.eqb j (snd p))
              (map (pair i) (filter (jointly_finite lon_sub lat_sub i)
                                    (seq 0 n_particles))))
    = if jointly_finite lon_sub lat_sub i j then 1%nat else 0%nat).
  { rewrite <- (length_map snd), filter_map_swap, map_map. cbn [snd].
    rewrite map_id, count_eq_in_filtered_seq.
    destruct (Nat.ltb_spec j (0 + n_particles)); [|lia].
    reflexivity. }
  rewrite Hblock.
  destruct (jointly_finite lon_sub lat_sub i j); reflexivity.
Qed.

End ValidPairs.

(** ** Dataset invariant *)

Lemma lon_sub_of_shaped (lon lat : CoordVar) (tv : time_array) (step : Z) :
  well_shaped lon lat tv ->
  shaped (length (lon_sub_of lon step)) (ncols lon) (lon_sub_of lon step).
Proof.
  intros [Hlon _]. unfold lon_sub_of. rewrite mask_fill_length.
  apply shaped_mask_fill. eapply shaped_slice_step; eassumption.
Qed.

Lemma lat_sub_of_shaped (lon lat : CoordVar) (tv : time_array) (step : Z) :
  well_shaped lon lat tv ->
  shaped (length (lon_sub_of lon step)) (ncols lon) (lat_sub_of lon lat step).
Proof.
  intros [[Hn _] [Hn' Hm']]. unfold lon_sub_of, lat_sub_of.
  rewrite mask_fill_length.
  replace (length (slice_step step (values lon)))
    with (length (slice_step step (values lat))).
  - apply shaped_mask_fill. eapply shaped_slice_step. split; eassumption.
  - unfold slice_step. rewrite !stride_from_length. congruence.
Qed.

Lemma time_sub_of_length_lon (lon lat : CoordVar) (tv : time_array) (step : Z) :
  well_shaped lon lat tv ->
  length (time_sub_of tv step) = length (lon_sub_of lon step).
Proof.
  intros [[Hn _] _]. rewrite time_sub_of_length.
  unfold lon_sub_of. rewrite mask_fill_length.
  destruct tv; cbn [time_slice time_len] in *;
    unfold slice_step; rewrite !stride_from_length; congruence.
Qed.

(** C3. Point mode emits one record per index pair (time_index,
    particle_index) of the downsampled grid at which both masked
    coordinates are finite: the pairs come in time-major order without
    repetition, each record carries the particle index, the timestamp of
    its time index rounded to whole seconds (a whole number of seconds,
    half a second at most from the instant of the axis) and the point of
    the two coordinates, a pair that is not valid has no record, and a
    particle has as many records as it has valid timesteps (one if exactly
    one). *)
Theorem point_mode_one_record_per_valid_pair :
  forall (E : env) (nc_file output_path : string) (hours : pynum)
         (lon lat : CoordVar) (tv : time_array) (step : Z),
    loads E nc_file lon lat tv ->
    well_shaped lon lat tv ->
    compute_step (times_3600 hours) (median_dt_of tv) = Ret step ->
    let lon_sub := lon_sub_of lon step in
    let lat_sub := lat_sub_of lon lat step in
    let n_time := length lon_sub in
    let raw_time_sub := to_datetime (time_slice step tv) in
    let idx := valid_pairs lon_sub lat_sub n_time (ncols lon) in
    let gdf :=
      {| frame := [ ("par_id", IntCol (point_pids idx));
                    ("time", DatetimeCol (point_times raw_time_sub idx));
                    ("geometry", GeomCol (point_geoms lon_sub lat_sub idx)) ];
         crs := "EPSG:4326" |} in
    length raw_time_sub = n_time /\
    StronglySorted row_major_lt idx /\
    NoDup idx /\
    (forall i j,
        In (i, j) idx
        <-> (i < n_time)%nat /\ (j < ncols lon)%nat
            /\ jointly_finite lon_sub lat_sub i j = true) /\
    (forall j,
        (j < ncols lon)%nat ->
        length (filter (fun p => Nat.eqb j (snd p)) idx)
        = length (filter (fun i => jointly_finite lon_sub lat_sub i j)
                         (seq 0 n_time))) /\
    Forall2
      (fun t p =>
         whole_second t
         /\ (nth (fst p) raw_time_sub NaT <> NaT ->
             Z.abs (t - nth (fst p) raw_time_sub NaT) <= 500000000))
      (point_times raw_time_sub idx) idx /\
    (forall tr,
        let tr1 := (tr ++ downscale_events nc_file hours lon tv step
                       ++ [Print (MsgPreparingPoints (length idx))])%list in
        ncTrk2pt E nc_file output_path hours tr
        = match idx with
          | [] => (Ret None, (tr1 ++ [Print MsgNoPoints])%list)
          | _ :: _ => (export_gdf E gdf output_path ;; ret (Some gdf)) tr1
          end).
Proof.
  intros E nc_file output_path hours lon lat tv step Hload Hwf Hstep
         lon_sub lat_sub n_time raw_time_sub idx gdf.
  pose proof (lon_sub_of_shaped lon lat tv step Hwf) as Hlon.
  pose proof (lat_sub_of_shaped lon lat tv step Hwf) as Hlat.
  destruct (points_gdf_build_points _ _ _ _ raw_time_sub Hlon Hlat) as [Hlen Hgdf].
  fold lon_sub lat_sub n_time idx in Hlen, Hgdf. fold gdf in Hgdf.
  split.
  { unfold raw_time_sub, n_time, lon_sub.
    rewrite <- (time_sub_of_length_lon lon lat tv step Hwf).
    unfold time_sub_of. now rewrite length_map. }
  split; [apply valid_pairs_sorted|].
  split; [apply valid_pairs_NoDup|].
  split; [apply in_valid_pairs|].
  split; [apply valid_pairs_count|].
  split.
  { unfold point_times. clear. induction idx as [|p t IH]; cbn [map];
      constructor; [|exact IH].
    split; [apply round_s_whole | apply round_s_near]. }
  intros tr tr1.
  rewrite (ncTrk2pt_loaded _ _ _ _ _ _ _ Hload _ _ Hstep). cbv zeta.
  unfold point_rows, time_sub_of. fold raw_time_sub lon_sub lat_sub.
  rewrite Hgdf, Hlen. subst tr1.
  destruct idx; reflexivity.
Qed.

Lemma demo_loads : loads demo_env "trk.nc" demo_lon demo_lat (hourly_axis 4).
Proof. constructor; reflexivity. Qed.

Lemma demo_well_shaped : well_shaped demo_lon demo_lat (hourly_axis 4).
Proof. repeat constructor. Qed.

Lemma demo_step :
  compute_step (times_3600 (PyInt 1)) (median_dt_of (hourly_axis 4)) = Ret 1.
Proof. vm_compute. reflexivity. Qed.

Lemma point_mode_one_record_per_valid_pair_witness :
  fst (ncTrk2pt offbeat_env "trk.nc" "pts.gpkg" (PyInt 1) [])
  = Ret (Some
      {| frame :=
           [ ("par_id", IntCol [0; 0; 1; 0]);
             ("time",
              DatetimeCol [0; 3601000000000; 7200000000000; 10802000000000]);
             ("geometry",
              GeomCol [ Point (F64.of_Z 1) (F64.of_Z 1);
                        Point (F64.of_Z 2) (F64.of_Z 2);
                        Point (F64.of_Z 5) (F64.of_Z 5);
                        Point (F64.of_Z 4) (F64.of_Z 4) ]) ];
         crs := "EPSG:4326" |})
  /\ length (filter (fun p => Nat.eqb 1 (snd p))
               (valid_pairs (lon_sub_of demo_lon 1)
                            (lat_sub_of demo_lon plain_lat 1)
                            (length (lon_sub_of demo_lon 1)) (ncols demo_lon)))
     = 1%nat.
Proof.
  assert (Hload : loads offbeat_env "trk.nc" demo_lon plain_lat offbeat_axis)
    by (constructor; reflexivity).
  assert (Hwf : well_shaped demo_lon plain_lat offbeat_axis)
    by (repeat constructor).
  assert (Hstep : compute_step (times_3600 (PyInt 1)) (median_dt_of offbeat_axis)
                  = Ret 1) by (vm_compute; reflexivity).
  destruct (point_mode_one_record_per_valid_pair offbeat_env "trk.nc" "pts.gpkg"
              (PyInt 1) demo_lon plain_lat offbeat_axis 1 Hload Hwf Hstep)
    as (_ & _ & _ & _ & Hcount & _ & Hrun).
  split.
  - rewrite (Hrun []). vm_compute. reflexivity.
  - rewrite (Hcount 1%nat); [vm_compute; reflexivity | cbn; lia].
Defined.

(** ** Line mode *)

Lemma round_s_multiple (k : Z) : round_s (k * 1000000000) = k * 1000000000.
Proof.
  unfold round_s.
  destruct (k * 1000000000 =? NaT) eqn:Hnat.
  - apply Z.eqb_eq in Hnat. now rewrite Hnat.
  - rewrite Z.div_mul, Z.mod_mul by lia.
    reflexivity.
Qed.

Lemma round_s_idempotent (t : Z) : round_s (round_s t) = round_s t.
Proof.
  unfold round_s at 2 3.
  destruct (t =? NaT); [reflexivity|].
  cbv zeta.
  destruct (_ || _); apply round_s_multiple.
Qed.

Section BoolIndex.

Context {A : Type} (d : A).

Lemma bool_index_filter (l : list A) :
  forall (mask : list bool) (s : nat),
    length mask = length l ->
    bool_index l mask
    = map (fun i => nth (i - s) l d)
          (filter (fun i => nth (i - s) mask false) (seq s (length l))).
Proof.
  induction l as [|x t IH]; intros [|b m] s Hlen; cbn [length] in Hlen;
    try discriminate; [reflexivity|].
  cbn [bool_index length seq filter].
  rewrite Nat.sub_diag. cbn [nth].
  assert (Htail :
    bool_index t m
    = map (fun i => nth (i - s) (x :: t) d)
          (filter (fun i => nth (i - s) (b :: m) false) (seq (S s) (length t)))).
  { rewrite (IH m (S s)) by lia.
    rewrite (filter_ext_in (fun i => nth (i - S s) m false)
                           (fun i => nth (i - s) (b :: m) false)).
    - apply map_ext_in. intros i Hi. apply filter_In in Hi.
      destruct Hi as [Hi _]. apply in_seq in Hi.
      replace (i - s)%nat with (S (i - S s)) by lia. reflexivity.
    - intros i Hi. apply in_seq in Hi.
      replace (i - s)%nat with (S (i - S s)) by lia. reflexivity. }
  rewrite Htail. destruct b; cbn [map]; [rewrite Nat.sub_diag|]; reflexivity.
Qed.

Lemma bool_index_indices (l : list A) (mask : list bool) :
  length mask = length l ->
  bool_index l mask
  = map (fun i => nth i l d)
        (filter (fun i => nth i mask false) (seq 0 (length l))).
Proof.
  intros Hlen. rewrite (bool_index_filter l mask 0 Hlen).
  erewrite filter_ext.
  - apply map_ext. intros i. now rewrite Nat.sub_0_r.
  - intros i. now rewrite Nat.sub_0_r.
Qed.

End BoolIndex.

Lemma isnan_not_finite (v : float) : F64.isnan v = true -> F64.isfinite v = false.
Proof. destruct v; cbn; congruence. Qed.

Lemma filter_none {A : Type} (f : A -> bool) (l : list A) :
  (forall x, f x = false) -> filter f l = [].
Proof.
  intros H. induction l as [|x t IH]; cbn [filter]; [reflexivity|].
  now rewrite H.
Qed.

Lemma all_nan_column (pid : nat) (a : list (list float)) (i : nat) :
  forallb F64.isnan (column_of pid a) = true ->
  F64.isfinite (cell a i pid) = false.
Proof.
  intros Hall. apply isnan_not_finite.
  rewrite <- nth_column_of.
  destruct (Nat.lt_ge_cases i (length (column_of pid a))) as [Hi|Hi].
  - rewrite forallb_forall in Hall. apply Hall, nth_In, Hi.
  - now rewrite nth_overflow.
Qed.

Lemma column_of_length (pid : nat) (a : list (list float)) :
  length (column_of pid a) = length a.
Proof. apply length_map. Qed.

Lemma hd_map {A B : Type} (g : A -> B) (d : A) (d' : B) (l : list A) :
  l <> [] -> hd d' (map g l) = g (hd d l).
Proof. destruct l; [congruence | reflexivity]. Qed.

Lemma last_map_nonempty {A B : Type} (g : A -> B) (d : A) (d' : B) (l : list A) :
  l <> [] -> last (map g l) d' = g (last l d).
Proof.
  induction l as [|x t IH]; [congruence|]. intros _.
  destruct t as [|y t]; [reflexivity|].
  change (last (map g (y :: t)) d' = g (last (y :: t) d)).
  apply IH. discriminate.
Qed.

Section LineBody.

Variables (lon_sub lat_sub : list (list float)) (raw : list Z) (n_time : nat).
Hypothesis Hlon : length lon_sub = n_time.
Hypothesis Hlat : length lat_sub = n_time.
Hypothesis Hraw : length raw = n_time.

Let vt := valid_times lon_sub lat_sub n_time.

Lemma selected_coords (pid : nat) :
  let coords := combine (column_of pid lon_sub) (column_of pid lat_sub) in
  bool_index coords (finite_rows coords)
  = map (fun i => (cell lon_sub i pid, cell lat_sub i pid)) (vt pid).
Proof.
  intros coords.
  assert (Hc : length coords = n_time).
  { unfold coords. rewrite length_combine, !column_of_length. lia. }
  rewrite (bool_index_indices (F64.nan, F64.nan)).
  2:{ unfold finite_rows. apply length_map. }
  rewrite Hc. unfold vt, valid_times.
  rewrite (filter_ext _ (fun i => jointly_finite lon_sub lat_sub i pid)).
  2:{ intros i. apply nth_finite_rows_columns. }
  apply map_ext_in. intros i Hi. apply filter_In in Hi.
  destruct Hi as [Hi _]. apply in_seq in Hi.
  unfold coords. rewrite combine_nth by (rewrite !column_of_length; lia).
  now rewrite !nth_column_of.
Qed.

Lemma selected_times (pid : nat) :
  let coords := combine (column_of pid lon_sub) (column_of pid lat_sub) in
  bool_index (map round_s raw) (finite_rows coords)
  = map (fun i => round_s (nth i raw NaT)) (vt pid).
Proof.
  intros coords.
  assert (Hc : length coords = n_time).
  { unfold coords. rewrite length_combine, !column_of_length. lia. }
  rewrite (bool_index_indices NaT).
  2:{ unfold finite_rows. rewrite !length_map. lia. }
  rewrite length_map, Hraw. unfold vt, valid_times.
  rewrite (filter_ext _ (fun i => jointly_finite lon_sub lat_sub i pid)).
  2:{ intros i. apply nth_finite_rows_columns. }
  apply map_ext. intros i.
  rewrite <- round_s_NaT at 1. apply (map_nth round_s).
Qed.

Lemma line_body_spec (acc : line_acc) (pid : nat) :
  line_body lon_sub lat_sub (map round_s raw) acc pid
  = if has_track lon_sub lat_sub n_time pid
    then acc_app acc (track_acc lon_sub lat_sub raw n_time pid)
    else acc.
Proof.
  unfold line_body, has_track. fold (vt pid).
  destruct (forallb F64.isnan (column_of pid lon_sub)
            || forallb F64.isnan (column_of pid lat_sub)) eqn:Hskip.
  - assert (Hnone : vt pid = []).
    { unfold vt, valid_times. apply filter_none. intros i.
      unfold jointly_finite. apply orb_true_iff in Hskip.
      destruct Hskip as [H|H].
      - now rewrite (all_nan_column _ _ i H).
      - rewrite (all_nan_column _ _ i H). apply andb_false_r. }
    rewrite Hnone. reflexivity.
  - cbv zeta. rewrite selected_coords, selected_times, length_map.
    change (1 <? length (vt pid))%nat with (2 <=? length (vt pid))%nat.
    destruct (2 <=? length (vt pid))%nat eqn:Htwo; [|reflexivity].
    assert (Hne : vt pid <> []).
    { intros Heq. rewrite Heq in Htwo. discriminate. }
    rewrite (hd_map _ 0%nat NaT _ Hne).
    rewrite (last_map_nonempty _ 0%nat NaT _ Hne).
    rewrite !round_s_idempotent.
    reflexivity.
Qed.

Lemma fold_line_body (l : list nat) :
  forall acc,
    fold_left (line_body lon_sub lat_sub (map round_s raw)) l acc
    = acc_app acc (tracks_over lon_sub lat_sub raw n_time l).
Proof.
  induction l as [|pid t IH]; intros acc; cbn [fold_left].
  - unfold acc_app, tracks_over. cbn. rewrite !app_nil_r. now destruct acc.
  - rewrite IH, line_body_spec.
    unfold tracks_over. cbn [filter].
    destruct (has_track lon_sub lat_sub n_time pid); [|reflexivity].
    unfold acc_app, track_acc. cbn. now rewrite <- !app_assoc.
Qed.

Lemma build_lines_spec (n_particles : nat) :
  build_lines lon_sub lat_sub (map round_s raw) n_particles
  = tracks_over lon_sub lat_sub raw n_time (seq 0 n_particles).
Proof.
  unfold build_lines. rewrite fold_line_body.
  unfold acc_app, line_acc0, tracks_over. reflexivity.
Qed.

End LineBody.

(** C2. In line mode a particle gets a track exactly when at least two of
    its subsampled timesteps have both masked coordinates finite; the
    polyline goes through the coordinates of exactly those timesteps in
    time order, and the record carries the particle index and the first
    and last of those timestamps rounded to whole seconds: each is a
    whole number of seconds, half a second at most from the instant of
    the axis.  A particle with fewer valid points adds nothing and raises
    nothing. *)
Theorem line_mode_track_iff_two_valid_points :
  forall (E : env) (nc_file output_path : string) (hours : pynum)
         (lon lat : CoordVar) (tv : time_array) (step : Z),
    loads E nc_file lon lat tv ->
    well_shaped lon lat tv ->
    compute_step (times_3600 hours) (median_dt_of tv) = Ret step ->
    let lon_sub := lon_sub_of lon step in
    let lat_sub := lat_sub_of lon lat step in
    let n_time := length lon_sub in
    let raw_time_sub := to_datetime (time_slice step tv) in
    let emitted :=
      filter (has_track lon_sub lat_sub n_time) (seq 0 (ncols lon)) in
    let gdf :=
      {| frame :=
           [ ("par_id", IntCol (map Z.of_nat emitted));
             ("time_start",
              DatetimeCol
                (map (track_start lon_sub lat_sub raw_time_sub n_time) emitted));
             ("time_end",
              DatetimeCol
                (map (track_end lon_sub lat_sub raw_time_sub n_time) emitted));
             ("geometry",
              GeomCol (map (track_line lon_sub lat_sub n_time) emitted)) ];
         crs := "EPSG:4326" |} in
    length raw_time_sub = n_time /\
    (forall pid,
        In pid emitted
        <-> (pid < ncols lon)%nat
            /\ (2 <= length (valid_times lon_sub lat_sub n_time pid))%nat) /\
    (forall i pid,
        In i (valid_times lon_sub lat_sub n_time pid)
        <-> (i < n_time)%nat /\ jointly_finite lon_sub lat_sub i pid = true) /\
    (forall pid, StronglySorted lt (valid_times lon_sub lat_sub n_time pid)) /\
    StronglySorted lt emitted /\
    (forall pid,
        let first := hd 0%nat (valid_times lon_sub lat_sub n_time pid) in
        let final := last (valid_times lon_sub lat_sub n_time pid) 0%nat in
        let t_start := track_start lon_sub lat_sub raw_time_sub n_time pid in
        let t_end := track_end lon_sub lat_sub raw_time_sub n_time pid in
        whole_second t_start /\ whole_second t_end /\
        (nth first raw_time_sub NaT <> NaT ->
         Z.abs (t_start - nth first raw_time_sub NaT) <= 500000000) /\
        (nth final raw_time_sub NaT <> NaT ->
         Z.abs (t_end - nth final raw_time_sub NaT) <= 500000000)) /\
    (forall tr,
        let tr1 := (tr ++ downscale_events nc_file hours lon tv step
                       ++ [Print (MsgCreatedTracks (length emitted))])%list in
        ncTrk2line E nc_file output_path hours tr
        = match emitted with
          | [] => (Ret None, (tr1 ++ [Print MsgNoTracks])%list)
          | _ :: _ => (export_gdf E gdf output_path ;; ret (Some gdf)) tr1
          end).
Proof.
  intros E nc_file output_path hours lon lat tv step Hload Hwf Hstep
         lon_sub lat_sub n_time raw_time_sub emitted gdf.
  assert (Hraw : length raw_time_sub = n_time).
  { unfold raw_time_sub, n_time, lon_sub.
    rewrite <- (time_sub_of_length_lon lon lat tv step Hwf).
    unfold time_sub_of. now rewrite length_map. }
  assert (Hlat : length lat_sub = n_time).
  { apply (lat_sub_of_shaped lon lat tv step Hwf). }
  split; [exact Hraw|].
  split.
  { intros pid. unfold emitted. rewrite filter_In, in_seq.
    unfold has_track. rewrite Nat.leb_le. lia. }
  split.
  { intros i pid. unfold valid_times. rewrite filter_In, in_seq.
    intuition lia. }
  split.
  { intros pid. apply StronglySorted_filter, StronglySorted_seq. }
  split.
  { apply StronglySorted_filter, StronglySorted_seq. }
  split.
  { intros pid. cbv zeta. unfold track_start, track_end.
    repeat split; (apply round_s_whole || apply round_s_near). }
  intros tr tr1.
  rewrite (ncTrk2line_loaded _ _ _ _ _ _ _ Hload _ _ Hstep). cbv zeta.
  unfold line_tracks, time_sub_of. fold raw_time_sub lon_sub lat_sub.
  rewrite (build_lines_spec lon_sub lat_sub raw_time_sub n_time eq_refl Hlat Hraw).
  unfold tracks_over. fold emitted. cbn [lines].
  rewrite length_map. subst tr1.
  destruct emitted; reflexivity.
Qed.

Lemma line_mode_track_iff_two_valid_points_witness :
  filter (has_track (lon_sub_of demo_lon 1) (lat_sub_of demo_lon plain_lat 1)
                    (length (lon_sub_of demo_lon 1)))
         (seq 0 (ncols demo_lon)) = [0%nat]
  /\ fst (ncTrk2line offbeat_env "trk.nc" "lines.gpkg" (PyInt 1) [])
     = Ret (Some
         {| frame :=
              [ ("par_id", IntCol [0]);
                ("time_start", DatetimeCol [0]);
                ("time_end", DatetimeCol [10802000000000]);
                ("geometry",
                 GeomCol [LineString [ (F64.of_Z 1, F64.of_Z 1);
                                       (F64.of_Z 2, F64.of_Z 2);
                                       (F64.of_Z 4, F64.of_Z 4) ]]) ];
            crs := "EPSG:4326" |}).
Proof.
  assert (Hload : loads offbeat_env "trk.nc" demo_lon plain_lat offbeat_axis)
    by (constructor; reflexivity).
  assert (Hwf : well_shaped demo_lon plain_lat offbeat_axis)
    by (repeat constructor).
  assert (Hstep : compute_step (times_3600 (PyInt 1)) (median_dt_of offbeat_axis)
                  = Ret 1) by (vm_compute; reflexivity).
  destruct (line_mode_track_iff_two_valid_points offbeat_env "trk.nc"
              "lines.gpkg" (PyInt 1) demo_lon plain_lat offbeat_axis 1
              Hload Hwf Hstep)
    as (_ & _ & _ & _ & _ & _ & Hrun).
  split; [vm_compute; reflexivity|].
  rewrite (Hrun []). vm_compute. reflexivity.
Defined.

(** ** Degenerate time axes *)

(** The stride computation has no guard for a zero median: on three
    identical instants it divides by zero, so it is not true that a zero
    median never leads to a division by zero. *)
Lemma zero_median_divides_by_zero :
  F64.is_zero (median_dt_of stuck_axis) = true /\
  compute_step (times_3600 (PyFloat (F64.of_Z 1))) (median_dt_of stuck_axis)
    = Raise ZeroDivisionError /\
  fst (ncTrk2line stuck_env "trk.nc" "out.gpkg" (PyFloat (F64.of_Z 1)) [])
    = Raise ZeroDivisionError /\
  fst (ncTrk2pt stuck_env "trk.nc" "out.gpkg" (PyFloat (F64.of_Z 1)) [])
    = Raise ZeroDivisionError /\
  ~ (forall (hours : pynum) (tv : time_array),
        F64.is_zero (median_dt_of tv) = true ->
        exists step,
          compute_step (times_3600 hours) (median_dt_of tv) = Ret step).
Proof.
  assert (Hzero : F64.is_zero (median_dt_of stuck_axis) = true)
    by (vm_compute; reflexivity).
  split; [exact Hzero|].
  split; [vm_compute; reflexivity|].
  split; [vm_compute; reflexivity|].
  split; [vm_compute; reflexivity|].
  intros H.
  destruct (H (PyFloat (F64.of_Z 1)) stuck_axis Hzero) as [step Hstep].
  vm_compute in Hstep. discriminate.
Qed.

(** C5 (as the code has it). When the median consecutive difference of the
    time axis is zero and the downscale interval converts to a float, the
    stride computation divides by zero: there is no clamp and no stride-1
    fallback, no stride is produced, and both routines end in
    [ZeroDivisionError] right after loading the dataset. *)
Theorem zero_median_raises_zero_division :
  forall (E : env) (nc_file output_path : string) (hours : pynum)
         (lon lat : CoordVar) (tv : time_array) (s : float),
    loads E nc_file lon lat tv ->
    F64.is_zero (median_dt_of tv) = true ->
    as_double (times_3600 hours) = Ret s ->
    compute_step (times_3600 hours) (median_dt_of tv) = Raise ZeroDivisionError /\
    (forall tr,
        ncTrk2line E nc_file output_path hours tr
        = (Raise ZeroDivisionError,
           (tr ++ [OpenDataset nc_file; Print (MsgLoaded (basename nc_file))])%list)) /\
    (forall tr,
        ncTrk2pt E nc_file output_path hours tr
        = (Raise ZeroDivisionError,
           (tr ++ [OpenDataset nc_file; Print (MsgLoaded (basename nc_file))])%list)).
Proof.
  intros E nc_file output_path hours lon lat tv s Hload Hzero Hs.
  assert (Hstep : compute_step (times_3600 hours) (median_dt_of tv)
                  = Raise ZeroDivisionError).
  { unfold compute_step, py_truediv. rewrite Hs, Hzero. reflexivity. }
  split; [exact Hstep|]. split; intros tr.
  - now apply (ncTrk2line_step_raises _ _ _ _ _ _ _ Hload).
  - now apply (ncTrk2pt_step_raises _ _ _ _ _ _ _ Hload).
Qed.

Lemma zero_median_raises_zero_division_witness :
  compute_step (times_3600 (PyInt 3)) (median_dt_of stuck_axis)
  = Raise ZeroDivisionError.
Proof.
  apply (zero_median_raises_zero_division stuck_env "trk.nc" "out.gpkg"
           (PyInt 3) demo_lon demo_lat stuck_axis (F64.of_Z 10800)).
  - constructor; reflexivity.
  - vm_compute. reflexivity.
  - vm_compute. reflexivity.
Defined.

(** ** No valid geometry *)

Lemma stride_index_in_range (n gap i : nat) :
  (i < Nat.div (n + gap) (S gap))%nat -> (i * S gap < n)%nat.
Proof.
  intros Hi.
  pose proof (Nat.Div0.mul_div_le (n + gap) (S gap)) as H.
  nia.
Qed.

Lemma cell_slice_step (step : Z) (a : list (list float)) (i j : nat) :
  1 <= step ->
  cell (slice_step step a) i j = cell a (i * Z.to_nat step) j.
Proof.
  intros Hstep. unfold cell. now rewrite slice_step_nth.
Qed.

Lemma all_fill_not_finite (lon lat : CoordVar) (step : Z) (i j : nat) :
  1 <= step ->
  all_fill lon ->
  (i < length (lon_sub_of lon step))%nat -> (j < ncols lon)%nat ->
  jointly_finite (lon_sub_of lon step) (lat_sub_of lon lat step) i j = false.
Proof.
  intros Hstep Hall Hi Hj. unfold jointly_finite, lon_sub_of.
  rewrite cell_mask_fill, cell_slice_step by assumption.
  rewrite Hall; [reflexivity| |assumption].
  unfold lon_sub_of in Hi. rewrite mask_fill_length in Hi.
  unfold slice_step in Hi. rewrite stride_from_length, Nat.sub_0_r in Hi.
  apply stride_index_in_range in Hi.
  replace (S (Z.to_nat step - 1)) with (Z.to_nat step) in Hi by lia.
  exact Hi.
Qed.

Lemma empty_when_no_member {A : Type} (l : list A) :
  (forall x, ~ In x l) -> l = [].
Proof.
  destruct l as [|x t]; [reflexivity|].
  intros H. destruct (H x). now left.
Qed.

Lemma all_fill_no_track (lon lat : CoordVar) (tv : time_array) (step : Z) :
  1 <= step -> well_shaped lon lat tv -> all_fill lon ->
  lines (line_tracks lon lat tv step) = [].
Proof.
  intros Hstep Hwf Hall.
  unfold line_tracks, time_sub_of.
  rewrite (build_lines_spec _ _ _ (length (lon_sub_of lon step)) eq_refl).
  - unfold tracks_over. cbn [lines].
    rewrite (filter_ext_in _ (fun _ => false)); [now rewrite filter_none|].
    intros pid Hpid. apply in_seq in Hpid.
    unfold has_track, valid_times.
    rewrite (filter_ext_in _ (fun _ => false)); [now rewrite filter_none|].
    intros i Hi. apply in_seq in Hi.
    apply all_fill_not_finite; (assumption || lia).
  - apply (lat_sub_of_shaped lon lat tv step Hwf).
  - rewrite <- (time_sub_of_length_lon lon lat tv step Hwf).
    unfold time_sub_of. now rewrite length_map.
Qed.

Lemma all_fill_no_point (lon lat : CoordVar) (tv : time_array) (step : Z) :
  1 <= step -> well_shaped lon lat tv -> all_fill lon ->
  pt_x (point_rows lon lat tv step) = [].
Proof.
  intros Hstep Hwf Hall.
  pose proof (lon_sub_of_shaped lon lat tv step Hwf) as Hlon.
  pose proof (lat_sub_of_shaped lon lat tv step Hwf) as Hlat.
  unfold point_rows, build_points, np_where.
  rewrite (where_valid_pairs _ _ _ _ Hlon Hlat).
  assert (Hnone : valid_pairs (lon_sub_of lon step) (lat_sub_of lon lat step)
                    (length (lon_sub_of lon step)) (ncols lon) = []).
  { apply empty_when_no_member. intros [i j] Hin.
    apply in_valid_pairs in Hin. destruct Hin as (Hi & Hj & Hv).
    rewrite all_fill_not_finite in Hv by assumption. discriminate. }
  rewrite Hnone. reflexivity.
Qed.

(** C6. On a well-shaped dataset, when the geometry builder produces
    nothing, each routine returns [None] without calling the exporter:
    the events of the call are the load, the two downscaling reports, a
    zero count and the "skipping export" notice, with no directory
    creation and no file write, and no exception is raised.  That is what
    happens, in particular, when every cell of the coordinate array holds
    the fill sentinel. *)
Theorem no_geometry_returns_none_without_export :
  forall (E : env) (nc_file output_path : string) (hours : pynum)
         (lon lat : CoordVar) (tv : time_array) (step : Z),
    loads E nc_file lon lat tv ->
    well_shaped lon lat tv ->
    compute_step (times_3600 hours) (median_dt_of tv) = Ret step ->
    (lines (line_tracks lon lat tv step) = [] ->
     forall tr,
       ncTrk2line E nc_file output_path hours tr
       = (Ret None,
          (tr ++ downscale_events nc_file hours lon tv step
              ++ [Print (MsgCreatedTracks 0); Print MsgNoTracks])%list)) /\
    (pt_x (point_rows lon lat tv step) = [] ->
     forall tr,
       ncTrk2pt E nc_file output_path hours tr
       = (Ret None,
          (tr ++ downscale_events nc_file hours lon tv step
              ++ [Print (MsgPreparingPoints 0); Print MsgNoPoints])%list)) /\
    (all_fill lon ->
     lines (line_tracks lon lat tv step) = []
     /\ pt_x (point_rows lon lat tv step) = []).
Proof.
  intros E nc_file output_path hours lon lat tv step Hload Hwf Hstep.
  pose proof (compute_step_positive _ _ _ Hstep) as Hge.
  split; [|split].
  - intros Hnone tr.
    rewrite (ncTrk2line_loaded _ _ _ _ _ _ _ Hload _ _ Hstep). cbv zeta.
    rewrite Hnone. cbn [length]. now rewrite <- !app_assoc.
  - intros Hnone tr.
    rewrite (ncTrk2pt_loaded _ _ _ _ _ _ _ Hload _ _ Hstep). cbv zeta.
    rewrite Hnone. cbn [length Nat.eqb]. now rewrite <- !app_assoc.
  - intros Hall. split.
    + now apply all_fill_no_track.
    + now apply all_fill_no_point.
Qed.

Lemma no_geometry_returns_none_without_export_witness :
  ncTrk2line blank_env "trk.nc" "out/lines.shp" (PyInt 1) []
  = (Ret None,
     (downscale_events "trk.nc" (PyInt 1) blank_var (hourly_axis 4) 1
        ++ [Print (MsgCreatedTracks 0); Print MsgNoTracks])%list)
  /\ ncTrk2pt blank_env "trk.nc" "out/points.csv" (PyInt 1) []
     = (Ret None,
        (downscale_events "trk.nc" (PyInt 1) blank_var (hourly_axis 4) 1
           ++ [Print (MsgPreparingPoints 0); Print MsgNoPoints])%list).
Proof.
  assert (Hload : loads blank_env "trk.nc" blank_var blank_var (hourly_axis 4))
    by (constructor; reflexivity).
  assert (Hwf : well_shaped blank_var blank_var (hourly_axis 4))
    by (repeat constructor).
  assert (Hall : all_fill blank_var).
  { intros i j Hi Hj. cbn in Hi, Hj.
    assert (Hi' : (i = 0 \/ i = 1 \/ i = 2 \/ i = 3)%nat) by lia.
    assert (Hj' : (j = 0 \/ j = 1)%nat) by lia.
    destruct Hi' as [->|[->|[->| ->]]], Hj' as [->| ->];
      vm_compute; reflexivity. }
  destruct (no_geometry_returns_none_without_export blank_env "trk.nc"
              "out/lines.shp" (PyInt 1) blank_var blank_var (hourly_axis 4) 1
              Hload Hwf demo_step) as (Hline & _ & Hblank).
  destruct (no_geometry_returns_none_without_export blank_env "trk.nc"
              "out/points.csv" (PyInt 1) blank_var blank_var (hourly_axis 4) 1
              Hload Hwf demo_step) as (_ & Hpt & _).
  destruct (Hblank Hall) as [Hno_line Hno_pt].
  split.
  - exact (Hline Hno_line []).
  - exact (Hpt Hno_pt []).
Defined.

(** ** Exporter: the tabular CSV path *)

(** Exporting a one-point collection to [out/points.CSV] writes a table
    that has the geometry column: the CSV path does not drop it. *)
Lemma csv_export_serialises_geometry :
  lower (splitext_ext "out/points.CSV") = ".csv" /\
  snd (export_gdf demo_env one_point_gdf "out/points.CSV" [])
  = [ Makedirs "out";
      Print (MsgSaving "out/points.CSV");
      WriteFile "out/points.CSV"
        (CsvTable [ ("par_id", IntCol [0]);
                    ("time", DatetimeCol [0]);
                    ("geometry", GeomCol [Point (F64.of_Z 114) (F64.of_Z 22)]) ]);
      Print MsgCsvSaved ] /\
  ~ (forall (E : env) (gdf : GeoDataFrame) (path p : string) (df : DataFrame),
        lower (splitext_ext path) = ".csv" ->
        In (WriteFile p (CsvTable df)) (snd (export_gdf E gdf path [])) ->
        has_geometry_column df = false).
Proof.
  split; [vm_compute; reflexivity|].
  split; [vm_compute; reflexivity|].
  intros H.
  specialize (H demo_env one_point_gdf "out/points.CSV" "out/points.CSV"
                (frame one_point_gdf)).
  assert (Hext : lower (splitext_ext "out/points.CSV") = ".csv")
    by (vm_compute; reflexivity).
  assert (Hin : In (WriteFile "out/points.CSV" (CsvTable (frame one_point_gdf)))
                   (snd (export_gdf demo_env one_point_gdf "out/points.CSV" []))).
  { vm_compute. right. right. left. reflexivity. }
  specialize (H Hext Hin). vm_compute in H. discriminate.
Qed.

Lemma export_gdf_csv (E : env) (gdf : GeoDataFrame) (output_path : string) :
  lower (splitext_ext output_path) = ".csv" ->
  export_gdf E gdf output_path
  = ((if negb (String.eqb (dirname output_path) EmptyString)
      then makedirs E (dirname output_path) else ret tt) ;;
     print (MsgSaving output_path) ;;
     to_csv E (frame gdf) output_path ;;
     print MsgCsvSaved).
Proof.
  intros Hext. unfold export_gdf. rewrite Hext. reflexivity.
Qed.

(** C7 (as the code has it). With a [.csv] extension, in any letter case,
    the exporter calls [to_csv] on the whole collection: the only file it
    can write is the table of every column of the collection, at the
    given path, and when the directory creation and the write succeed the
    events are exactly the directory creation (if the path has a
    directory part), the "saving" notice, that write and the "CSV saved"
    notice.  The geometry column of a collection is among the columns
    written. *)
Theorem csv_export_writes_every_column :
  forall (E : env) (gdf : GeoDataFrame) (output_path : string),
    lower (splitext_ext output_path) = ".csv" ->
    (forall p w,
        In (WriteFile p w) (snd (export_gdf E gdf output_path [])) ->
        p = output_path /\ w = CsvTable (frame gdf)) /\
    (makedirs_error E (dirname output_path) = None ->
     write_error E output_path (CsvTable (frame gdf)) = None ->
     forall tr,
       export_gdf E gdf output_path tr
       = (Ret tt,
          (tr ++ (if String.eqb (dirname output_path) EmptyString then []
                  else [Makedirs (dirname output_path)])
              ++ [ Print (MsgSaving output_path);
                   WriteFile output_path (CsvTable (frame gdf));
                   Print MsgCsvSaved ])%list)) /\
    (forall data g c,
        has_geometry_column (frame (mkGeoDataFrame data g c)) = true).
Proof.
  intros E gdf output_path Hext.
  rewrite (export_gdf_csv E gdf output_path Hext).
  unfold makedirs, to_csv, write.
  split; [|split].
  - intros p w.
    destruct (String.eqb (dirname output_path) EmptyString); cbn [negb];
      destruct (makedirs_error E (dirname output_path));
      destruct (write_error E output_path (CsvTable (frame gdf)));
      cbv [bind ret raise emit print snd fst app];
      intros Hin;
      repeat (destruct Hin as [Hin|Hin]; [try discriminate|]);
      try contradiction;
      injection Hin as <- <-; split; reflexivity.
  - intros Hmk Hwr tr. rewrite Hmk, Hwr.
    destruct (String.eqb (dirname output_path) EmptyString); cbn [negb];
      cbv [bind ret raise emit print];
      rewrite <- !app_assoc; reflexivity.
  - intros data g c. unfold mkGeoDataFrame, has_geometry_column. cbn [frame].
    rewrite existsb_app. cbn. apply orb_true_r.
Qed.

Lemma csv_export_writes_every_column_witness :
  export_gdf demo_env one_point_gdf "out/points.CSV" []
  = (Ret tt,
     [ Makedirs "out";
       Print (MsgSaving "out/points.CSV");
       WriteFile "out/points.CSV" (CsvTable (frame one_point_gdf));
       Print MsgCsvSaved ]).
Proof.
  destruct (csv_export_writes_every_column demo_env one_point_gdf
              "out/points.CSV") as (_ & Hrun & _).
  - vm_compute. reflexivity.
  - rewrite (Hrun eq_refl eq_refl []). vm_compute. reflexivity.
Defined.

(** ** Dataset handles *)

Section NeverCloses.

Context {A B : Type}.

Lemma never_closes_ret (a : A) : never_closes (ret a).
Proof. split; [apply frames_ret | constructor]. Qed.

Lemma never_closes_raise (e : exn) : never_closes (@raise A e).
Proof. split; [apply frames_raise | constructor]. Qed.

Lemma never_closes_lift (r : res A) : never_closes (lift r).
Proof. split; [apply frames_lift | constructor]. Qed.

Lemma never_closes_bind (m : M A) (k : A -> M B) :
  never_closes m -> (forall a, never_closes (k a)) -> never_closes (bind m k).
Proof.
  intros [Hfm Hm] Hk. split.
  - apply frames_bind; [assumption | intros a; apply Hk].
  - unfold bind. destruct (m []) as [[a|e] l]; cbn [snd] in *; [|assumption].
    destruct (Hk a) as [Hfk Hka]. rewrite (Hfk l). cbn [snd].
    apply Forall_app. split; assumption.
Qed.

End NeverCloses.

Lemma never_closes_print (m : msg) : never_closes (print m).
Proof. split; [apply frames_print | repeat constructor]. Qed.

Lemma never_closes_getitem {A : Type} (v : option A) : never_closes (getitem v).
Proof. destruct v; [apply never_closes_ret | apply never_closes_raise]. Qed.

Lemma never_closes_makedirs (E : env) (dir : string) :
  never_closes (makedirs E dir).
Proof.
  unfold makedirs. destruct (makedirs_error E dir).
  - apply never_closes_raise.
  - split; [apply frames_emit | repeat constructor].
Qed.

Lemma never_closes_write (E : env) (path : string) (w : written) :
  never_closes (write E path w).
Proof.
  unfold write. destruct (write_error E path w).
  - apply never_closes_raise.
  - split; [apply frames_emit | repeat constructor].
Qed.

Create HintDb closes_db.
#[export] Hint Resolve never_closes_ret never_closes_raise never_closes_lift
  never_closes_print never_closes_getitem never_closes_makedirs
  never_closes_write : closes_db.

Ltac never_closes_step :=
  match goal with
  | |- never_closes (bind _ _) => apply never_closes_bind; [|intros]
  | |- never_closes (if ?b then _ else _) => destruct b
  | |- never_closes (match ?x with _ => _ end) => destruct x
  | |- never_closes (let _ := _ in _) => cbv zeta
  | |- never_closes _ => solve [auto with closes_db]
  end.

Ltac never_closes_tac := repeat never_closes_step.

Lemma never_closes_export_gdf (E : env) (gdf : GeoDataFrame)
  (output_path : string) :
  never_closes (export_gdf E gdf output_path).
Proof. unfold export_gdf, to_csv, to_excel, to_file. never_closes_tac. Qed.

#[export] Hint Resolve never_closes_export_gdf : closes_db.

Lemma bind_xr_open_dataset {A : Type} (E : env) (nc_file : string)
  (ds : Dataset) (k : Dataset -> M A) (tr : list event) :
  stored_dataset E nc_file = Ret ds ->
  bind (xr_open_dataset E nc_file) k tr = k ds (tr ++ [OpenDataset nc_file])%list.
Proof.
  intros Hds. unfold bind, xr_open_dataset. rewrite Hds. reflexivity.
Qed.

Lemma open_handles_kept (rest : list event) :
  Forall not_close rest ->
  forall hs p, In p hs -> In p (fold_left track_handle rest hs).
Proof.
  induction 1 as [|e t He Ht IH]; intros hs p Hp; cbn [fold_left]; [assumption|].
  apply IH. destruct e; cbn [track_handle]; try assumption.
  - now right.
  - destruct He.
Qed.

Lemma opened_stays_open (nc_file : string) (rest : list event) :
  Forall not_close rest ->
  In nc_file (open_handles (OpenDataset nc_file :: rest)).
Proof.
  intros Hrest. unfold open_handles. cbn [fold_left track_handle].
  apply open_handles_kept; [assumption | now left].
Qed.

Lemma leaves_open_after {A : Type} (k : M A) (nc_file : string)
  (tr : list event) :
  never_closes k ->
  exists r rest,
    k (tr ++ [OpenDataset nc_file])%list
    = (r, (tr ++ OpenDataset nc_file :: rest)%list)
    /\ Forall not_close rest.
Proof.
  intros [Hf Hq]. rewrite (Hf _).
  exists (fst (k [])), (snd (k [])). split; [|assumption].
  now rewrite <- app_assoc.
Qed.

Lemma ncTrk2line_leaves_open (E : env) (nc_file output_path : string)
  (hours : pynum) (ds : Dataset) :
  isfile E nc_file = true -> stored_dataset E nc_file = Ret ds ->
  leaves_open (ncTrk2line E nc_file output_path hours) nc_file.
Proof.
  intros Hf Hds tr. unfold ncTrk2line. rewrite Hf. cbn [negb].
  rewrite (bind_xr_open_dataset E nc_file ds _ tr Hds).
  apply leaves_open_after. never_closes_tac.
Qed.

Lemma ncTrk2pt_leaves_open (E : env) (nc_file output_path : string)
  (hours : pynum) (ds : Dataset) :
  isfile E nc_file = true -> stored_dataset E nc_file = Ret ds ->
  leaves_open (ncTrk2pt E nc_file output_path hours) nc_file.
Proof.
  intros Hf Hds tr. unfold ncTrk2pt. rewrite Hf. cbn [negb].
  rewrite (bind_xr_open_dataset E nc_file ds _ tr Hds).
  apply leaves_open_after. never_closes_tac.
Qed.

(** Neither routine closes the dataset it opens: after a normal
    completion, after an early "no output" return and after an exception
    the handle is among the open ones.  (Whether the interpreter's
    garbage collection closes it later is outside the model.) *)
Lemma dataset_handle_leaks :
  (fst (ncTrk2line demo_env "trk.nc" "lines.gpkg" (PyInt 1) []) <> Ret None
   /\ open_handles (snd (ncTrk2line demo_env "trk.nc" "lines.gpkg" (PyInt 1) []))
      = ["trk.nc"]) /\
  (fst (ncTrk2pt blank_env "trk.nc" "points.gpkg" (PyInt 1) []) = Ret None
   /\ open_handles (snd (ncTrk2pt blank_env "trk.nc" "points.gpkg" (PyInt 1) []))
      = ["trk.nc"]) /\
  (fst (ncTrk2line stuck_env "trk.nc" "lines.gpkg" (PyInt 1) [])
     = Raise ZeroDivisionError
   /\ open_handles (snd (ncTrk2line stuck_env "trk.nc" "lines.gpkg" (PyInt 1) []))
      = ["trk.nc"]) /\
  ~ (forall (E : env) (nc_file output_path : string) (hours : pynum),
        open_handles (snd (ncTrk2line E nc_file output_path hours [])) = []).
Proof.
  split; [split; [vm_compute; discriminate | vm_compute; reflexivity]|].
  split; [split; vm_compute; reflexivity|].
  split; [split; vm_compute; reflexivity|].
  intros H. specialize (H stuck_env "trk.nc" "lines.gpkg" (PyInt 1)).
  vm_compute in H. discriminate.
Qed.

(** C9 (as the code has it). Once [xr.open_dataset] has succeeded, no
    exit path of either routine (normal completion, "no output" return,
    exception) closes the dataset: the call appends the opening to the
    trace and no closing after it, so the handle is among the open ones
    at the end of the call; releasing it is left to the garbage
    collection of the interpreter. *)
Theorem dataset_handle_never_closed :
  forall (E : env) (nc_file output_path : string) (hours : pynum) (ds : Dataset),
    isfile E nc_file = true ->
    stored_dataset E nc_file = Ret ds ->
    leaves_open (ncTrk2line E nc_file output_path hours) nc_file /\
    leaves_open (ncTrk2pt E nc_file output_path hours) nc_file /\
    In nc_file
       (open_handles (snd (ncTrk2line E nc_file output_path hours []))) /\
    In nc_file
       (open_handles (snd (ncTrk2pt E nc_file output_path hours []))).
Proof.
  intros E nc_file output_path hours ds Hf Hds.
  pose proof (ncTrk2line_leaves_open E nc_file output_path hours ds Hf Hds) as Hl.
  pose proof (ncTrk2pt_leaves_open E nc_file output_path hours ds Hf Hds) as Hp.
  split; [exact Hl|]. split; [exact Hp|]. split.
  - destruct (Hl []) as (r & rest & Hrun & Hrest). rewrite Hrun. cbn [snd app].
    now apply opened_stays_open.
  - destruct (Hp []) as (r & rest & Hrun & Hrest). rewrite Hrun. cbn [snd app].
    now apply opened_stays_open.
Qed.

Lemma dataset_handle_never_closed_witness :
  In "trk.nc"
     (open_handles (snd (ncTrk2line demo_env "trk.nc" "lines.gpkg" (PyInt 1) []))).
Proof.
  apply (dataset_handle_never_closed demo_env "trk.nc" "lines.gpkg" (PyInt 1)
           {| particles_x_coordinate := Some demo_lon;
              particles_y_coordinate := Some demo_lat;
              time := Some (hourly_axis 4) |});
    reflexivity.
Defined.

(** ** Where the fill sentinel comes from *)



Section SameFill.

Variables (E : env) (nc_file output_path : string) (hours : pynum).
Variables (lon lat lon' lat' : CoordVar) (tv : time_array).
Hypothesis Hfile : isfile E nc_file = true.
Hypothesis Hcols : ncols lon' = ncols lon.
Hypothesis Hlen :
  forall step,
    length (slice_step step (values lon')) = length (slice_step step (values lon)).
Hypothesis Hlon : forall step, lon_sub_of lon' step = lon_sub_of lon step.
Hypothesis Hlat : forall step, lat_sub_of lon' lat' step = lat_sub_of lon lat step.

Let E1 := with_dataset E (dataset_of lon lat tv).
Let E2 := with_dataset E (dataset_of lon' lat' tv).




End SameFill.



(** ** Batch runner *)

Section BatchProperties.

Variable line_conv pt_conv : json -> json -> json -> M unit.

Lemma task_get_obj (kv : list (string * json)) (key : string) (default : json) :
  task_get (JObj kv) key default
  = ret (match dict_get kv key with Some v => v | None => default end).
Proof. unfold task_get. now destruct (dict_get kv key). Qed.

(** the guarded part of [process_task] ends normally *)
Lemma guarded_call_catches (mode : string) (nc_file output_path hour : json)
  (tr : list event) :
  exists tr',
    try_except
      (if String.eqb mode "line" then line_conv nc_file output_path hour
       else if String.eqb mode "point" then pt_conv nc_file output_path hour
       else print (MsgUnknownMode mode))
      (fun e => print (MsgTaskError e) ;; print (MsgTraceback e)) tr
    = (Ret tt, tr').
Proof.
  unfold try_except.
  destruct (String.eqb mode "line"); [|destruct (String.eqb mode "point")].
  - destruct (line_conv nc_file output_path hour tr) as [[[]|e] tr1];
      eexists; reflexivity.
  - destruct (pt_conv nc_file output_path hour tr) as [[[]|e] tr1];
      eexists; reflexivity.
  - eexists; reflexivity.
Qed.

(** a well-typed task never lets an exception out, whatever the
    conversion routines do *)
Lemma process_task_catches (task : json) (tr : list event) :
  well_typed_task task = true ->
  exists tr', process_task line_conv pt_conv task tr = (Ret tt, tr').
Proof.
  destruct task as [| | | | |kv]; try discriminate.
  unfold well_typed_task. intros Hwt.
  apply andb_true_iff in Hwt. destruct Hwt as [Hmode Hout].
  unfold process_task. rewrite !task_get_obj.
  change (bind (ret ?a) ?k) with (k a). cbv beta.
  assert (Hm : exists m,
             match dict_get kv "mode" with
             | Some v => v
             | None => JStr "point"
             end = JStr m).
  { destruct (dict_get kv "mode") as [[| | |m| |]|]; try discriminate;
      eexists; reflexivity. }
  destruct Hm as [m ->]. cbn [json_lower].
  change (bind (ret ?a) ?k) with (k a). cbv beta.
  destruct (negb _ || negb _) eqn:Hmissing.
  - eexists. reflexivity.
  - apply orb_false_iff in Hmissing. destruct Hmissing as [_ Htruthy].
    apply negb_false_iff in Htruthy.
    assert (Ho : exists o,
               match dict_get kv "output_path" with
               | Some v => v
               | None => JNull
               end = JStr o).
    { destruct (dict_get kv "output_path") as [v|]; [|discriminate].
      destruct v; try (rewrite Htruthy in Hout; discriminate).
      eexists; reflexivity. }
    destruct Ho as [o Ho]. rewrite Ho. cbn [json_basename].
    change (bind (ret ?a) ?k) with (k a). cbv beta.
    unfold bind at 1. cbv [print emit].
    apply guarded_call_catches.
Qed.

Lemma for_each_process_task (tasks : list json) :
  forallb well_typed_task tasks = true ->
  forall tr, exists tr',
    for_each (process_task line_conv pt_conv) tasks tr = (Ret tt, tr').
Proof.
  induction tasks as [|task t IH]; cbn [forallb for_each]; intros Hall tr.
  - eexists. reflexivity.
  - apply andb_true_iff in Hall. destruct Hall as [Htask Hall].
    destruct (process_task_catches task tr Htask) as [tr1 H1].
    destruct (IH Hall tr1) as [tr2 H2].
    exists tr2. unfold bind. now rewrite H1.
Qed.

(** With tasks that are well typed, the run ends with status 0 however
    the conversions fail; a missing configuration file and malformed
    JSON end it with status 1. *)
Lemma main_exit_codes (E : env) (config_path : string) (tr : list event) :
  (path_exists E config_path = false ->
   main line_conv pt_conv E config_path tr
   = (SysExit 1, (tr ++ [Print (MsgConfigNotFound config_path)])%list)) /\
  (path_exists E config_path = true -> json_load E config_path = None ->
   main line_conv pt_conv E config_path tr
   = (SysExit 1, (tr ++ [Print MsgInvalidJson])%list)) /\
  (forall config,
      path_exists E config_path = true ->
      json_load E config_path = Some config ->
      forallb well_typed_task (tasks_of config) = true ->
      fst (main line_conv pt_conv E config_path tr) = Returned).
Proof.
  unfold main. split; [|split].
  - intros ->. reflexivity.
  - intros -> ->. reflexivity.
  - intros config -> -> Hall. cbn [negb].
    unfold bind at 1. cbv [print emit].
    unfold bind at 1.
    destruct (for_each_process_task _ Hall
                (tr ++ [Print (MsgFoundTasks (length (tasks_of config)))])%list)
      as [tr' Hrun].
    rewrite Hrun. reflexivity.
Qed.

End BatchProperties.

(** C8 (where the code departs from it). A task whose ["mode"] is [null]
    makes [process_task] raise [AttributeError] on [.lower()], before its
    [try] block: the exception is not caught, the run ends with exit
    status 1 although the configuration file exists and is valid JSON,
    and the second task is never started.  With an unknown mode that is a
    string, the same batch reports the task and goes on to the second one,
    ending with status 0. *)
Theorem null_mode_task_aborts_batch :
  partpost_main (batch_env null_mode_config) "tasks.json" []
    = (Uncaught AttributeError, [Print (MsgFoundTasks 2)]) /\
  exit_code (fst (partpost_main (batch_env null_mode_config) "tasks.json" [])) = 1 /\
  fst (partpost_main (batch_env unknown_mode_config) "tasks.json" []) = Returned /\
  exit_code (fst (partpost_main (batch_env unknown_mode_config) "tasks.json" [])) = 0 /\
  In (Print (MsgUnknownMode "area"))
     (snd (partpost_main (batch_env unknown_mode_config) "tasks.json" [])) /\
  In (Print (MsgStartTask "POINT" "points.gpkg"))
     (snd (partpost_main (batch_env unknown_mode_config) "tasks.json" [])).
Proof.
  split; [vm_compute; reflexivity|].
  split; [vm_compute; reflexivity|].
  split; [vm_compute; reflexivity|].
  split; [vm_compute; reflexivity|].
  split.
  - vm_compute. do 2 right. left. reflexivity.
  - vm_compute. do 3 right. left. reflexivity.
Qed.


(** * Further properties of the code *)

(** ** The exporter, all formats *)

(** membership in a short explicit trace *)
Ltac in_trace H :=
  cbn [In] in H;
  repeat (destruct H as [H|H]; [try discriminate H|]);
  try contradiction.

(** every way [export_gdf] can go, by its tests and the two backends *)
Ltac export_cases E gdf output_path :=
  unfold export_gdf, to_csv, to_excel, to_file, makedirs, write;
  cbv zeta;
  destruct (String.eqb_spec (dirname output_path) EmptyString) as [Hdir|Hdir];
  cbn [negb];
  try destruct (makedirs_error E (dirname output_path));
  destruct (String.eqb (lower (splitext_ext output_path)) ".csv");
  try destruct (write_error E output_path (CsvTable (frame gdf)));
  try destruct (String.eqb (lower (splitext_ext output_path)) ".xlsx");
  try destruct (String.eqb (splitext_ext output_path) ".xlsx");
  try destruct (write_error E output_path
                  (ExcelTable (stringify_datetimes (frame gdf))));
  try (destruct (dict_get DRIVER_MAP (lower (splitext_ext output_path)))
         as [driver|];
       [destruct (String.eqb driver "ESRI Shapefile");
        [destruct (write_error E output_path
                     (VectorLayer (Some driver)
                        {| frame := stringify_datetimes (frame gdf);
                           crs := crs gdf |}))
        |destruct (write_error E output_path (VectorLayer (Some driver) gdf))]
       |destruct (write_error E output_path (VectorLayer None gdf))]);
  cbv [bind ret raise emit print fst snd app].


Lemma export_steps_writes (E : env) (output_path : string) (w : written)
  (m : msg) (p : string) (w' : written) :
  In (WriteFile p w') (snd (export_steps E output_path w m [])) ->
  p = output_path /\ w' = w.
Proof.
  unfold export_steps, makedirs, write.
  destruct (String.eqb (dirname output_path) EmptyString); cbn [negb];
    try destruct (makedirs_error E (dirname output_path));
    destruct (write_error E output_path w);
    cbv [bind ret raise emit print fst snd app];
    intros Hin; in_trace Hin; injection Hin as <- <-; now split.
Qed.

Lemma export_steps_ok (E : env) (output_path : string) (w : written) (m : msg)
  (tr : list event) :
  makedirs_error E (dirname output_path) = None ->
  write_error E output_path w = None ->
  export_steps E output_path w m tr
  = (Ret tt, (tr ++ export_events output_path w m)%list).
Proof.
  intros Hmk Hwr. unfold export_steps, export_events, makedirs, write.
  rewrite Hmk, Hwr.
  destruct (String.eqb (dirname output_path) EmptyString); cbn [negb];
    cbv [bind ret raise emit print]; rewrite <- !app_assoc; reflexivity.
Qed.

Lemma export_gdf_xlsx (E : env) (gdf : GeoDataFrame) (output_path : string) :
  lower (splitext_ext output_path) = ".xlsx" ->
  splitext_ext output_path = ".xlsx" ->
  export_gdf E gdf output_path
  = export_steps E output_path
      (ExcelTable (stringify_datetimes (frame gdf))) MsgExcelSaved.
Proof.
  intros Hext Has. unfold export_gdf, export_steps, to_excel.
  rewrite Hext, Has. reflexivity.
Qed.

(** the extension is [.xlsx] in another letter case: no writer engine *)
Lemma export_gdf_xlsx_no_engine (E : env) (gdf : GeoDataFrame)
  (output_path : string) :
  lower (splitext_ext output_path) = ".xlsx" ->
  splitext_ext output_path <> ".xlsx" ->
  export_gdf E gdf output_path
  = ((if negb (String.eqb (dirname output_path) EmptyString)
      then makedirs E (dirname output_path) else ret tt) ;;
     print (MsgSaving output_path) ;;
     raise ValueError).
Proof.
  intros Hext Has. apply String.eqb_neq in Has.
  unfold export_gdf, to_excel. rewrite Hext, Has. reflexivity.
Qed.

Lemma driver_ext_not_tabular (ext driver : string) :
  dict_get DRIVER_MAP ext = Some driver ->
  String.eqb ext ".csv" = false /\ String.eqb ext ".xlsx" = false.
Proof.
  intros H. split.
  - destruct (String.eqb_spec ext ".csv") as [->|]; [|reflexivity].
    vm_compute in H. discriminate.
  - destruct (String.eqb_spec ext ".xlsx") as [->|]; [|reflexivity].
    vm_compute in H. discriminate.
Qed.

Lemma export_gdf_driver (E : env) (gdf : GeoDataFrame)
  (output_path driver : string) :
  dict_get DRIVER_MAP (lower (splitext_ext output_path)) = Some driver ->
  export_gdf E gdf output_path
  = export_steps E output_path
      (VectorLayer (Some driver)
         (if String.eqb driver "ESRI Shapefile" then shapefile_copy gdf
          else gdf))
      (MsgSavedDriver driver).
Proof.
  intros Hd. destruct (driver_ext_not_tabular _ _ Hd) as [Hcsv Hxlsx].
  unfold export_gdf, export_steps, to_file, shapefile_copy.
  rewrite Hcsv, Hxlsx, Hd.
  destruct (String.eqb driver "ESRI Shapefile"); reflexivity.
Qed.

(** ** Datetime columns turned to text *)

Lemma stringify_datetimes_cons (name : string) (c : column) (t : DataFrame) :
  stringify_datetimes ((name, c) :: t)
  = (name, match c with DatetimeCol l => TimeStrCol l | _ => c end)
    :: stringify_datetimes t.
Proof. destruct c; reflexivity. Qed.

(** the three facts about [stringify_datetimes] the format theorems use *)
Lemma stringify_datetimes_facts (df : DataFrame) :
  map fst (stringify_datetimes df) = map fst df /\
  has_datetime_column (stringify_datetimes df) = false /\
  has_geometry_column (stringify_datetimes df) = has_geometry_column df.
Proof.
  induction df as [|[name c] t (IHn & IHd & IHg)].
  - repeat split.
  - rewrite (stringify_datetimes_cons name c t).
    unfold has_datetime_column, has_geometry_column in *.
    cbn [map existsb fst snd].
    split; [now rewrite IHn|].
    split; [rewrite IHd; destruct c; reflexivity|].
    rewrite IHg; destruct c; reflexivity.
Qed.

(** Turning the datetime columns of a frame to text keeps the names and
    the order of the columns, leaves every other column as it is (the
    geometry column among them), leaves no datetime column, and changes
    nothing when done a second time. *)
Theorem stringify_datetimes_only_retypes :
  forall (df : DataFrame),
    map fst (stringify_datetimes df) = map fst df /\
    has_datetime_column (stringify_datetimes df) = false /\
    has_geometry_column (stringify_datetimes df) = has_geometry_column df /\
    (forall name c, In (name, c) df -> is_datetime64_any_dtype c = false ->
                    In (name, c) (stringify_datetimes df)) /\
    (forall name l, In (name, DatetimeCol l) df ->
                    In (name, TimeStrCol l) (stringify_datetimes df)) /\
    stringify_datetimes (stringify_datetimes df) = stringify_datetimes df.
Proof.
  induction df as [|[name c] t (IHn & IHd & IHg & IHk & IHs & IHi)].
  - repeat split; try reflexivity; intros; contradiction.
  - rewrite (stringify_datetimes_cons name c t).
    unfold has_datetime_column, has_geometry_column in *.
    cbn [map existsb fst snd].
    split; [now rewrite IHn|].
    split; [rewrite IHd; destruct c; reflexivity|].
    split; [rewrite IHg; destruct c; reflexivity|].
    split.
    { intros n c' [Heq|Hin] Hc.
      - injection Heq as -> ->. left.
        destruct c'; (reflexivity || discriminate).
      - right. now apply IHk. }
    split.
    { intros n l [Heq|Hin].
      - injection Heq as -> ->. now left.
      - right. now apply IHs. }
    rewrite (stringify_datetimes_cons name _ (stringify_datetimes t)), IHi.
    destruct c; reflexivity.
Qed.

Lemma stringify_datetimes_only_retypes_witness :
  In ("geometry", GeomCol [Point (F64.of_Z 114) (F64.of_Z 22)])
     (stringify_datetimes (frame one_point_gdf))
  /\ In ("time", TimeStrCol [0]) (stringify_datetimes (frame one_point_gdf)).
Proof.
  destruct (stringify_datetimes_only_retypes (frame one_point_gdf))
    as (_ & _ & _ & Hkeep & Hstr & _).
  split.
  - apply Hkeep; [|reflexivity]. cbn. right. right. left. reflexivity.
  - apply Hstr. cbn. right. left. reflexivity.
Defined.

(** ** The exporter, format by format *)

(** With an extension that lowers to [.xlsx], the only call of a writing
    backend the exporter can make is [to_excel] on the table of the
    collection with its datetime columns turned to text: no datetime
    column is left in it, it has the column names of the collection in
    their order, and the geometry column is still there.  The call goes
    through only when the extension is written [.xlsx]: then, the backends
    succeeding, the events are the directory creation (if any), the
    notice, the write and the "Excel saved" notice.  Written in another
    letter case ([.XLSX]) the extension has no writer engine: the export
    ends in [ValueError] after the notice, and nothing is written. *)
Theorem xlsx_export_stringifies_datetimes :
  forall (E : env) (gdf : GeoDataFrame) (output_path : string),
    lower (splitext_ext output_path) = ".xlsx" ->
    let table := stringify_datetimes (frame gdf) in
    (forall p w,
        In (WriteFile p w) (snd (export_gdf E gdf output_path [])) ->
        p = output_path /\ w = ExcelTable table
        /\ splitext_ext output_path = ".xlsx") /\
    has_datetime_column table = false /\
    map fst table = map fst (frame gdf) /\
    has_geometry_column table = has_geometry_column (frame gdf) /\
    (splitext_ext output_path = ".xlsx" ->
     makedirs_error E (dirname output_path) = None ->
     write_error E output_path (ExcelTable table) = None ->
     forall tr,
       export_gdf E gdf output_path tr
       = (Ret tt,
          (tr ++ export_events output_path (ExcelTable table) MsgExcelSaved)%list)) /\
    (splitext_ext output_path <> ".xlsx" ->
     makedirs_error E (dirname output_path) = None ->
     forall tr,
       export_gdf E gdf output_path tr
       = (Raise ValueError,
          (tr ++ (if String.eqb (dirname output_path) EmptyString then []
                  else [Makedirs (dirname output_path)])
              ++ [Print (MsgSaving output_path)])%list)).
Proof.
  intros E gdf output_path Hext table.
  destruct (stringify_datetimes_facts (frame gdf)) as (Hn & Hd & Hg).
  split.
  { intros p w.
    destruct (String.eqb_spec (splitext_ext output_path) ".xlsx") as [Has|Has].
    - rewrite (export_gdf_xlsx E gdf output_path Hext Has). fold table.
      intros Hin. apply export_steps_writes in Hin. now destruct Hin.
    - rewrite (export_gdf_xlsx_no_engine E gdf output_path Hext Has).
      unfold makedirs.
      destruct (String.eqb (dirname output_path) EmptyString); cbn [negb];
        try destruct (makedirs_error E (dirname output_path));
        cbv [bind ret raise emit print fst snd app];
        intros Hin; in_trace Hin. }
  split; [exact Hd|]. split; [exact Hn|]. split; [exact Hg|].
  split.
  - intros Has Hmk Hwr tr.
    rewrite (export_gdf_xlsx E gdf output_path Hext Has).
    now apply export_steps_ok.
  - intros Has Hmk tr.
    rewrite (export_gdf_xlsx_no_engine E gdf output_path Hext Has).
    unfold makedirs. rewrite Hmk.
    destruct (String.eqb (dirname output_path) EmptyString); cbn [negb];
      cbv [bind ret raise emit print]; rewrite <- ?app_assoc; reflexivity.
Qed.

Lemma xlsx_export_stringifies_datetimes_witness :
  export_gdf demo_env one_point_gdf "out/points.xlsx" []
  = (Ret tt,
     [ Makedirs "out";
       Print (MsgSaving "out/points.xlsx");
       WriteFile "out/points.xlsx"
         (ExcelTable
            [ ("par_id", IntCol [0]);
              ("time", TimeStrCol [0]);
              ("geometry", GeomCol [Point (F64.of_Z 114) (F64.of_Z 22)]) ]);
       Print MsgExcelSaved ])
  /\ export_gdf demo_env one_point_gdf "out/Points.XLSX" []
     = (Raise ValueError,
        [ Makedirs "out"; Print (MsgSaving "out/Points.XLSX") ]).
Proof.
  split.
  - destruct (xlsx_export_stringifies_datetimes demo_env one_point_gdf
                "out/points.xlsx") as (_ & _ & _ & _ & Hrun & _).
    + vm_compute. reflexivity.
    + rewrite (Hrun eq_refl eq_refl eq_refl []). vm_compute. reflexivity.
  - destruct (xlsx_export_stringifies_datetimes demo_env one_point_gdf
                "out/Points.XLSX") as (_ & _ & _ & _ & _ & Hfail).
    + vm_compute. reflexivity.
    + rewrite (Hfail ltac:(discriminate) eq_refl []). vm_compute. reflexivity.
Defined.

(** With an extension of the driver table, in any letter case, the only
    file the exporter can write is a vector layer for the driver the table
    gives: the collection itself, or for the Shapefile driver a copy with
    the datetime columns turned to text; either way with the coordinate
    reference system and the geometry column of the collection.  When the
    backends succeed the last event names the driver. *)
Theorem driver_export_hands_collection_to_driver :
  forall (E : env) (gdf : GeoDataFrame) (output_path driver : string),
    dict_get DRIVER_MAP (lower (splitext_ext output_path)) = Some driver ->
    let layer :=
      if String.eqb driver "ESRI Shapefile" then shapefile_copy gdf else gdf in
    (forall p w,
        In (WriteFile p w) (snd (export_gdf E gdf output_path [])) ->
        p = output_path /\ w = VectorLayer (Some driver) layer) /\
    crs layer = crs gdf /\
    map fst (frame layer) = map fst (frame gdf) /\
    has_geometry_column (frame layer) = has_geometry_column (frame gdf) /\
    (driver = "ESRI Shapefile" -> has_datetime_column (frame layer) = false) /\
    (driver <> "ESRI Shapefile" -> layer = gdf) /\
    (makedirs_error E (dirname output_path) = None ->
     write_error E output_path (VectorLayer (Some driver) layer) = None ->
     forall tr,
       export_gdf E gdf output_path tr
       = (Ret tt,
          (tr ++ export_events output_path (VectorLayer (Some driver) layer)
                   (MsgSavedDriver driver))%list)).
Proof.
  intros E gdf output_path driver Hd layer.
  rewrite (export_gdf_driver E gdf output_path driver Hd). fold layer.
  destruct (stringify_datetimes_facts (frame gdf)) as (Hn & Hdt & Hg).
  split; [intros p w; apply export_steps_writes|].
  subst layer.
  destruct (String.eqb_spec driver "ESRI Shapefile") as [Hshp|Hshp];
    unfold shapefile_copy; cbn [crs frame];
    (split; [reflexivity|]);
    (split; [assumption || reflexivity|]);
    (split; [assumption || reflexivity|]);
    (split; [intros H; (assumption || contradiction)|]);
    (split; [intros H; (reflexivity || contradiction)|]);
    intros Hmk Hwr tr; now apply export_steps_ok.
Qed.

Lemma driver_export_hands_collection_to_driver_witness :
  export_gdf demo_env one_point_gdf "points.SHP" []
  = (Ret tt,
     [ Print (MsgSaving "points.SHP");
       WriteFile "points.SHP"
         (VectorLayer (Some "ESRI Shapefile") (shapefile_copy one_point_gdf));
       Print (MsgSavedDriver "ESRI Shapefile") ]).
Proof.
  destruct (driver_export_hands_collection_to_driver demo_env one_point_gdf
              "points.SHP" "ESRI Shapefile") as (_ & _ & _ & _ & _ & _ & Hrun).
  - vm_compute. reflexivity.
  - rewrite (Hrun eq_refl eq_refl []). vm_compute. reflexivity.
Defined.

(** With any other extension written in ASCII (or none) the exporter
    announces the unknown extension and hands the collection, unchanged,
    to [to_file] without a driver; it prints no confirmation after the
    call. *)
Theorem unknown_extension_falls_back_to_default_save :
  forall (E : env) (gdf : GeoDataFrame) (output_path : string),
    let ext := lower (splitext_ext output_path) in
    ascii_only (splitext_ext output_path) = true ->
    String.eqb ext ".csv" = false ->
    String.eqb ext ".xlsx" = false ->
    dict_get DRIVER_MAP ext = None ->
    (forall p w,
        In (WriteFile p w) (snd (export_gdf E gdf output_path [])) ->
        p = output_path /\ w = VectorLayer None gdf) /\
    (makedirs_error E (dirname output_path) = None ->
     write_error E output_path (VectorLayer None gdf) = None ->
     forall tr,
       export_gdf E gdf output_path tr
       = (Ret tt,
          (tr ++ (if String.eqb (dirname output_path) EmptyString then []
                  else [Makedirs (dirname output_path)])
              ++ [ Print (MsgSaving output_path);
                   Print (MsgUnknownExt ext);
                   WriteFile output_path (VectorLayer None gdf) ])%list)).
Proof.
  intros E gdf output_path ext _ Hcsv Hxlsx Hd.
  unfold export_gdf. fold ext. rewrite Hcsv, Hxlsx, Hd.
  unfold to_file, makedirs, write. split.
  - intros p w.
    destruct (String.eqb (dirname output_path) EmptyString); cbn [negb];
      try destruct (makedirs_error E (dirname output_path));
      destruct (write_error E output_path (VectorLayer None gdf));
      cbv [bind ret raise emit print fst snd app];
      intros Hin; in_trace Hin; injection Hin as <- <-; now split.
  - intros Hmk Hwr tr. rewrite Hmk, Hwr.
    destruct (String.eqb (dirname output_path) EmptyString); cbn [negb];
      cbv [bind ret raise emit print]; rewrite <- !app_assoc; reflexivity.
Qed.

Lemma unknown_extension_falls_back_to_default_save_witness :
  export_gdf demo_env one_point_gdf "out/points" []
  = (Ret tt,
     [ Makedirs "out";
       Print (MsgSaving "out/points");
       Print (MsgUnknownExt EmptyString);
       WriteFile "out/points" (VectorLayer None one_point_gdf) ]).
Proof.
  destruct (unknown_extension_falls_back_to_default_save demo_env
              one_point_gdf "out/points") as (_ & Hrun).
  - vm_compute. reflexivity.
  - vm_compute. reflexivity.
  - vm_compute. reflexivity.
  - vm_compute. reflexivity.
  - rewrite (Hrun eq_refl eq_refl []). vm_compute. reflexivity.
Defined.

(** When the directory of the path cannot be created, the export stops
    there: the exception of [os.makedirs] comes out and nothing is
    announced or written.  When the write itself fails, its exception
    comes out after the notice, no file is written and no confirmation is
    printed. *)
Theorem export_failure_writes_nothing :
  forall (E : env) (gdf : GeoDataFrame) (output_path : string) (e : exn),
    (dirname output_path <> EmptyString ->
     makedirs_error E (dirname output_path) = Some e ->
     forall tr, export_gdf E gdf output_path tr = (Raise e, tr)) /\
    (fst (export_gdf E gdf output_path []) = Raise e ->
     forall ev, In ev (snd (export_gdf E gdf output_path [])) ->
                is_write ev = false
                /\ ev <> Print MsgCsvSaved /\ ev <> Print MsgExcelSaved
                /\ forall d, ev <> Print (MsgSavedDriver d)).
Proof.
  intros E gdf output_path e. split.
  - intros Hdir Hmk tr. unfold export_gdf, makedirs.
    apply String.eqb_neq in Hdir. rewrite Hdir, Hmk. reflexivity.
  - export_cases E gdf output_path; intros Hres; try discriminate Hres;
      intros ev Hin; in_trace Hin; subst ev;
      (split; [reflexivity|]); repeat split; try discriminate;
      intros d; discriminate.
Qed.

Lemma export_failure_writes_nothing_witness :
  export_gdf
    {| isfile := isfile demo_env;
       stored_dataset := stored_dataset demo_env;
       makedirs_error := fun _ => Some OSError;
       write_error := write_error demo_env;
       path_exists := path_exists demo_env;
       json_load := json_load demo_env |}
    one_point_gdf "out/points.csv" []
  = (Raise OSError, []).
Proof.
  refine (proj1 (export_failure_writes_nothing _ one_point_gdf
                   "out/points.csv" OSError) _ _ []).
  - vm_compute. discriminate.
  - reflexivity.
Defined.

(** ** Input errors of the conversion routines *)

(** A missing input file, a failure of [xr.open_dataset] and a dataset
    that lacks the x- or the y-coordinate variable end both routines with
    an exception before anything is computed: [FileNotFoundError] and the
    exception of the reader leave the trace as it was, and [KeyError]
    comes after the opening and the "loaded" notice only.  Nothing is
    exported in any of these cases. *)
Theorem input_errors_raise_before_any_output :
  forall (E : env) (nc_file output_path : string) (hours : pynum)
         (run : M (option GeoDataFrame)),
    run = ncTrk2line E nc_file output_path hours
    \/ run = ncTrk2pt E nc_file output_path hours ->
    (isfile E nc_file = false ->
     forall tr, run tr = (Raise FileNotFoundError, tr)) /\
    (forall e,
        isfile E nc_file = true -> stored_dataset E nc_file = Raise e ->
        forall tr, run tr = (Raise e, tr)) /\
    (forall ds,
        isfile E nc_file = true -> stored_dataset E nc_file = Ret ds ->
        particles_x_coordinate ds = None
        \/ particles_y_coordinate ds = None ->
        forall tr,
          run tr
          = (Raise KeyError,
             (tr ++ [OpenDataset nc_file;
                     Print (MsgLoaded (basename nc_file))])%list)).
Proof.
  intros E nc_file output_path hours run Hrun.
  split; [|split].
  - intros Hf tr.
    destruct Hrun as [-> | ->]; unfold ncTrk2line, ncTrk2pt; rewrite Hf;
      reflexivity.
  - intros e Hf Hds tr.
    destruct Hrun as [-> | ->]; unfold ncTrk2line, ncTrk2pt; rewrite Hf;
      cbn [negb]; unfold bind at 1, xr_open_dataset; rewrite Hds;
      reflexivity.
  - intros ds Hf Hds Hmissing tr.
    destruct Hrun as [-> | ->]; unfold ncTrk2line, ncTrk2pt; rewrite Hf;
      cbn [negb];
      rewrite (bind_xr_open_dataset E nc_file ds _ tr Hds);
      destruct ds as [[lon|] [lat|] [tv|]]; cbn in Hmissing;
      try (destruct Hmissing as [H|H]; discriminate H);
      cbv [bind print emit getitem ret raise
           particles_x_coordinate particles_y_coordinate time];
      rewrite <- ?app_assoc; reflexivity.
Qed.

Lemma input_errors_raise_before_any_output_witness :
  ncTrk2pt demo_env "absent.nc" "points.gpkg" (PyInt 1) []
  = (Raise FileNotFoundError, []).
Proof.
  refine (proj1 (input_errors_raise_before_any_output demo_env "absent.nc"
                   "points.gpkg" (PyInt 1) _ (or_intror eq_refl)) _ []).
  reflexivity.
Defined.

(** ** Time axes that give no timestep *)

Lemma div_by_nan (s : float) : F64.div s F64.nan = F64.nan.
Proof. destruct s; reflexivity. Qed.

Lemma compute_step_nan_median (ds : pynum) (s : float) :
  as_double ds = Ret s -> compute_step ds F64.nan = Raise ValueError.
Proof.
  intros Hs. unfold compute_step, py_truediv. rewrite Hs.
  cbn [F64.is_zero F64.nan res_bind]. rewrite div_by_nan. reflexivity.
Qed.

Lemma short_axis_median_nan (tv : time_array) :
  (time_len tv <= 1)%nat -> median_dt_of tv = F64.nan.
Proof.
  unfold median_dt_of.
  destruct tv as [[|a [|b t]]|[|a [|b t]]]; cbn [time_len length];
    intros H; try lia; reflexivity.
Qed.

Lemma td_seconds_NaT : td_seconds NaT = F64.nan.
Proof. unfold td_seconds. now rewrite Z.eqb_refl. Qed.

Lemma NaT_in_axis_nan_diff (ns : list Z) :
  (2 <= length ns)%nat -> In NaT ns ->
  existsb F64.isnan (map td_seconds (np_diff dt64_sub ns)) = true.
Proof.
  induction ns as [|a t IH]; cbn [length]; [lia|].
  destruct t as [|b t]; cbn [length]; [lia|].
  intros _ Hin. cbn [np_diff map existsb]. unfold dt64_sub at 1.
  destruct (Z.eqb_spec a NaT) as [Ha|Ha].
  - cbn [orb]. now rewrite td_seconds_NaT.
  - destruct (Z.eqb_spec b NaT) as [Hb|Hb].
    + cbn [orb]. now rewrite td_seconds_NaT.
    + cbn [orb]. apply orb_true_iff. right.
      destruct Hin as [Hin|[Hin|Hin]]; [congruence|congruence|].
      apply IH; [|now right].
      destruct t; [contradiction | cbn [length]; lia].
Qed.

Lemma np_median_nan (l : list float) :
  existsb F64.isnan l = true -> np_median l = F64.nan.
Proof. intros H. unfold np_median. now rewrite H. Qed.

(** A time axis decoded to datetime64 with fewer than two instants has no
    consecutive difference: the median is NaN and, the downscale interval
    converting to a float, [round] refuses the ratio: both routines end in
    [ValueError] right after loading, whatever the coordinates are. *)
Theorem short_time_axis_raises_value_error :
  forall (E : env) (nc_file output_path : string) (hours : pynum)
         (lon lat : CoordVar) (ns : list Z) (s : float),
    loads E nc_file lon lat (Datetime64 ns) ->
    (length ns <= 1)%nat ->
    as_double (times_3600 hours) = Ret s ->
    forall tr,
      ncTrk2line E nc_file output_path hours tr
      = (Raise ValueError,
         (tr ++ [OpenDataset nc_file; Print (MsgLoaded (basename nc_file))])%list)
      /\ ncTrk2pt E nc_file output_path hours tr
         = (Raise ValueError,
            (tr ++ [OpenDataset nc_file;
                    Print (MsgLoaded (basename nc_file))])%list).
Proof.
  intros E nc_file output_path hours lon lat ns s Hload Hlen Hs tr.
  assert (Hstep : compute_step (times_3600 hours) (median_dt_of (Datetime64 ns))
                  = Raise ValueError).
  { rewrite (short_axis_median_nan (Datetime64 ns) Hlen).
    now apply (compute_step_nan_median _ s). }
  split.
  - now apply (ncTrk2line_step_raises _ _ _ _ _ _ _ Hload).
  - now apply (ncTrk2pt_step_raises _ _ _ _ _ _ _ Hload).
Qed.

Lemma short_time_axis_raises_value_error_witness :
  fst (ncTrk2line (with_dataset demo_env
                     (dataset_of demo_lon demo_lat (hourly_axis 1)))
                  "trk.nc" "lines.gpkg" (PyInt 1) [])
  = Raise ValueError.
Proof.
  destruct (short_time_axis_raises_value_error
              (with_dataset demo_env
                 (dataset_of demo_lon demo_lat (hourly_axis 1)))
              "trk.nc" "lines.gpkg" (PyInt 1) demo_lon demo_lat
              (map (fun k => Z.of_nat k * 3600000000000) (seq 0 1))
              (F64.of_Z 3600)) with (tr := @nil event)
    as [Hline _].
  - constructor; reflexivity.
  - cbn. lia.
  - vm_compute. reflexivity.
  - rewrite Hline. reflexivity.
Defined.

(** A decoded time axis that holds a NaT among at least two instants has
    a NaT among its differences: the median is NaN and, the downscale
    interval converting to a float, both routines end in [ValueError]
    right after loading. *)
Theorem nat_in_time_axis_raises_value_error :
  forall (E : env) (nc_file output_path : string) (hours : pynum)
         (lon lat : CoordVar) (ns : list Z) (s : float),
    loads E nc_file lon lat (Datetime64 ns) ->
    (2 <= length ns)%nat ->
    In NaT ns ->
    as_double (times_3600 hours) = Ret s ->
    median_dt_of (Datetime64 ns) = F64.nan /\
    forall tr,
      ncTrk2line E nc_file output_path hours tr
      = (Raise ValueError,
         (tr ++ [OpenDataset nc_file; Print (MsgLoaded (basename nc_file))])%list)
      /\ ncTrk2pt E nc_file output_path hours tr
         = (Raise ValueError,
            (tr ++ [OpenDataset nc_file;
                    Print (MsgLoaded (basename nc_file))])%list).
Proof.
  intros E nc_file output_path hours lon lat ns s Hload Hlen Hin Hs.
  assert (Hmed : median_dt_of (Datetime64 ns) = F64.nan).
  { unfold median_dt_of. cbn [native_dt_seconds].
    now apply np_median_nan, NaT_in_axis_nan_diff. }
  split; [exact Hmed|]. intros tr.
  assert (Hstep : compute_step (times_3600 hours) (median_dt_of (Datetime64 ns))
                  = Raise ValueError).
  { rewrite Hmed. now apply (compute_step_nan_median _ s). }
  split.
  - now apply (ncTrk2line_step_raises _ _ _ _ _ _ _ Hload).
  - now apply (ncTrk2pt_step_raises _ _ _ _ _ _ _ Hload).
Qed.

Lemma nat_in_time_axis_raises_value_error_witness :
  median_dt_of (Datetime64 [0; NaT; 7200000000000; 10800000000000]) = F64.nan.
Proof.
  pose (ns := [0; NaT; 7200000000000; 10800000000000]).
  refine (proj1 (nat_in_time_axis_raises_value_error
                   (with_dataset demo_env
                      (dataset_of demo_lon demo_lat (Datetime64 ns)))
                   "trk.nc" "lines.gpkg" (PyInt 1) demo_lon demo_lat ns
                   (F64.of_Z 3600) _ _ _ _)).
  - constructor; reflexivity.
  - cbn. lia.
  - right. left. reflexivity.
  - vm_compute. reflexivity.
Defined.

(** ** Strides at the two ends *)

Lemma stride_from_keep_all {A : Type} (l : list A) : stride_from 0 0 l = l.
Proof. induction l as [|x t IH]; cbn [stride_from]; now rewrite ?IH. Qed.

Lemma slice_step_one {A : Type} (l : list A) : slice_step 1 l = l.
Proof. apply stride_from_keep_all. Qed.

Lemma stride_from_skip_all {A : Type} (l : list A) :
  forall skip gap, (length l <= skip)%nat -> stride_from skip gap l = [].
Proof.
  induction l as [|x t IH]; intros skip gap H; cbn [stride_from];
    [reflexivity|].
  cbn [length] in H. destruct skip as [|k]; [lia|]. apply IH. lia.
Qed.

Lemma slice_step_beyond {A : Type} (step : Z) (l : list A) :
  1 <= step -> (Z.of_nat (length l) <= step) ->
  slice_step step l = firstn 1 l.
Proof.
  intros Hstep Hlen. unfold slice_step.
  destruct l as [|x t]; [reflexivity|].
  cbn [stride_from firstn length] in *.
  rewrite stride_from_skip_all; [reflexivity | lia].
Qed.

Lemma half_even_shift_nonneg (m k : Z) : 0 <= m -> 0 <= half_even_shift m k.
Proof.
  intros Hm. unfold half_even_shift. cbv zeta.
  assert (Hq : 0 <= m / 2 ^ k).
  { destruct (Z.lt_ge_cases k 0) as [Hk|Hk].
    - rewrite Z.pow_neg_r by assumption. now rewrite Z.div_0_r.
    - apply Z.div_pos; [assumption|]. now apply Z.pow_pos_nonneg. }
  destruct (_ || _); lia.
Qed.

Lemma py_round_non_positive (q : float) :
  F64.isfinite q = true -> F64.leb q (F64.of_Z 0) = true ->
  exists r, py_round q = Ret r /\ r <= 0.
Proof.
  destruct q as [s|s| |s m e]; cbn [F64.isfinite]; try discriminate; intros _.
  - intros _. exists 0. split; [reflexivity | lia].
  - destruct s; [intros _ | intros H; vm_compute in H; discriminate].
    cbn [py_round]. eexists. split; [reflexivity|].
    destruct (0 <=? e).
    + assert (0 <= Z.pos m * 2 ^ e); [|lia].
      apply Z.mul_nonneg_nonneg; [lia|]. apply Z.pow_nonneg. lia.
    + pose proof (half_even_shift_nonneg (Z.pos m) (- e)). lia.
Qed.

(** When the ratio of the requested interval to the median timestep is a
    finite float that is zero or negative (a zero or negative
    [downscale_hours], or a time axis that runs backwards), the stride is
    clamped to 1 and nothing is dropped: the downscaled arrays are the
    masked input arrays and the downscaled time axis is the whole axis,
    rounded. *)
Theorem non_positive_ratio_keeps_every_timestep :
  forall (hours : pynum) (lon lat : CoordVar) (tv : time_array) (q : float),
    py_truediv (times_3600 hours) (median_dt_of tv) = Ret q ->
    F64.isfinite q = true ->
    F64.leb q (F64.of_Z 0) = true ->
    compute_step (times_3600 hours) (median_dt_of tv) = Ret 1 /\
    lon_sub_of lon 1 = mask_fill (fill_val_of lon) (values lon) /\
    lat_sub_of lon lat 1 = mask_fill (fill_val_of lon) (values lat) /\
    time_sub_of tv 1 = map round_s (to_datetime tv).
Proof.
  intros hours lon lat tv q Hq Hfin Hle.
  destruct (py_round_non_positive q Hfin Hle) as (r & Hr & Hr0).
  split.
  { unfold compute_step. rewrite Hq. cbn [res_bind]. rewrite Hr.
    cbn [res_bind]. f_equal. lia. }
  unfold lon_sub_of, lat_sub_of, time_sub_of.
  rewrite !slice_step_one.
  repeat split. destruct tv; cbn [time_slice]; now rewrite slice_step_one.
Qed.

Lemma non_positive_ratio_keeps_every_timestep_witness :
  compute_step (times_3600 (PyInt (-2))) (median_dt_of (hourly_axis 4)) = Ret 1
  /\ time_sub_of (hourly_axis 4) 1 = map round_s (to_datetime (hourly_axis 4)).
Proof.
  destruct (non_positive_ratio_keeps_every_timestep (PyInt (-2)) demo_lon
              demo_lat (hourly_axis 4)
              (F64.div (F64.of_Z (-7200)) (F64.of_Z 3600)))
    as (Hstep & _ & _ & Htime).
  - vm_compute. reflexivity.
  - vm_compute. reflexivity.
  - vm_compute. reflexivity.
  - split; assumption.
Defined.

Lemma build_points_fields (n m : nat) (lon_sub lat_sub : list (list float))
  (time_sub : list Z) :
  shaped n m lon_sub -> shaped n m lat_sub ->
  let idx := valid_pairs lon_sub lat_sub n m in
  build_points lon_sub lat_sub time_sub
  = {| pt_x := map (fun p => cell lon_sub (fst p) (snd p)) idx;
       pt_y := map (fun p => cell lat_sub (fst p) (snd p)) idx;
       pt_pids := map (fun p => Z.of_nat (snd p)) idx;
       pt_t_vals := map (fun p => nth (fst p) time_sub NaT) idx |}.
Proof.
  intros Hlon Hlat idx. unfold build_points, np_where.
  rewrite (where_valid_pairs n m) by assumption. fold idx.
  now rewrite !zip_with_maps, !map_map.
Qed.

Lemma valid_times_length (lon_sub lat_sub : list (list float))
  (n_time pid : nat) :
  (length (valid_times lon_sub lat_sub n_time pid) <= n_time)%nat.
Proof.
  unfold valid_times.
  pose proof (filter_length_le
                (fun i => jointly_finite lon_sub lat_sub i pid)
                (seq 0 n_time)) as H.
  now rewrite length_seq in H.
Qed.

Lemma valid_pairs_length (lon_sub lat_sub : list (list float))
  (n_time n_particles : nat) :
  (length (valid_pairs lon_sub lat_sub n_time n_particles)
   <= n_time * n_particles)%nat.
Proof.
  unfold valid_pairs.
  assert (H : forall l : list nat,
             (length
                (flat_map
                   (fun i => map (pair i)
                      (filter (jointly_finite lon_sub lat_sub i)
                              (seq 0 n_particles))) l)
              <= length l * n_particles)%nat).
  { induction l as [|i t IH]; cbn [flat_map length]; [lia|].
    rewrite length_app, length_map.
    pose proof (filter_length_le (jointly_finite lon_sub lat_sub i)
                  (seq 0 n_particles)) as H.
    rewrite length_seq in H. lia. }
  specialize (H (seq 0 n_time)). now rewrite length_seq in H.
Qed.

(** When the stride reaches the length of the time axis, only the first
    timestep is kept.  Line mode then has no particle with two points: it
    returns [None] and exports nothing, whatever the coordinates are;
    point mode has at most one record per particle: no particle id comes
    twice in the table, which has no more records than particles. *)
Theorem stride_beyond_axis_keeps_first_timestep_only :
  forall (E : env) (nc_file output_path : string) (hours : pynum)
         (lon lat : CoordVar) (tv : time_array) (step : Z),
    loads E nc_file lon lat tv ->
    well_shaped lon lat tv ->
    compute_step (times_3600 hours) (median_dt_of tv) = Ret step ->
    Z.of_nat (time_len tv) <= step ->
    slice_step step (values lon) = firstn 1 (values lon) /\
    to_datetime (time_slice step tv) = firstn 1 (to_datetime tv) /\
    (forall tr,
        ncTrk2line E nc_file output_path hours tr
        = (Ret None,
           (tr ++ downscale_events nc_file hours lon tv step
               ++ [Print (MsgCreatedTracks 0); Print MsgNoTracks])%list)) /\
    NoDup (pt_pids (point_rows lon lat tv step)) /\
    (length (pt_x (point_rows lon lat tv step)) <= ncols lon)%nat.
Proof.
  intros E nc_file output_path hours lon lat tv step Hload Hwf Hstep Hbig.
  pose proof (compute_step_positive _ _ _ Hstep) as Hge.
  destruct Hwf as [[Hn Hm] [Hn' Hm']].
  assert (Hlon : slice_step step (values lon) = firstn 1 (values lon)).
  { apply slice_step_beyond; [assumption | now rewrite Hn]. }
  assert (Hone : (length (lon_sub_of lon step) <= 1)%nat).
  { unfold lon_sub_of. rewrite mask_fill_length, Hlon, length_firstn. lia. }
  assert (Hwf : well_shaped lon lat tv) by (repeat split; assumption).
  split; [exact Hlon|]. split.
  { destruct tv as [ns|ts]; cbn [time_slice to_datetime time_len] in *.
    - now apply slice_step_beyond.
    - rewrite slice_step_beyond by assumption.
      destruct ts; reflexivity. }
  split; [|split].
  - assert (Hnone : lines (line_tracks lon lat tv step) = []).
    { unfold line_tracks, time_sub_of.
      rewrite (build_lines_spec _ _ _ (length (lon_sub_of lon step)) eq_refl).
      - unfold tracks_over. cbn [lines].
        rewrite (filter_ext _ (fun _ => false)); [now rewrite filter_none|].
        intros pid. unfold has_track. apply Nat.leb_gt.
        pose proof (valid_times_length (lon_sub_of lon step)
                      (lat_sub_of lon lat step)
                      (length (lon_sub_of lon step)) pid). lia.
      - apply (lat_sub_of_shaped lon lat tv step Hwf).
      - rewrite <- (time_sub_of_length_lon lon lat tv step Hwf).
        unfold time_sub_of. now rewrite length_map. }
    intros tr.
    rewrite (ncTrk2line_loaded _ _ _ _ _ _ _ Hload _ _ Hstep). cbv zeta.
    rewrite Hnone. cbn [length]. now rewrite <- !app_assoc.
  - pose proof (lon_sub_of_shaped lon lat tv step Hwf) as Hs1.
    pose proof (lat_sub_of_shaped lon lat tv step Hwf) as Hs2.
    unfold point_rows.
    rewrite (build_points_fields _ _ _ _ (time_sub_of tv step) Hs1 Hs2).
    cbn [pt_pids].
    apply NoDup_map_NoDup_ForallPairs; [|apply valid_pairs_NoDup].
    intros [i j] [i' j'] Hp Hq Heq. cbn [snd] in Heq.
    apply in_valid_pairs in Hp, Hq.
    f_equal; lia.
  - pose proof (lon_sub_of_shaped lon lat tv step Hwf) as Hs1.
    pose proof (lat_sub_of_shaped lon lat tv step Hwf) as Hs2.
    destruct (points_gdf_build_points _ _ _ _ (to_datetime (time_slice step tv))
                Hs1 Hs2) as [Hlen _].
    unfold point_rows, time_sub_of. rewrite Hlen.
    pose proof (valid_pairs_length (lon_sub_of lon step)
                  (lat_sub_of lon lat step)
                  (length (lon_sub_of lon step)) (ncols lon)). nia.
Qed.

Lemma stride_beyond_axis_keeps_first_timestep_only_witness :
  ncTrk2line demo_env "trk.nc" "lines.gpkg" (PyInt 4) []
  = (Ret None,
     (downscale_events "trk.nc" (PyInt 4) demo_lon (hourly_axis 4) 4
        ++ [Print (MsgCreatedTracks 0); Print MsgNoTracks])%list).
Proof.
  destruct (stride_beyond_axis_keeps_first_timestep_only demo_env "trk.nc"
              "lines.gpkg" (PyInt 4) demo_lon demo_lat (hourly_axis 4) 4
              demo_loads demo_well_shaped)
    as (_ & _ & Hrun & _ & _).
  - vm_compute. reflexivity.
  - cbn. lia.
  - exact (Hrun []).
Defined.

(** ** What every built collection satisfies *)

(** an invariant of the loop over the particles *)
Lemma build_lines_invariant (P : line_acc -> Prop)
  (lon_sub lat_sub : list (list float)) (time_sub : list Z)
  (n_particles : nat) :
  P line_acc0 ->
  (forall acc pid, P acc -> P (line_body lon_sub lat_sub time_sub acc pid)) ->
  P (build_lines lon_sub lat_sub time_sub n_particles).
Proof.
  intros H0 Hstep. unfold build_lines.
  generalize (seq 0 n_particles) line_acc0 H0.
  induction l as [|pid t IH]; intros acc Hacc; cbn [fold_left];
    [assumption|].
  apply IH, Hstep, Hacc.
Qed.

(** the accumulator after a turn that adds a track *)
Lemma line_body_cases (lon_sub lat_sub : list (list float))
  (time_sub : list Z) (acc : line_acc) (pid : nat) :
  line_body lon_sub lat_sub time_sub acc pid = acc
  \/ exists coords mask,
       coords = combine (column_of pid lon_sub) (column_of pid lat_sub)
       /\ mask = finite_rows coords
       /\ line_body lon_sub lat_sub time_sub acc pid
          = {| lines := (lines acc ++ [LineString (bool_index coords mask)])%list;
               valid_pids := (valid_pids acc ++ [pid])%list;
               times_start :=
                 (times_start acc
                    ++ [round_s (hd NaT (bool_index time_sub mask))])%list;
               times_end :=
                 (times_end acc
                    ++ [round_s (last (bool_index time_sub mask) NaT)])%list |}.
Proof.
  unfold line_body. destruct (_ || _); [now left|]. cbv zeta.
  destruct (_ <? _)%nat; [|now left].
  right. eexists _, _. repeat split.
Qed.

Lemma np_where_lengths (mask : list (list bool)) :
  length (fst (np_where mask)) = length (where_from mask 0)
  /\ length (snd (np_where mask)) = length (where_from mask 0).
Proof. unfold np_where. cbn [fst snd]. now rewrite !length_map. Qed.

(** the lengths of the lists the two builders fill *)
Lemma builders_fill_evenly (lon_sub lat_sub : list (list float))
  (time_sub : list Z) (n_particles : nat) :
  let acc := build_lines lon_sub lat_sub time_sub n_particles in
  let t := build_points lon_sub lat_sub time_sub in
  (length (valid_pids acc) = length (lines acc)
   /\ length (times_start acc) = length (lines acc)
   /\ length (times_end acc) = length (lines acc)) /\
  (length (pt_y t) = length (pt_x t)
   /\ length (pt_pids t) = length (pt_x t)
   /\ length (pt_t_vals t) = length (pt_x t)).
Proof.
  intros acc t. split.
  - subst acc. apply build_lines_invariant; [repeat split|].
    intros a pid (H1 & H2 & H3).
    destruct (line_body_cases lon_sub lat_sub time_sub a pid)
      as [-> | (coords & mask & _ & _ & ->)]; [repeat split; assumption|].
    cbn [lines valid_pids times_start times_end].
    rewrite !length_app. cbn [length]. lia.
  - subst t. unfold build_points.
    destruct (np_where_lengths (valid_mask_of lon_sub lat_sub)) as [Hr Hc].
    destruct (np_where (valid_mask_of lon_sub lat_sub)) as [rows cols].
    cbn [fst snd pt_x pt_y pt_pids pt_t_vals] in *.
    rewrite !zip_with_length, !length_map. lia.
Qed.

(** On a well-shaped dataset the four lists the line loop fills have the
    same length, and so have the four columns of the point table: every
    column of a collection that either routine builds has as many rows as
    the collection has geometries. *)
Theorem built_frames_are_rectangular :
  forall (lon lat : CoordVar) (tv : time_array) (step : Z),
    well_shaped lon lat tv ->
    let acc := line_tracks lon lat tv step in
    let t := point_rows lon lat tv step in
    (length (valid_pids acc) = length (lines acc)
     /\ length (times_start acc) = length (lines acc)
     /\ length (times_end acc) = length (lines acc)) /\
    rectangular (length (lines acc)) (frame (lines_gdf acc)) /\
    (length (pt_y t) = length (pt_x t)
     /\ length (pt_pids t) = length (pt_x t)
     /\ length (pt_t_vals t) = length (pt_x t)) /\
    rectangular (length (pt_x t)) (frame (points_gdf t)).
Proof.
  intros lon lat tv step _ acc t.
  destruct (builders_fill_evenly (lon_sub_of lon step) (lat_sub_of lon lat step)
              (time_sub_of tv step) (ncols lon)) as [Hacc Ht].
  fold (line_tracks lon lat tv step) in Hacc.
  fold (point_rows lon lat tv step) in Ht. fold acc in Hacc. fold t in Ht.
  split; [exact Hacc|]. split.
  { destruct Hacc as (H1 & H2 & H3).
    unfold lines_gdf, mkGeoDataFrame, rectangular. cbn [frame app].
    repeat constructor; cbn [snd column_length];
      rewrite ?length_map; assumption || reflexivity. }
  split; [exact Ht|].
  destruct Ht as (H1 & H2 & H3).
  unfold points_gdf, mkGeoDataFrame, rectangular.
  cbn [frame app filter fst String.eqb Ascii.eqb Bool.eqb orb].
  repeat constructor; cbn [snd column_length];
    rewrite ?zip_with_length, ?H1; try assumption; try reflexivity.
  apply Nat.min_id.
Qed.

Lemma built_frames_are_rectangular_witness :
  rectangular 1 (frame (lines_gdf (line_tracks demo_lon demo_lat (hourly_axis 4) 1)))
  /\ rectangular 4
       (frame (points_gdf (point_rows demo_lon demo_lat (hourly_axis 4) 1))).
Proof.
  destruct (built_frames_are_rectangular demo_lon demo_lat (hourly_axis 4) 1
              demo_well_shaped) as (_ & Hlines & _ & Hpoints).
  split; [exact Hlines | exact Hpoints].
Defined.

Lemma nth_round_s (raw : list Z) (i : nat) :
  nth i (map round_s raw) NaT = round_s (nth i raw NaT).
Proof. rewrite <- round_s_NaT at 1. apply (map_nth round_s). Qed.

(** Every timestamp that either routine puts in a collection is a whole
    number of seconds (or the missing instant): the start and end of every
    track, and the time of every point record. *)
Theorem output_times_are_whole_seconds :
  forall (lon lat : CoordVar) (tv : time_array) (step : Z),
    Forall whole_second (times_start (line_tracks lon lat tv step)) /\
    Forall whole_second (times_end (line_tracks lon lat tv step)) /\
    Forall whole_second (pt_t_vals (point_rows lon lat tv step)).
Proof.
  intros lon lat tv step.
  assert (Hlines :
    Forall whole_second (times_start (line_tracks lon lat tv step))
    /\ Forall whole_second (times_end (line_tracks lon lat tv step))).
  { unfold line_tracks. apply build_lines_invariant; [split; constructor|].
    intros a pid [H1 H2].
    destruct (line_body_cases (lon_sub_of lon step) (lat_sub_of lon lat step)
                (time_sub_of tv step) a pid)
      as [-> | (coords & mask & _ & _ & ->)]; [split; assumption|].
    cbn [times_start times_end].
    split; apply Forall_app; (split; [assumption|]);
      (constructor; [apply round_s_whole | constructor]). }
  destruct Hlines as [H1 H2]. split; [exact H1|]. split; [exact H2|].
  unfold point_rows, build_points, time_sub_of.
  destruct (np_where _) as [rows cols]. cbn [pt_t_vals].
  apply Forall_map, Forall_forall. intros i _.
  rewrite nth_round_s. apply round_s_whole.
Qed.

Lemma masked_value_clean (fill_val u : float) :
  F64.isfinite (if F64.eqb u fill_val then F64.nan else u) = true ->
  clean fill_val (if F64.eqb u fill_val then F64.nan else u) = true.
Proof.
  unfold clean. destruct (F64.eqb u fill_val) eqn:Hu.
  - discriminate.
  - intros ->. now rewrite Hu.
Qed.

Lemma finite_masked_cell_clean (fill_val : float) (a : list (list float))
  (i j : nat) :
  F64.isfinite (cell (mask_fill fill_val a) i j) = true ->
  clean fill_val (cell (mask_fill fill_val a) i j) = true.
Proof. rewrite cell_mask_fill. apply masked_value_clean. Qed.

Lemma bool_index_in {A : Type} (f : A -> bool) (l : list A) (x : A) :
  In x (bool_index l (map f l)) -> In x l /\ f x = true.
Proof.
  induction l as [|y t IH]; cbn [bool_index map]; [contradiction|].
  destruct (f y) eqn:Hy.
  - intros [<-|Hin]; [split; [now left | assumption]|].
    destruct (IH Hin). split; [now right | assumption].
  - intros Hin. destruct (IH Hin). split; [now right | assumption].
Qed.

Lemma in_column_of (pid : nat) (a : list (list float)) (v : float) :
  In v (column_of pid a) -> exists i, v = cell a i pid.
Proof.
  intros Hin. apply (In_nth _ _ F64.nan) in Hin.
  destruct Hin as (i & _ & <-). exists i. apply nth_column_of.
Qed.

Lemma in_where_from (mask : list (list bool)) (i j : nat) :
  In (i, j) (where_from mask 0) -> nth j (nth i mask []) false = true.
Proof.
  rewrite where_from_flat_map, in_flat_map.
  intros (i' & _ & Hin). apply in_map_iff in Hin.
  destruct Hin as (j' & Heq & Hj). injection Heq as -> ->.
  rewrite Nat.sub_0_r, true_columns_filter in Hj.
  apply filter_In in Hj. destruct Hj as [_ Hj].
  now rewrite Nat.sub_0_r in Hj.
Qed.

(** Every vertex of every track and every point that the routines build
    has two finite coordinates, neither of which compares equal to the
    fill sentinel: masked and non-finite cells never reach a geometry,
    whatever the shapes of the arrays are. *)
Theorem built_geometries_are_clean :
  forall (lon lat : CoordVar) (tv : time_array) (step : Z),
    let t := point_rows lon lat tv step in
    Forall (clean_geometry (fill_val_of lon))
           (lines (line_tracks lon lat tv step)) /\
    Forall (clean_geometry (fill_val_of lon))
           (zip_with Point (pt_x t) (pt_y t)).
Proof.
  intros lon lat tv step t. split.
  - unfold line_tracks. apply build_lines_invariant; [constructor|].
    intros a pid Ha.
    destruct (line_body_cases (lon_sub_of lon step) (lat_sub_of lon lat step)
                (time_sub_of tv step) a pid)
      as [-> | (coords & mask & Hcoords & -> & ->)]; [assumption|].
    cbn [lines]. apply Forall_app. split; [assumption|].
    constructor; [|constructor].
    unfold clean_geometry. cbn [geometry_coords].
    apply Forall_forall. intros [x y] Hin.
    unfold finite_rows in Hin. apply bool_index_in in Hin.
    destruct Hin as [Hin Hfin]. cbn [fst snd] in *.
    apply andb_true_iff in Hfin. destruct Hfin as [Hx Hy].
    subst coords.
    destruct (in_column_of _ _ _ (in_combine_l _ _ _ _ Hin)) as [i ->].
    destruct (in_column_of _ _ _ (in_combine_r _ _ _ _ Hin)) as [k ->].
    unfold lon_sub_of, lat_sub_of in *.
    split; now apply finite_masked_cell_clean.
  - subst t. unfold point_rows, build_points, np_where.
    cbn [pt_x pt_y]. rewrite !zip_with_maps.
    apply Forall_map, Forall_forall. intros [i j] Hin.
    apply in_where_from in Hin. rewrite nth_valid_mask_of in Hin.
    apply andb_true_iff in Hin. destruct Hin as [Hx Hy].
    unfold clean_geometry. cbn [geometry_coords fst snd].
    constructor; [|constructor].
    unfold lon_sub_of, lat_sub_of in *.
    split; now apply finite_masked_cell_clean.
Qed.

(** ** Tracks on an ascending time axis *)

Lemma round_s_mono (t1 t2 : Z) :
  t1 <> NaT -> t2 <> NaT -> t1 <= t2 -> round_s t1 <= round_s t2.
Proof.
  intros H1 H2 Hle. unfold round_s.
  rewrite (proj2 (Z.eqb_neq t1 NaT) H1), (proj2 (Z.eqb_neq t2 NaT) H2).
  cbv zeta. change (1000000000 / 2) with 500000000.
  pose proof (Z.div_mod t1 1000000000 ltac:(lia)) as E1.
  pose proof (Z.div_mod t2 1000000000 ltac:(lia)) as E2.
  pose proof (Z.mod_pos_bound t1 1000000000 ltac:(lia)) as B1.
  pose proof (Z.mod_pos_bound t2 1000000000 ltac:(lia)) as B2.
  pose proof (Z.div_le_mono t1 t2 1000000000 ltac:(lia) Hle) as Hq.
  set (q1 := t1 / 1000000000) in *. set (q2 := t2 / 1000000000) in *.
  set (r1 := t1 mod 1000000000) in *. set (r2 := t2 mod 1000000000) in *.
  assert (Hcase : q1 < q2 \/ q1 = q2) by lia.
  destruct Hcase as [Hlt|Heq].
  - destruct (_ || _), (_ || _); lia.
  - rewrite Heq in *.
    destruct (Z.odd q2);
      destruct (Z.ltb_spec 500000000 r1), (Z.ltb_spec 500000000 r2),
        (Z.eqb_spec r1 500000000), (Z.eqb_spec r2 500000000);
      cbn [orb andb]; lia.
Qed.

Lemma StronglySorted_stride_from {A : Type} (R : A -> A -> Prop) (l : list A) :
  StronglySorted R l -> forall skip gap, StronglySorted R (stride_from skip gap l).
Proof.
  induction 1 as [|x t Ht IH Hx]; intros skip gap; cbn [stride_from];
    [constructor|].
  destruct skip; [|apply IH].
  constructor; [apply IH | now apply Forall_stride_from].
Qed.

Lemma StronglySorted_nth_le (l : list Z) (i j : nat) :
  StronglySorted Z.le l -> (i <= j)%nat -> (j < length l)%nat ->
  nth i l NaT <= nth j l NaT.
Proof.
  intros Hs. revert i j.
  induction Hs as [|x t Ht IH Hx]; intros i j Hij Hj; cbn [length] in Hj;
    [lia|].
  destruct i as [|i], j as [|j]; cbn [nth]; try lia.
  - rewrite Forall_forall in Hx. apply Hx, nth_In. lia.
  - apply IH; lia.
Qed.

Lemma sorted_hd_le_last (l : list nat) :
  StronglySorted lt l -> (hd 0 l <= last l 0)%nat.
Proof.
  intros Hs. destruct Hs as [|x t Ht Hx]; [reflexivity|].
  cbn [hd]. destruct t as [|y t]; [reflexivity|].
  rewrite Forall_forall in Hx.
  assert (Hin : In (last (y :: t) 0%nat) (y :: t)).
  { destruct (@exists_last _ (y :: t) ltac:(discriminate)) as (l' & a & Heq).
    rewrite Heq, last_last. apply in_or_app. right. now left. }
  change (last (x :: y :: t) 0%nat) with (last (y :: t) 0%nat).
  specialize (Hx _ Hin). lia.
Qed.

Lemma to_datetime_time_slice (step : Z) (tv : time_array) :
  to_datetime (time_slice step tv) = slice_step step (to_datetime tv).
Proof.
  destruct tv; cbn [to_datetime time_slice]; [reflexivity|].
  unfold slice_step. symmetry. apply stride_from_map.
Qed.

(** On a time axis that never decreases and has no missing instant, the
    start of every track is not later than its end. *)
Theorem track_start_not_after_end :
  forall (lon lat : CoordVar) (tv : time_array) (step : Z),
    well_shaped lon lat tv ->
    StronglySorted Z.le (to_datetime tv) ->
    Forall (fun t => t <> NaT) (to_datetime tv) ->
    let acc := line_tracks lon lat tv step in
    Forall2 Z.le (times_start acc) (times_end acc).
Proof.
  intros lon lat tv step Hwf Hsorted Hnat acc. subst acc.
  set (raw := to_datetime (time_slice step tv)).
  assert (Hraw_sorted : StronglySorted Z.le raw).
  { unfold raw. rewrite to_datetime_time_slice.
    now apply StronglySorted_stride_from. }
  assert (Hraw_nat : Forall (fun t => t <> NaT) raw).
  { unfold raw. rewrite to_datetime_time_slice.
    now apply Forall_stride_from. }
  assert (Hraw : length raw = length (lon_sub_of lon step)).
  { rewrite <- (time_sub_of_length_lon lon lat tv step Hwf).
    unfold time_sub_of. now rewrite length_map. }
  unfold line_tracks, time_sub_of. fold raw.
  rewrite (build_lines_spec _ _ raw (length (lon_sub_of lon step)) eq_refl
             (proj1 (lat_sub_of_shaped lon lat tv step Hwf)) Hraw).
  unfold tracks_over. cbn [times_start times_end].
  induction (seq 0 (ncols lon)) as [|pid t IH]; cbn [filter]; [constructor|].
  destruct (has_track _ _ _ pid) eqn:Htrack; [|exact IH].
  cbn [map]. constructor; [|exact IH].
  unfold track_start, track_end.
  set (vt := valid_times (lon_sub_of lon step) (lat_sub_of lon lat step)
               (length (lon_sub_of lon step)) pid) in *.
  assert (Hvt : StronglySorted lt vt)
    by apply StronglySorted_filter, StronglySorted_seq.
  assert (Hne : vt <> []).
  { unfold has_track in Htrack. fold vt in Htrack.
    intros Heq. rewrite Heq in Htrack. discriminate. }
  assert (Hlast : (last vt 0 < length raw)%nat).
  { destruct (@exists_last _ vt Hne) as (l' & a & Heq).
    rewrite Heq, last_last.
    assert (Hin : In a vt) by (rewrite Heq; apply in_or_app; right; now left).
    unfold vt, valid_times in Hin. apply filter_In in Hin.
    destruct Hin as [Hin _]. apply in_seq in Hin. lia. }
  pose proof (sorted_hd_le_last vt Hvt) as Hhl.
  rewrite Forall_forall in Hraw_nat.
  apply round_s_mono.
  - apply Hraw_nat, nth_In. lia.
  - apply Hraw_nat, nth_In. lia.
  - now apply StronglySorted_nth_le.
Qed.

Lemma track_start_not_after_end_witness :
  Forall2 Z.le (times_start (line_tracks demo_lon demo_lat (hourly_axis 4) 1))
               (times_end (line_tracks demo_lon demo_lat (hourly_axis 4) 1)).
Proof.
  apply (track_start_not_after_end demo_lon demo_lat (hourly_axis 4) 1).
  - exact demo_well_shaped.
  - cbn. repeat constructor; lia.
  - cbn. repeat constructor; discriminate.
Defined.

(** ** Line mode against point mode *)

Lemma combine_maps {A B C : Type} (f : A -> B) (g : A -> C) (l : list A) :
  combine (map f l) (map g l) = map (fun x => (f x, g x)) l.
Proof. induction l as [|x t IH]; cbn; [reflexivity | now rewrite IH]. Qed.

Lemma filter_eq_in_filtered_seq (g : nat -> bool) (j len : nat) :
  filter (Nat.eqb j) (filter g (seq 0 len))
  = if (Nat.ltb j len && g j)%bool then [j] else [].
Proof.
  pose proof (count_eq_in_filtered_seq g j len 0) as Hcount.
  cbn [Nat.leb Nat.add andb] in Hcount.
  assert (Hall : forall x,
             In x (filter (Nat.eqb j) (filter g (seq 0 len))) -> x = j).
  { intros x Hx. apply filter_In in Hx. destruct Hx as [_ Hx].
    symmetry. now apply Nat.eqb_eq. }
  destruct (filter (Nat.eqb j) (filter g (seq 0 len))) as [|a [|b t]];
    destruct (Nat.ltb j len && g j)%bool; cbn [length] in Hcount;
    try discriminate; [reflexivity|].
  now rewrite (Hall a (or_introl eq_refl)).
Qed.

Lemma valid_pairs_of_particle (lon_sub lat_sub : list (list float))
  (n_time n_particles j : nat) :
  (j < n_particles)%nat ->
  filter (fun p => Nat.eqb j (snd p))
         (valid_pairs lon_sub lat_sub n_time n_particles)
  = map (fun i => (i, j)) (valid_times lon_sub lat_sub n_time j).
Proof.
  intros Hj. unfold valid_pairs, valid_times.
  induction (seq 0 n_time) as [|i t IH]; cbn [flat_map filter map];
    [reflexivity|].
  rewrite filter_app, IH.
  rewrite (filter_map_swap (fun p : nat * nat => Nat.eqb j (snd p)) (pair i)).
  cbn [snd]. rewrite filter_eq_in_filtered_seq.
  destruct (Nat.ltb_spec j n_particles); [|lia]. cbn [andb].
  destruct (jointly_finite lon_sub lat_sub i j); reflexivity.
Qed.

(** On a well-shaped dataset the two modes agree: the polyline of a
    particle goes through the coordinates of the point records that point
    mode builds for that particle, in their order, and the particles that
    get a track are those with at least two point records. *)
Theorem tracks_pass_through_point_records :
  forall (lon lat : CoordVar) (tv : time_array) (step : Z),
    well_shaped lon lat tv ->
    let acc := line_tracks lon lat tv step in
    let t := point_rows lon lat tv step in
    lines acc
    = map (fun pid => LineString (coords_of_particle (Z.of_nat pid) t))
          (valid_pids acc) /\
    (forall pid,
        In pid (valid_pids acc)
        <-> (pid < ncols lon)%nat
            /\ (2 <= length (coords_of_particle (Z.of_nat pid) t))%nat).
Proof.
  intros lon lat tv step Hwf acc t.
  pose proof (lon_sub_of_shaped lon lat tv step Hwf) as Hlon.
  pose proof (lat_sub_of_shaped lon lat tv step Hwf) as Hlat.
  set (lon_sub := lon_sub_of lon step) in *.
  set (lat_sub := lat_sub_of lon lat step) in *.
  set (n_time := length lon_sub) in *.
  assert (Hraw : length (to_datetime (time_slice step tv)) = n_time).
  { unfold n_time, lon_sub.
    rewrite <- (time_sub_of_length_lon lon lat tv step Hwf).
    unfold time_sub_of. now rewrite length_map. }
  assert (Hcoords : forall pid,
    (pid < ncols lon)%nat ->
    coords_of_particle (Z.of_nat pid) t
    = map (fun i => (cell lon_sub i pid, cell lat_sub i pid))
          (valid_times lon_sub lat_sub n_time pid)).
  { intros pid Hpid. subst t. unfold coords_of_particle, point_rows.
    fold lon_sub lat_sub.
    rewrite (build_points_fields n_time (ncols lon) lon_sub lat_sub _ Hlon Hlat).
    cbn [pt_pids pt_x pt_y].
    rewrite !combine_maps.
    rewrite (filter_map_swap (fun r : Z * (float * float) => fst r =? Z.of_nat pid)).
    cbn [fst].
    rewrite (filter_ext _ (fun p : nat * nat => Nat.eqb pid (snd p))).
    2:{ intros p. destruct (Nat.eqb_spec pid (snd p)) as [->|Hne].
        - apply Z.eqb_refl.
        - apply Z.eqb_neq. lia. }
    rewrite (valid_pairs_of_particle _ _ _ _ _ Hpid).
    rewrite !map_map. reflexivity. }
  assert (Hacc : acc = tracks_over lon_sub lat_sub
                         (to_datetime (time_slice step tv)) n_time
                         (seq 0 (ncols lon))).
  { subst acc. unfold line_tracks, time_sub_of. fold lon_sub lat_sub.
    apply build_lines_spec; [reflexivity | apply Hlat | exact Hraw]. }
  rewrite Hacc. unfold tracks_over. cbn [lines valid_pids]. split.
  - apply map_ext_in. intros pid Hpid.
    apply filter_In in Hpid. destruct Hpid as [Hpid _]. apply in_seq in Hpid.
    unfold track_line. rewrite Hcoords by lia. reflexivity.
  - intros pid. rewrite filter_In, in_seq. unfold has_track.
    rewrite Nat.leb_le. split.
    + intros [Hpid Htwo]. split; [lia|].
      rewrite Hcoords by lia. now rewrite length_map.
    + intros [Hpid Htwo]. split; [lia|].
      rewrite Hcoords in Htwo by lia. now rewrite length_map in Htwo.
Qed.

Lemma tracks_pass_through_point_records_witness :
  lines (line_tracks demo_lon demo_lat (hourly_axis 4) 1)
  = [LineString
       (coords_of_particle 0 (point_rows demo_lon demo_lat (hourly_axis 4) 1))].
Proof.
  destruct (tracks_pass_through_point_records demo_lon demo_lat
              (hourly_axis 4) 1 demo_well_shaped) as [Hlines _].
  rewrite Hlines. vm_compute. reflexivity.
Defined.

(** ** What a conversion returns and what it has written *)

Lemma export_gdf_returned_wrote (E : env) (gdf : GeoDataFrame)
  (output_path : string) :
  fst (export_gdf E gdf output_path []) = Ret tt ->
  exists w,
    filter is_write (snd (export_gdf E gdf output_path []))
    = [WriteFile output_path w]
    /\ carries w gdf.
Proof.
  export_cases E gdf output_path; intros Hres; try discriminate Hres;
    eexists; (split; [reflexivity|]); cbn [carries];
    first [reflexivity | left; reflexivity | right; reflexivity].
Qed.

(** how a run of either routine can end: with an exception, with [None]
    and nothing put out, or in the export of the collection it returns *)
Lemma routine_outcome (E : env) (nc_file output_path : string)
  (hours : pynum) (run : M (option GeoDataFrame)) :
  run = ncTrk2line E nc_file output_path hours
  \/ run = ncTrk2pt E nc_file output_path hours ->
  (exists e tr', run [] = (Raise e, tr'))
  \/ (exists tr1,
         filter is_output tr1 = []
         /\ (run [] = (Ret None, tr1)
             \/ exists gdf,
                 run [] = (export_gdf E gdf output_path ;; ret (Some gdf)) tr1)).
Proof.
  intros Hrun.
  destruct (isfile E nc_file) eqn:Hf.
  2:{ left. exists FileNotFoundError, [].
      destruct Hrun as [-> | ->]; unfold ncTrk2line, ncTrk2pt; rewrite Hf;
        reflexivity. }
  destruct (stored_dataset E nc_file) as [ds|e] eqn:Hd.
  2:{ left. exists e, [].
      destruct Hrun as [-> | ->]; unfold ncTrk2line, ncTrk2pt; rewrite Hf;
        unfold xr_open_dataset; rewrite Hd; reflexivity. }
  destruct ds as [[lon|] [lat|] [tv|]];
    try (left; exists KeyError; eexists;
         destruct Hrun as [-> | ->]; unfold ncTrk2line, ncTrk2pt; rewrite Hf;
         unfold xr_open_dataset; rewrite Hd; reflexivity).
  assert (Hload : loads E nc_file lon lat tv) by (constructor; assumption).
  destruct (compute_step (times_3600 hours) (median_dt_of tv))
    as [step|e] eqn:Hstep.
  2:{ left. exists e. eexists.
      destruct Hrun as [-> | ->];
        [apply (ncTrk2line_step_raises _ _ _ _ _ _ _ Hload _ _ Hstep)
        |apply (ncTrk2pt_step_raises _ _ _ _ _ _ _ Hload _ _ Hstep)]. }
  right. destruct Hrun as [-> | ->].
  - rewrite (ncTrk2line_loaded _ _ _ _ _ _ _ Hload _ _ Hstep). cbv zeta.
    destruct (lines (line_tracks lon lat tv step));
      eexists; (split; [|first [left; reflexivity
                               |right; eexists; reflexivity]]);
      reflexivity.
  - rewrite (ncTrk2pt_loaded _ _ _ _ _ _ _ Hload _ _ Hstep). cbv zeta.
    destruct (length (pt_x (point_rows lon lat tv step)) =? 0)%nat;
      eexists; (split; [|first [left; reflexivity
                               |right; eexists; reflexivity]]);
      reflexivity.
Qed.

(** Either routine returns a collection only after it has handed it to
    a writing backend: when the run returns [Some gdf], one backend call
    and no more has been made, with the output path, and it was made on
    [gdf]; when the run returns [None], no writing backend and no
    [os.makedirs] has been called. *)
Theorem returned_collection_was_handed_to_backend :
  forall (E : env) (nc_file output_path : string) (hours : pynum)
         (run : M (option GeoDataFrame)),
    run = ncTrk2line E nc_file output_path hours
    \/ run = ncTrk2pt E nc_file output_path hours ->
    forall (r : option GeoDataFrame) (tr' : list event),
      run [] = (Ret r, tr') ->
      match r with
      | Some gdf =>
          exists w, filter is_write tr' = [WriteFile output_path w]
                    /\ carries w gdf
      | None => filter is_output tr' = []
      end.
Proof.
  intros E nc_file output_path hours run Hrun r tr' Hres.
  destruct (routine_outcome E nc_file output_path hours run Hrun)
    as [(e & tr1 & Hraise) | (tr1 & Hquiet & [Hnone | (gdf & Hexp)])].
  - rewrite Hraise in Hres. discriminate.
  - rewrite Hnone in Hres. injection Hres as <- <-. exact Hquiet.
  - rewrite Hexp in Hres. unfold bind in Hres.
    rewrite (frames_export_gdf E gdf output_path tr1) in Hres.
    pose proof (export_gdf_returned_wrote E gdf output_path) as Hw.
    destruct (export_gdf E gdf output_path []) as [[[]|e] l];
      cbn [fst snd] in *; [|discriminate].
    injection Hres as <- <-.
    destruct (Hw eq_refl) as (w & Hfilter & Hcarries).
    exists w. split; [|exact Hcarries].
    rewrite filter_app, Hfilter.
    assert (Hnow : filter is_write tr1 = []).
    { clear -Hquiet. induction tr1 as [|ev t IH]; [reflexivity|].
      cbn [filter] in *. unfold is_output in Hquiet.
      destruct (is_write ev); cbn [orb] in Hquiet; [discriminate|].
      destruct (is_makedirs ev); [discriminate|]. now apply IH. }
    now rewrite Hnow.
Qed.

Lemma returned_collection_was_handed_to_backend_witness :
  exists gdf w,
    fst (ncTrk2pt demo_env "trk.nc" "out/points.csv" (PyInt 1) []) = Ret (Some gdf)
    /\ filter is_write
         (snd (ncTrk2pt demo_env "trk.nc" "out/points.csv" (PyInt 1) []))
       = [WriteFile "out/points.csv" w]
    /\ carries w gdf.
Proof.
  pose proof (returned_collection_was_handed_to_backend demo_env "trk.nc"
                "out/points.csv" (PyInt 1) _ (or_intror eq_refl)) as H.
  destruct (ncTrk2pt demo_env "trk.nc" "out/points.csv" (PyInt 1) [])
    as [[[gdf|]|e] tr'] eqn:Hrun; try (vm_compute in Hrun; discriminate Hrun).
  destruct (H (Some gdf) tr' eq_refl) as (w & Hw & Hc).
  exists gdf, w. cbn [fst snd]. repeat split; assumption.
Defined.

(** ** One task *)

Section TaskProperties.

Variable line_conv pt_conv : json -> json -> json -> M unit.

(** [process_task] on a dictionary whose mode is the text [m], after the
    four reads of its first lines *)
Lemma process_task_text_mode (kv : list (string * json)) (m : string)
  (tr : list event) :
  field kv "mode" (JStr "point") = JStr m ->
  process_task line_conv pt_conv (JObj kv) tr
  = (let nc_file := field kv "input_nc" JNull in
     let output_path := field kv "output_path" JNull in
     let downscale_hour :=
       field kv "downscale_hour" (JNum (PyFloat (F64.of_Z 1))) in
     if negb (truthy nc_file) || negb (truthy output_path) then
       print MsgTaskMissing
     else
       name <- json_basename output_path ;;
       print (MsgStartTask (upper (lower m)) name) ;;
       try_except
         (if String.eqb (lower m) "line" then
            line_conv nc_file output_path downscale_hour
          else if String.eqb (lower m) "point" then
            pt_conv nc_file output_path downscale_hour
          else
            print (MsgUnknownMode (lower m)))
         (fun e =>
            print (MsgTaskError e) ;;
            print (MsgTraceback e))) tr.
Proof.
  unfold field. intros Hm.
  unfold process_task. rewrite !task_get_obj.
  change (bind (ret ?a) ?k) with (k a). cbv beta.
  rewrite Hm. cbn [json_lower].
  change (bind (ret ?a) ?k) with (k a). cbv beta.
  reflexivity.
Qed.

Lemma process_task_lacks_method (task : json) (tr : list event) :
  lacks_method task ->
  process_task line_conv pt_conv task tr = (Raise AttributeError, tr).
Proof.
  destruct task as [| | | | |kv]; cbn [lacks_method];
    try (intros _; reflexivity).
  unfold field. intros Hmode.
  unfold process_task. rewrite !task_get_obj.
  change (bind (ret ?a) ?k) with (k a). cbv beta.
  destruct (match dict_get kv "mode" with
            | Some v => v
            | None => JStr "point"
            end); try contradiction; reflexivity.
Qed.

Lemma for_each_app {A : Type} (f : A -> M unit) (l1 l2 : list A)
  (tr tr1 : list event) :
  for_each f l1 tr = (Ret tt, tr1) ->
  for_each f (l1 ++ l2)%list tr = for_each f l2 tr1.
Proof.
  revert tr. induction l1 as [|x t IH]; cbn [for_each app]; intros tr Hrun.
  - cbv [ret] in Hrun. now injection Hrun as <-.
  - unfold bind in *. destruct (f x tr) as [[[]|e] tr0]; [|discriminate].
    now apply IH.
Qed.

(** A task dictionary without a usable ["input_nc"] or ["output_path"]
    (absent, [null], empty, zero or [false]) is reported and skipped:
    the task prints the one notice and returns, and neither conversion is
    called, whatever the mode is, as long as the mode is text. *)
Theorem task_without_paths_is_skipped :
  forall (kv : list (string * json)) (m : string) (tr : list event),
    field kv "mode" (JStr "point") = JStr m ->
    truthy (field kv "input_nc" JNull) = false
    \/ truthy (field kv "output_path" JNull) = false ->
    process_task line_conv pt_conv (JObj kv) tr
    = (Ret tt, (tr ++ [Print MsgTaskMissing])%list).
Proof.
  intros kv m tr Hm Hmissing.
  rewrite (process_task_text_mode kv m tr Hm). cbv zeta.
  destruct Hmissing as [-> | ->]; cbn [negb orb];
    [|rewrite orb_true_r]; reflexivity.
Qed.

(** The mode is compared after lowering its case.  When the mode is
    written in ASCII and, lowered, is neither [line] nor [point], the task
    announces itself, prints the unknown-mode notice with the lowered
    mode, and returns: neither conversion is called. *)
Theorem unknown_mode_runs_no_conversion :
  forall (kv : list (string * json)) (m o : string) (tr : list event),
    field kv "mode" (JStr "point") = JStr m ->
    ascii_only m = true ->
    truthy (field kv "input_nc" JNull) = true ->
    field kv "output_path" JNull = JStr o ->
    o <> EmptyString ->
    lower m <> "line" -> lower m <> "point" ->
    process_task line_conv pt_conv (JObj kv) tr
    = (Ret tt,
       (tr ++ [Print (MsgStartTask (upper (lower m)) (basename o));
               Print (MsgUnknownMode (lower m))])%list).
Proof.
  intros kv m o tr Hm _ Hnc Hout Ho Hline Hpoint.
  rewrite (process_task_text_mode kv m tr Hm). cbv zeta.
  rewrite Hnc, Hout. cbn [truthy negb orb json_basename].
  apply String.eqb_neq in Ho, Hline, Hpoint. rewrite Ho. cbn [negb].
  change (bind (ret ?a) ?k) with (k a). cbv beta.
  unfold try_except. rewrite Hline, Hpoint.
  cbv [bind print emit]. now rewrite <- app_assoc.
Qed.

(** A task in line or point mode (in any letter case; point when the
    dictionary has no mode) hands the three values to the conversion of
    that mode, 1.0 standing for an absent ["downscale_hour"].  When the
    conversion returns, the task returns with the trace of the conversion;
    when it raises, the task still returns normally, after printing the
    error and the traceback behind what the conversion had emitted. *)
Theorem conversion_failure_is_reported_and_swallowed :
  forall (kv : list (string * json)) (m o : string) (tr : list event),
    field kv "mode" (JStr "point") = JStr m ->
    truthy (field kv "input_nc" JNull) = true ->
    field kv "output_path" JNull = JStr o ->
    o <> EmptyString ->
    lower m = "line" \/ lower m = "point" ->
    let conv := if String.eqb (lower m) "line" then line_conv else pt_conv in
    let started :=
      (tr ++ [Print (MsgStartTask (upper (lower m)) (basename o))])%list in
    let call :=
      conv (field kv "input_nc" JNull) (JStr o)
           (field kv "downscale_hour" (JNum (PyFloat (F64.of_Z 1)))) started in
    process_task line_conv pt_conv (JObj kv) tr
    = match fst call with
      | Ret _ => (Ret tt, snd call)
      | Raise e =>
          (Ret tt,
           (snd call ++ [Print (MsgTaskError e); Print (MsgTraceback e)])%list)
      end.
Proof.
  intros kv m o tr Hm Hnc Hout Ho Hmode conv started call.
  rewrite (process_task_text_mode kv m tr Hm). cbv zeta.
  rewrite Hnc, Hout in *. cbn [truthy negb orb json_basename].
  apply String.eqb_neq in Ho. rewrite Ho. cbn [negb].
  change (bind (ret ?a) ?k) with (k a). cbv beta.
  unfold bind at 1. cbv [print emit]. fold started.
  unfold try_except. subst call conv.
  destruct Hmode as [Hmode | Hmode]; rewrite Hmode; cbn [String.eqb Ascii.eqb Bool.eqb].
  - destruct (line_conv _ _ _ started) as [[[]|e] tr1]; cbn [fst snd];
      [reflexivity|]. cbv [bind print emit]. now rewrite <- app_assoc.
  - destruct (pt_conv _ _ _ started) as [[[]|e] tr1]; cbn [fst snd];
      [reflexivity|]. cbv [bind print emit]. now rewrite <- app_assoc.
Qed.

(** A task that is no dictionary, or whose ["mode"] is there and is no
    text, raises [AttributeError] outside the [try] block.  The loop of
    [main] has no handler either: the run ends there with exit status 1,
    with the trace the tasks before it left, and the tasks after it are
    never looked at. *)
Theorem malformed_task_stops_the_batch :
  forall (E : env) (config_path : string) (before after : list json)
         (task : json) (tr tr1 : list event),
    path_exists E config_path = true ->
    json_load E config_path = Some (JArr (before ++ task :: after)%list) ->
    lacks_method task ->
    for_each (process_task line_conv pt_conv) before
      (tr ++ [Print (MsgFoundTasks (length (before ++ task :: after)%list))])%list
    = (Ret tt, tr1) ->
    main line_conv pt_conv E config_path tr = (Uncaught AttributeError, tr1)
    /\ exit_code (fst (main line_conv pt_conv E config_path tr)) = 1.
Proof.
  intros E config_path before after task tr tr1 Hexists Hload Hbad Hbefore.
  assert (Hmain : main line_conv pt_conv E config_path tr
                  = (Uncaught AttributeError, tr1)).
  { unfold main. rewrite Hexists, Hload. cbn [negb tasks_of].
    unfold bind at 1. cbv [print emit].
    unfold bind at 1.
    rewrite (for_each_app _ _ _ _ _ Hbefore). cbn [for_each].
    unfold bind at 1. rewrite (process_task_lacks_method task tr1 Hbad).
    reflexivity. }
  split; [exact Hmain | now rewrite Hmain].
Qed.

(** A configuration that is neither a list nor a dictionary (a number, a
    text, [true], [null]) holds no task: the run announces zero tasks,
    calls nothing, prints the closing notice and returns. *)
Theorem scalar_configuration_runs_nothing :
  forall (E : env) (config_path : string) (config : json) (tr : list event),
    path_exists E config_path = true ->
    json_load E config_path = Some config ->
    scalar config ->
    main line_conv pt_conv E config_path tr
    = (Returned,
       (tr ++ [Print (MsgFoundTasks 0); Print MsgAllDone])%list).
Proof.
  intros E config_path config tr Hexists Hload Hscalar.
  unfold main. rewrite Hexists, Hload. cbn [negb].
  destruct config; try contradiction;
    cbn [tasks_of length for_each]; cbv [bind print emit ret];
    now rewrite <- app_assoc.
Qed.

End TaskProperties.

Lemma task_without_paths_is_skipped_witness :
  process_task (on_json (ncTrk2line demo_env)) (on_json (ncTrk2pt demo_env))
    (JObj [("input_nc", JStr "trk.nc"); ("mode", JStr "Line")]) []
  = (Ret tt, [Print MsgTaskMissing]).
Proof.
  apply (task_without_paths_is_skipped _ _ _ "Line" []);
    [reflexivity | right; reflexivity].
Defined.

Lemma unknown_mode_runs_no_conversion_witness :
  process_task (on_json (ncTrk2line demo_env)) (on_json (ncTrk2pt demo_env))
    (JObj [("input_nc", JStr "trk.nc"); ("output_path", JStr "out/a.gpkg");
           ("mode", JStr "Area")]) []
  = (Ret tt, [Print (MsgStartTask "AREA" "a.gpkg");
              Print (MsgUnknownMode "area")]).
Proof.
  apply (unknown_mode_runs_no_conversion _ _ _ "Area" "out/a.gpkg" []);
    try reflexivity; discriminate.
Defined.

Lemma conversion_failure_is_reported_and_swallowed_witness :
  process_task (on_json (ncTrk2line demo_env)) (on_json (ncTrk2pt demo_env))
    (JObj [("input_nc", JStr "absent.nc"); ("output_path", JStr "out/a.gpkg");
           ("mode", JStr "LINE")]) []
  = (Ret tt, [Print (MsgStartTask "LINE" "a.gpkg");
              Print (MsgTaskError FileNotFoundError);
              Print (MsgTraceback FileNotFoundError)]).
Proof.
  rewrite (conversion_failure_is_reported_and_swallowed _ _ _
             "LINE" "out/a.gpkg" []);
    [vm_compute; reflexivity
    |reflexivity | reflexivity | reflexivity | discriminate
    |left; reflexivity].
Defined.

Lemma malformed_task_stops_the_batch_witness :
  partpost_main (batch_env (JArr [JObj []; JStr "trk.nc"; point_task]))
    "tasks.json" []
  = (Uncaught AttributeError,
     [Print (MsgFoundTasks 3); Print MsgTaskMissing]).
Proof.
  unfold partpost_main.
  apply (malformed_task_stops_the_batch _ _
           (batch_env (JArr [JObj []; JStr "trk.nc"; point_task]))
           "tasks.json" [JObj []] [point_task] (JStr "trk.nc") []
           [Print (MsgFoundTasks 3); Print MsgTaskMissing]);
    [reflexivity | reflexivity | exact I | vm_compute; reflexivity].
Defined.

Lemma scalar_configuration_runs_nothing_witness :
  partpost_main (batch_env (JNum (PyInt 7))) "tasks.json" []
  = (Returned, [Print (MsgFoundTasks 0); Print MsgAllDone]).
Proof.
  unfold partpost_main.
  apply (scalar_configuration_runs_nothing _ _ (batch_env (JNum (PyInt 7)))
           "tasks.json" (JNum (PyInt 7)) []);
    [reflexivity | reflexivity | exact I].
Defined.
